(** * prescaledfastadj: the AdjacencyCore extension type ([core.c])

    A shallow embedding of the orchestration code of [core.c]: the
    constructor, the [points] accessor pair, [apply] and
    [normalized_eigs], together with the properties the specification
    states about them.

    Conventions.
    - A C [int] is a [Z] in the signed 32-bit range.  Signed overflow is
      undefined in C.  Where the value is an index or an allocation size,
      [CInt.add] and [CInt.mul] give no result there.  The products of the
      constructor's [NN] loop only steer the loop, and the operator the
      constructor returns depends on them: they are taken as the compiled
      code computes them, modulo [2 ^ 32] ([CInt.mul_wrap]).  The
      conversion of a wider integer to [int] reduces it modulo [2 ^ 32]
      ([CInt.wrap]), as the compilers the module is built with define it.
    - A C [double] is a binary64 [float] (primitive floats), a
      [double complex] a pair of them.
    - A [NULL] pointer is [None]; memory a pointer refers to is a list.
    - A function of the extension takes the object and returns the object
      after the call with what the call returned.  The outer [option] is
      [None] where C leaves the behaviour undefined (an index or size that
      overflowed, a store outside a buffer, a [NULL] dereference), where the
      constructor's [NN] loop does not end, or where the ARPACK loop did not
      finish within the fuel it was given.
    - NFFT's fastsum and ARPACK are libraries outside this repository; the
      numerical routines are fields of the classes [FastsumLib] and
      [ArpackLib]. *)

From Stdlib Require Import ZArith Lia Floats Bool.
From stdpp Require Import base tactics option list.

Open Scope Z_scope.

(** ** C integers *)

Module CInt.

Definition min_signed : Z := - 2 ^ 31.
Definition max_signed : Z := 2 ^ 31 - 1.

Definition in_range (z : Z) : Prop := min_signed <= z <= max_signed.

Definition in_rangeb (z : Z) : bool := (min_signed <=? z) && (z <=? max_signed).

(** Conversion of an [npy_intp] to [int]. *)
Definition wrap (z : Z) : Z := (z + 2 ^ 31) mod 2 ^ 32 - 2 ^ 31.

(** The value of an [int] expression, if it is one. *)
Definition check (z : Z) : option Z := if in_rangeb z then Some z else None.

Definition add (a b : Z) : option Z := check (a + b).
Definition mul (a b : Z) : option Z := check (a * b).

(** The product as the compiled code computes it, reduced modulo
    [2 ^ 32]. *)
Definition mul_wrap (a b : Z) : Z := wrap (a * b).

End CInt.

(** ** C doubles and complex numbers *)

Definition complex : Type := float * float.

Definition CMPLX (re im : float) : complex := (re, im).
Definition CREAL (c : complex) : float := fst c.

(** ** The Python values the extension sees *)

Inductive PyExc : Type :=
  | RuntimeError
  | TypeError
  | ValueError
  | OverflowError.

(** What a C entry point hands back: a value, or an exception (with the
    error return [NULL] or [-1] that goes with it). *)
Inductive result (A : Type) : Type :=
  | Return (a : A)
  | Raise (e : PyExc).

Arguments Return {A} a.
Arguments Raise {A} e.

(** An array element as [PyArray_GETITEM] returns it: either an object
    [PyFloat_AsDouble] converts, with the double it converts to, or one it
    refuses. *)
Inductive PyObject : Type :=
  | PyNumber (v : float)
  | PyNonNumber.

(** [PyFloat_AsDouble]: the converted value and whether the error indicator
    was set; on error the value is [-1.0]. *)
Definition PyFloat_AsDouble (item : PyObject) : float * bool :=
  match item with
  | PyNumber v => (v, false)
  | PyNonNumber => ((-1)%float, true)
  end.

(** A numpy array: its shape and its elements in row-major (index) order. *)
Record PyArrayObject : Type := {
  dims : list Z;
  items : list PyObject
}.

Definition PyArray_NDIM (a : PyArrayObject) : Z := Z.of_nat (length (dims a)).
Definition PyArray_DIM (a : PyArrayObject) (k : nat) : Z := nth k (dims a) 0.

(** [PyArray_GETITEM (a, PyArray_GETPTR1 (a, i))] *)
Definition PyArray_GETITEM1 (a : PyArrayObject) (i : Z) : option PyObject :=
  if 0 <=? i then items a !! Z.to_nat i else None.

(** [PyArray_GETITEM (a, PyArray_GETPTR2 (a, i, j))] *)
Definition PyArray_GETITEM2 (a : PyArrayObject) (i j : Z) : option PyObject :=
  if (0 <=? i) && (0 <=? j) && (j <? PyArray_DIM a 1)
  then items a !! Z.to_nat (i * PyArray_DIM a 1 + j)
  else None.

(** The shape describes the elements: no negative extent, and as many
    elements as the extents multiply to. *)
Definition array_wf (a : PyArrayObject) : Prop :=
  Forall (fun k => 0 <= k) (dims a) /\
  Z.of_nat (length (items a)) = fold_right Z.mul 1 (dims a).

(** A Python value passed where an array is expected. [PyNULL] is the C
    [NULL] the setter receives on attribute deletion. *)
Inductive PyValue : Type :=
  | PyNULL
  | PyNone
  | PyArray (a : PyArrayObject)
  | PyOther.

(** [PyArray_Converter]: succeeds on anything numpy turns into an array;
    [None] becomes a zero-dimensional object array. *)
Definition PyArray_Converter (v : PyValue) : option PyArrayObject :=
  match v with
  | PyArray a => Some a
  | PyNone => Some {| dims := []; items := [PyNonNumber] |}
  | PyNULL | PyOther => None
  end.

(** ** The fastsum plan, as far as [core.c] touches it *)

Inductive kernel_fn : Type :=
  | gaussian
  | xx_gaussian
  | laplacian_rbf.

(** The one flag of [fastsum.h] the constructor passes. *)
Inductive fastsum_flags : Type :=
  | STORE_PERMUTATION_X_ALPHA.

Record fastsum_plan : Type := {
  fs_d : Z;
  fs_k : kernel_fn;
  fs_kernel_param : float;
  fs_flags : fastsum_flags;
  fs_n : Z;
  fs_p : Z;
  fs_eps_I : float;
  fs_eps_B : float;
  fs_N_total : Z;
  fs_M_total : Z;
  fs_x : option (list float);
  fs_alpha : option (list complex);
  fs_y : option (list float);
  fs_f : option (list complex)
}.

Definition plan_set_source (pl : fastsum_plan) (N_total : Z)
    (x : option (list float)) (alpha : option (list complex)) : fastsum_plan :=
  {| fs_d := fs_d pl; fs_k := fs_k pl; fs_kernel_param := fs_kernel_param pl;
     fs_flags := fs_flags pl; fs_n := fs_n pl; fs_p := fs_p pl;
     fs_eps_I := fs_eps_I pl; fs_eps_B := fs_eps_B pl;
     fs_N_total := N_total; fs_M_total := fs_M_total pl;
     fs_x := x; fs_alpha := alpha; fs_y := fs_y pl; fs_f := fs_f pl |}.

Definition plan_set_target (pl : fastsum_plan) (M_total : Z)
    (y : option (list float)) (f : option (list complex)) : fastsum_plan :=
  {| fs_d := fs_d pl; fs_k := fs_k pl; fs_kernel_param := fs_kernel_param pl;
     fs_flags := fs_flags pl; fs_n := fs_n pl; fs_p := fs_p pl;
     fs_eps_I := fs_eps_I pl; fs_eps_B := fs_eps_B pl;
     fs_N_total := fs_N_total pl; fs_M_total := M_total;
     fs_x := fs_x pl; fs_alpha := fs_alpha pl; fs_y := y; fs_f := f |}.

(** [pl->x = x; pl->y = y; pl->alpha = alpha; pl->f = f] *)
Definition plan_set_buffers (pl : fastsum_plan)
    (x y : option (list float)) (alpha f : option (list complex)) : fastsum_plan :=
  plan_set_target (plan_set_source pl (fs_N_total pl) x alpha) (fs_M_total pl) y f.

(** The numerical side of the fastsum library, and what fresh storage holds. *)
Class FastsumLib : Type := {
  uninit_R : nat -> float;
  uninit_C : nat -> complex;
  fastsum_precompute : fastsum_plan -> fastsum_plan;
  fastsum_trafo : fastsum_plan -> fastsum_plan;
  fastsum_exact : fastsum_plan -> fastsum_plan
}.

(** A library routine that leaves the dimension, the node coordinates and
    the weights as they are and keeps the result buffer at its size. *)
Definition keeps_nodes (op : fastsum_plan -> fastsum_plan) : Prop :=
  forall pl,
    fs_d (op pl) = fs_d pl /\
    fs_x (op pl) = fs_x pl /\ fs_y (op pl) = fs_y pl /\
    fs_alpha (op pl) = fs_alpha pl /\
    length <$> fs_f (op pl) = length <$> fs_f pl.

Class FastsumContract (L : FastsumLib) : Prop := {
  precompute_keeps : keeps_nodes fastsum_precompute;
  trafo_keeps : keeps_nodes fastsum_trafo;
  exact_keeps : keeps_nodes fastsum_exact
}.

(** [nfft_malloc] of [k] doubles, of [k] complex numbers. *)
Definition malloc_R `{FastsumLib} (k : Z) : list float :=
  map uninit_R (seq 0 (Z.to_nat k)).
Definition malloc_C `{FastsumLib} (k : Z) : list complex :=
  map uninit_C (seq 0 (Z.to_nat k)).

(** [fastsum_init_guru_kernel]: a plan bound to a kernel and its parameter;
    no nodes yet. *)
Definition fastsum_init_guru_kernel (d : Z) (k : kernel_fn) (param : float)
    (flags : fastsum_flags) (nn p : Z) (eps_I eps_B : float) : fastsum_plan :=
  {| fs_d := d; fs_k := k; fs_kernel_param := param; fs_flags := flags;
     fs_n := nn; fs_p := p; fs_eps_I := eps_I; fs_eps_B := eps_B;
     fs_N_total := 0; fs_M_total := 0;
     fs_x := None; fs_alpha := None; fs_y := None; fs_f := None |}.

(** [fastsum_init_guru_source_nodes]: storage for [N_total] source nodes
    and their weights. *)
Definition fastsum_init_guru_source_nodes `{FastsumLib}
    (pl : fastsum_plan) (N_total nn_oversampled m : Z) : fastsum_plan :=
  plan_set_source pl N_total
    (Some (malloc_R (fs_d pl * N_total))) (Some (malloc_C N_total)).

(** [fastsum_init_guru_target_nodes]: storage for [M_total] target nodes
    and the sums at them. *)
Definition fastsum_init_guru_target_nodes `{FastsumLib}
    (pl : fastsum_plan) (M_total nn_oversampled m : Z) : fastsum_plan :=
  plan_set_target pl M_total
    (Some (malloc_R (fs_d pl * M_total))) (Some (malloc_C M_total)).

(** The two finalizers release the node storage. *)
Definition fastsum_finalize_source_nodes (pl : fastsum_plan) : fastsum_plan :=
  plan_set_source pl (fs_N_total pl) None None.
Definition fastsum_finalize_target_nodes (pl : fastsum_plan) : fastsum_plan :=
  plan_set_target pl (fs_M_total pl) None None.

(** ** The object *)

Record AdjacencyCoreObject : Type := {
  ac_kernel : Z;
  ac_d : Z;
  ac_sigma : float;
  ac_N : Z;
  ac_p : Z;
  ac_m : Z;
  ac_eps : float;
  ac_NN : Z;
  ac_diagonal : float;
  ac_n : Z;
  ac_fastsum : option fastsum_plan
}.

(** [self->fastsum = fastsum; self->n = n] *)
Definition set_points_state (self : AdjacencyCoreObject)
    (fastsum : option fastsum_plan) (n : Z) : AdjacencyCoreObject :=
  {| ac_kernel := ac_kernel self; ac_d := ac_d self; ac_sigma := ac_sigma self;
     ac_N := ac_N self; ac_p := ac_p self; ac_m := ac_m self;
     ac_eps := ac_eps self; ac_NN := ac_NN self;
     ac_diagonal := ac_diagonal self; ac_n := n; ac_fastsum := fastsum |}.

(** What [PyType_GenericNew] allocates: zeroed memory. *)
Definition AdjacencyCore_new : AdjacencyCoreObject :=
  {| ac_kernel := 0; ac_d := 0; ac_sigma := 0%float; ac_N := 0; ac_p := 0;
     ac_m := 0; ac_eps := 0%float; ac_NN := 0; ac_diagonal := 0%float;
     ac_n := 0; ac_fastsum := None |}.

(** The member setter of the one writable member, [diagonal]. *)
Definition set_diagonal (self : AdjacencyCoreObject) (v : float) : AdjacencyCoreObject :=
  {| ac_kernel := ac_kernel self; ac_d := ac_d self; ac_sigma := ac_sigma self;
     ac_N := ac_N self; ac_p := ac_p self; ac_m := ac_m self;
     ac_eps := ac_eps self; ac_NN := ac_NN self;
     ac_diagonal := v; ac_n := ac_n self; ac_fastsum := ac_fastsum self |}.

(** [check_fastsum]: [1] if the plan is there, else [0] with a
    [RuntimeError] set. *)
Definition check_fastsum (self : AdjacencyCoreObject) : bool :=
  match ac_fastsum self with
  | Some _ => true
  | None => false
  end.

(** [remove_points] *)
Definition remove_points (self : AdjacencyCoreObject) : option AdjacencyCoreObject :=
  if ac_n self =? 0 then Some self
  else
    pl ← ac_fastsum self;
    let pl := fastsum_finalize_target_nodes pl in
    let pl := fastsum_finalize_source_nodes pl in
    Some (set_points_state self (Some (plan_set_buffers pl None None None None)) 0).

(** ** Construction *)

(** The argument tuple of [__init__], its elements of the types the format
    ["iidiiid|i"] asks for; [InitMalformed] is a tuple of the wrong length,
    which [PyArg_ParseTuple] refuses before it converts an element. *)
Inductive PyInitArgs : Type :=
  | InitTuple (kernel d : Z) (sigma : float) (N p m : Z) (eps : float) (NN : option Z)
  | InitMalformed.

(** [PyArg_ParseTuple (args, "iidiiid|i", &self->kernel, &self->d, ...)] on a
    tuple of the right length: the elements are converted in order and each
    is stored through its pointer at once.  An integer that does not fit an
    [int] stops the parse (with [OverflowError] set), those before it
    already stored; an omitted [NN] leaves [self->NN] as it was.  The
    object after the parse, and whether the parse succeeded. *)
Definition PyArg_ParseTuple_init (self : AdjacencyCoreObject)
    (kernel d : Z) (sigma : float) (N p m : Z) (eps : float) (oNN : option Z)
    : AdjacencyCoreObject * bool :=
  let stored kernel d sigma N p m eps NN :=
    {| ac_kernel := kernel; ac_d := d; ac_sigma := sigma; ac_N := N;
       ac_p := p; ac_m := m; ac_eps := eps; ac_NN := NN;
       ac_diagonal := ac_diagonal self; ac_n := ac_n self;
       ac_fastsum := ac_fastsum self |} in
  if negb (CInt.in_rangeb kernel) then (self, false)
  else if negb (CInt.in_rangeb d) then
    (stored kernel (ac_d self) (ac_sigma self) (ac_N self) (ac_p self) (ac_m self)
            (ac_eps self) (ac_NN self), false)
  else if negb (CInt.in_rangeb N) then
    (stored kernel d sigma (ac_N self) (ac_p self) (ac_m self)
            (ac_eps self) (ac_NN self), false)
  else if negb (CInt.in_rangeb p) then
    (stored kernel d sigma N (ac_p self) (ac_m self) (ac_eps self) (ac_NN self), false)
  else if negb (CInt.in_rangeb m) then
    (stored kernel d sigma N p (ac_m self) (ac_eps self) (ac_NN self), false)
  else
    match oNN with
    | None => (stored kernel d sigma N p m eps (ac_NN self), true)
    | Some NN =>
        if negb (CInt.in_rangeb NN)
        then (stored kernel d sigma N p m eps (ac_NN self), false)
        else (stored kernel d sigma N p m eps NN, true)
    end.

(** The loop [while (2*self->N > self->NN) self->NN *= 2;], for at most
    [fuel] evaluations of its condition.  Both products are taken modulo
    [2 ^ 32]. *)
Fixpoint NN_loop (fuel : nat) (N NN : Z) : option Z :=
  match fuel with
  | O => None
  | S fuel' =>
      if CInt.mul_wrap 2 N >? NN then NN_loop fuel' N (CInt.mul_wrap NN 2)
      else Some NN
  end.

(** Started at [NN = 2] the loop either ends within 31 evaluations of its
    condition or has doubled [NN] past [2 ^ 30] to [0], where it stays: no
    fuel makes it end then (lemmas [NN_loop_fuel], [NN_loop_result]).  So
    [None] with this fuel is a loop that does not end. *)
Definition NN_fuel : nat := 32.

(** [AdjacencyCore_init]. *)
Definition AdjacencyCore_init (self : AdjacencyCoreObject)
    (args : PyInitArgs) : option (AdjacencyCoreObject * result Z) :=
  match args with
  | InitMalformed => Some (self, Raise TypeError)
  | InitTuple kernel d sigma N p m eps oNN =>
      let '(self, parsed) := PyArg_ParseTuple_init self kernel d sigma N p m eps oNN in
      if negb parsed then Some (self, Raise OverflowError)
      else
        NN ← (if ac_NN self =? 0 then NN_loop NN_fuel (ac_N self) 2
              else Some (ac_NN self));
        let diagonal := 0%float in
        let fastsum :=
          if ac_kernel self =? 1 then
            fastsum_init_guru_kernel (ac_d self) gaussian (ac_sigma self)
              STORE_PERMUTATION_X_ALPHA (ac_N self) (ac_p self) 0%float (ac_eps self)
          else if ac_kernel self =? 2 then
            fastsum_init_guru_kernel (ac_d self) xx_gaussian (ac_sigma self)
              STORE_PERMUTATION_X_ALPHA (ac_N self) (ac_p self) 0%float (ac_eps self)
          else if ac_kernel self =? 3 then
            fastsum_init_guru_kernel (ac_d self) laplacian_rbf (ac_sigma self)
              STORE_PERMUTATION_X_ALPHA (ac_N self) (ac_p self) 0%float (ac_eps self)
          else
            fastsum_init_guru_kernel (ac_d self) gaussian (ac_sigma self)
              STORE_PERMUTATION_X_ALPHA (ac_N self) (ac_p self) 0%float (ac_eps self) in
        let fastsum := plan_set_buffers fastsum None None None None in
        Some ({| ac_kernel := ac_kernel self; ac_d := ac_d self;
                 ac_sigma := ac_sigma self; ac_N := ac_N self;
                 ac_p := ac_p self; ac_m := ac_m self; ac_eps := ac_eps self;
                 ac_NN := NN; ac_diagonal := diagonal; ac_n := 0;
                 ac_fastsum := Some fastsum |}, Return 0)
  end.

(** Construction of an operator: [tp_new] then [tp_init]. *)
Definition construct (args : PyInitArgs)
    : option (AdjacencyCoreObject * result Z) :=
  AdjacencyCore_init AdjacencyCore_new args.

(** ** Buffers and counted loops *)

(** [buf[i] = v]; outside the buffer the behaviour is undefined. *)
Definition store {A : Type} (buf : list A) (i : Z) (v : A) : option (list A) :=
  if (0 <=? i) && (i <? Z.of_nat (length buf))
  then Some (<[Z.to_nat i := v]> buf)
  else None.

(** [buf[i]] *)
Definition load {A : Type} (buf : list A) (i : Z) : option A :=
  if 0 <=? i then buf !! Z.to_nat i else None.

(** [k] more rounds of a loop whose counter stands at [i]. *)
Fixpoint for_loop {St : Type} (k : nat) (i : Z) (body : Z -> St -> option St) (s : St)
    : option St :=
  match k with
  | O => Some s
  | S k' => s' ← body i s; for_loop k' (i + 1) body s'
  end.

(** [for (i = 0; i < n; ++i) body] *)
Definition for_lt {St : Type} (n : Z) (body : Z -> St -> option St) (s : St) : option St :=
  for_loop (Z.to_nat n) 0 body s.

(** ** The [points] attribute *)

(** [AdjacencyCore_getpoints] *)
Definition AdjacencyCore_getpoints (self : AdjacencyCoreObject)
    : option (AdjacencyCoreObject * result PyValue) :=
  if negb (check_fastsum self) then Some (self, Raise RuntimeError)
  else if ac_n self =? 0 then Some (self, Return PyNone)
  else
    let dims0 := ac_n self in
    let dims1 := ac_d self in
    if (dims0 <? 0) || (dims1 <? 0) then None
    else
      pl ← ac_fastsum self;
      x ← fs_x pl;
      if Z.of_nat (length x) <? dims0 * dims1 then None
      else
        let data := take (Z.to_nat (dims0 * dims1)) x in
        Some (self, Return (PyArray {| dims := [dims0; dims1];
                                       items := PyNumber <$> data |})).

(** The body of the two nested loops of the setter: element [(i, j)] is
    converted and stored in both node arrays. *)
Definition setpoints_body (array : PyArrayObject) (d i j : Z)
    (s : list float * list float * bool) : option (list float * list float * bool) :=
  let '(x, y, err) := s in
  item ← PyArray_GETITEM2 array i j;
  let '(v, e) := PyFloat_AsDouble item in
  k ← CInt.mul i d ≫= fun id => CInt.add id j;
  x ← store x k v;
  k ← CInt.mul i d ≫= fun id => CInt.add id j;
  y ← store y k v;
  Some (x, y, err || e).

(** [AdjacencyCore_setpoints] *)
Definition AdjacencyCore_setpoints `{FastsumLib} (self : AdjacencyCoreObject)
    (arg : PyValue) : option (AdjacencyCoreObject * result Z) :=
  let d := ac_d self in
  if negb (check_fastsum self) then Some (self, Raise RuntimeError)
  else
    self ← remove_points self;
    match arg with
    | PyNULL | PyNone => Some (self, Return 0)
    | _ =>
      match PyArray_Converter arg with
      | None => Some (self, Raise TypeError)
      | Some array =>
        if negb (PyArray_NDIM array =? 2) || negb (PyArray_DIM array 1 =? d)
        then Some (self, Raise TypeError)
        else
          let n := CInt.wrap (PyArray_DIM array 0) in
          if n >? 0 then
            pl ← ac_fastsum self;
            let pl := fastsum_init_guru_source_nodes pl n (ac_NN self) (ac_m self) in
            let pl := fastsum_init_guru_target_nodes pl n (ac_NN self) (ac_m self) in
            x ← fs_x pl;
            y ← fs_y pl;
            '(x, y, err) ←
              for_lt n (fun i => for_lt d (fun j => setpoints_body array d i j))
                     (x, y, false);
            let pl := plan_set_buffers pl (Some x) (Some y) (fs_alpha pl) (fs_f pl) in
            let self := set_points_state self (Some pl) n in
            if err : bool then
              (self ← remove_points self;
               Some (self, Raise TypeError))
            else
              Some (set_points_state self (Some (fastsum_precompute pl)) n, Return 0)
          else Some (self, Return 0)
      end
    end.

(** ** Matrix-vector product *)

(** The arguments of [apply]: the vector and, if given, [exact]. *)
Inductive PyApplyArgs : Type :=
  | ApplyArgs (points : PyValue) (exact : option bool)
  | ApplyMalformed.

(** The loop that loads the weights: [alpha[i] = CMPLX (PyFloat_AsDouble
    (item), 0.0)]. *)
Definition apply_load_body (array : PyArrayObject) (i : Z)
    (s : list complex * bool) : option (list complex * bool) :=
  let '(alpha, err) := s in
  item ← PyArray_GETITEM1 array i;
  let '(v, e) := PyFloat_AsDouble item in
  alpha ← store alpha i (CMPLX v 0%float);
  Some (alpha, err || e).

(** The four branches on [self->kernel] that fill the result. *)
Definition apply_output (kernel : Z) (diagonal : float) (n : Z)
    (f alpha : list complex) (data : list float) : option (list float) :=
  if kernel =? 1 then
    for_lt n (fun i data =>
      fi ← load f i; ai ← load alpha i;
      store data i (CREAL fi + (diagonal - 1) * CREAL ai)%float) data
  else if kernel =? 2 then
    for_lt n (fun i data =>
      fi ← load f i; ai ← load alpha i;
      store data i (CREAL fi + diagonal * CREAL ai)%float) data
  else if kernel =? 3 then
    for_lt n (fun i data =>
      fi ← load f i; ai ← load alpha i;
      store data i (CREAL fi + (diagonal - 1) * CREAL ai)%float) data
  else
    for_lt n (fun i data =>
      fi ← load f i; ai ← load alpha i;
      store data i (CREAL fi + (diagonal - 1) * CREAL ai)%float) data.

(** The extent [PyArray_SimpleNew] reads for the result: it is handed the
    address of [n] cast to a pointer to [npy_intp].  [n] is a four-byte
    [int], declared in [int i, n, exact=0;], and [npy_intp] has eight bytes
    on the 64-bit platforms the module is built for: the read takes [n] as
    its lower half and the [int] that follows it, [exact], as its upper
    half. *)
Definition apply_result_extent (n : Z) (exact : bool) : Z :=
  n + 2 ^ 32 * (if exact then 1 else 0).

(** [AdjacencyCore_apply].  The format ["p"] stores [1] or [0] in [exact].
    Where the extent read for the result is not [n] no array of [n] entries
    is made: the allocation of more than [2 ^ 32] doubles fails and
    [PyArray_ENABLEFLAGS] dereferences the [NULL] it is given. *)
Definition AdjacencyCore_apply `{FastsumLib} (self : AdjacencyCoreObject)
    (args : PyApplyArgs) : option (AdjacencyCoreObject * result PyValue) :=
  if negb (check_fastsum self) then Some (self, Raise RuntimeError)
  else
    let n := ac_n self in
    if n =? 0 then Some (self, Raise RuntimeError)
    else
      match args with
      | ApplyMalformed => Some (self, Raise TypeError)
      | ApplyArgs points oexact =>
        match PyArray_Converter points with
        | None => Some (self, Raise TypeError)
        | Some array =>
          let exact := default false oexact in
          if negb (PyArray_NDIM array =? 1) || negb (PyArray_DIM array 0 =? n)
          then Some (self, Raise ValueError)
          else
            pl ← ac_fastsum self;
            alpha ← fs_alpha pl;
            '(alpha, err) ← for_lt n (apply_load_body array) (alpha, false);
            let pl := plan_set_buffers pl (fs_x pl) (fs_y pl) (Some alpha) (fs_f pl) in
            if err : bool then Some (set_points_state self (Some pl) n, Raise TypeError)
            else
              let pl := if exact then fastsum_exact pl else fastsum_trafo pl in
              let self := set_points_state self (Some pl) n in
              let extent := apply_result_extent n exact in
              if (n <? 0) || negb (extent =? n) then None
              else
                f ← fs_f pl;
                alpha ← fs_alpha pl;
                data ← apply_output (ac_kernel self) (ac_diagonal self) n
                                    f alpha (malloc_R n);
                Some (self, Return (PyArray {| dims := [n];
                                               items := PyNumber <$> data |}))
        end
      end.

(** ** Eigenvalues of the normalized adjacency matrix *)

(** The variables ARPACK's reverse-communication routines share with their
    caller. *)
Record arpack_ws : Type := {
  ws_ido : Z;
  ws_info : Z;
  ws_resid : list float;
  ws_v : list float;
  ws_workd : list float;
  ws_workl : list float;
  ws_iparam : list Z;
  ws_ipntr : list Z
}.

Definition ws_set_workd (ws : arpack_ws) (workd : list float) : arpack_ws :=
  {| ws_ido := ws_ido ws; ws_info := ws_info ws; ws_resid := ws_resid ws;
     ws_v := ws_v ws; ws_workd := workd; ws_workl := ws_workl ws;
     ws_iparam := ws_iparam ws; ws_ipntr := ws_ipntr ws |}.

(** [dsaupd_c (&ido, "I", n, "LM", nev, tol, resid, ncv, v, n, iparam, ipntr,
    workd, workl, lworkl, &info)] and [dseupd_c (rvecs, "A", select, d, v, n,
    0.0, "I", n, "LM", nev, tol, ...)], the latter returning the eigenvalue
    array [d] as well. *)
Class ArpackLib : Type := {
  uninit_I : nat -> Z;
  dsaupd_c : Z -> Z -> float -> Z -> Z -> arpack_ws -> arpack_ws;
  dseupd_c : bool -> list Z -> list float -> Z -> Z -> float -> Z -> Z ->
             arpack_ws -> list float * arpack_ws
}.

Inductive PyEigsArgs : Type :=
  | EigsArgs (nev : Z) (tol : option float) (maxiter ncv : option Z)
             (return_eigenvectors : option bool)
  | EigsMalformed.

(** What [normalized_eigs] returns: the eigenvalue array, alone or paired
    with the eigenvector array. *)
Inductive PyEigsValue : Type :=
  | Eigenvalues (w : PyArrayObject)
  | Eigenpairs (w v : PyArrayObject).

(** The default of [ncv] (the [if (ncv <= 0)] block). *)
Definition eigs_ncv (n nev ncv : Z) : option Z :=
  if ncv <=? 0 then
    if nev <? 10 then Some 20
    else
      w ← CInt.mul 2 nev;
      if w >=? n then Some n
      else w ← CInt.mul 2 nev; CInt.add w 1
  else Some ncv.

(** The default of [maxiter]. *)
Definition eigs_maxiter (maxiter : Z) : Z :=
  if maxiter <=? 0 then 300 else maxiter.

(** The degrees: [d_invsqrt[i] = 1.0 / sqrt (...)], by kernel. *)
Definition eigs_degrees (kernel : Z) (diagonal : float) (n : Z)
    (f : list complex) (d_invsqrt : list float) : option (list float) :=
  if kernel =? 1 then
    for_lt n (fun i dv =>
      fi ← load f i;
      store dv i (1 / PrimFloat.sqrt (CREAL fi + diagonal - 1))%float) d_invsqrt
  else if kernel =? 2 then
    for_lt n (fun i dv =>
      fi ← load f i;
      store dv i (1 / PrimFloat.sqrt (CREAL fi + diagonal))%float) d_invsqrt
  else if kernel =? 3 then
    for_lt n (fun i dv =>
      fi ← load f i;
      store dv i (1 / PrimFloat.sqrt (CREAL fi + diagonal - 1))%float) d_invsqrt
  else
    for_lt n (fun i dv =>
      fi ← load f i;
      store dv i (1 / PrimFloat.sqrt (CREAL fi + diagonal - 1))%float) d_invsqrt.

(** One operator application inside the loop: the result is written to
    [workd] at [ipntr[1]]. *)
Definition eigs_matvec_output (kernel : Z) (diagonal : float) (n p0 p1 : Z)
    (d_invsqrt : list float) (f alpha : list complex) (workd : list float)
    : option (list float) :=
  let body (corr : float -> float) (i : Z) (workd : list float) :=
    k0 ← CInt.add p0 i;
    wi ← load workd k0;
    di ← load d_invsqrt i;
    fi ← load f i;
    ai ← load alpha i;
    k1 ← CInt.add p1 i;
    store workd k1 (wi + di * (CREAL fi + corr (CREAL ai)))%float in
  if kernel =? 1 then
    for_lt n (body (fun a => ((diagonal - 1) * a)%float)) workd
  else if kernel =? 2 then
    for_lt n (body (fun a => (diagonal * a)%float)) workd
  else if kernel =? 3 then
    for_lt n (body (fun a => ((diagonal - 1) * a)%float)) workd
  else
    for_lt n (body (fun a => ((diagonal - 1) * a)%float)) workd.

(** The loop [while (1) { dsaupd_c (...); if (ido == 1 || ido == -1) {...}
    else break; }]. *)
Fixpoint eigs_loop `{FastsumLib} `{ArpackLib} (fuel : nat)
    (kernel : Z) (diagonal : float) (n nev : Z) (tol : float) (ncv lworkl : Z)
    (d_invsqrt : list float) (pl : fastsum_plan) (ws : arpack_ws)
    : option (fastsum_plan * arpack_ws) :=
  match fuel with
  | O => None
  | S fuel' =>
      let ws := dsaupd_c n nev tol ncv lworkl ws in
      if (ws_ido ws =? 1) || (ws_ido ws =? -1) then
        p0 ← load (ws_ipntr ws) 0;
        p1 ← load (ws_ipntr ws) 1;
        alpha ← fs_alpha pl;
        alpha ← for_lt n (fun i alpha =>
                   di ← load d_invsqrt i;
                   k0 ← CInt.add p0 i;
                   wi ← load (ws_workd ws) k0;
                   store alpha i (CMPLX (di * wi) 0)%float) alpha;
        let pl := plan_set_buffers pl (fs_x pl) (fs_y pl) (Some alpha) (fs_f pl) in
        let pl := fastsum_trafo pl in
        f ← fs_f pl;
        alpha ← fs_alpha pl;
        workd ← eigs_matvec_output kernel diagonal n p0 p1 d_invsqrt f alpha
                                   (ws_workd ws);
        eigs_loop fuel' kernel diagonal n nev tol ncv lworkl d_invsqrt pl
                  (ws_set_workd ws workd)
      else Some (pl, ws)
  end.

(** The part of [normalized_eigs] below the defaults: degrees, the ARPACK
    loop, extraction and the result objects. *)
Definition eigs_run `{FastsumLib} `{ArpackLib} (fuel : nat)
    (self : AdjacencyCoreObject) (nev : Z) (tol : float) (maxiter ncv : Z)
    (rvecs : bool) : option (AdjacencyCoreObject * result PyEigsValue) :=
  let n := ac_n self in
  pl ← ac_fastsum self;
  alpha ← fs_alpha pl;
  alpha ← for_lt n (fun i alpha => store alpha i (CMPLX 1 0)%float) alpha;
  let pl := plan_set_buffers pl (fs_x pl) (fs_y pl) (Some alpha) (fs_f pl) in
  let pl := fastsum_trafo pl in
  f ← fs_f pl;
  d_invsqrt ← eigs_degrees (ac_kernel self) (ac_diagonal self) n f (malloc_R n);
  lworkl ← CInt.add ncv 8 ≫= CInt.mul ncv;
  v_len ← CInt.mul n ncv;
  workd_len ← CInt.mul 3 n;
  let ws := {| ws_ido := 0; ws_info := 0;
               ws_resid := malloc_R n;
               ws_v := malloc_R v_len;
               ws_workd := malloc_R workd_len;
               ws_workl := malloc_R lworkl;
               ws_iparam := [1; 0; maxiter; 1; 0; 0; 1; 0; 0; 0; 0];
               ws_ipntr := repeat 0 11 |} in
  let d := malloc_R nev in
  let select := map uninit_I (seq 0 (Z.to_nat ncv)) in
  '(pl, ws) ← eigs_loop fuel (ac_kernel self) (ac_diagonal self) n nev tol ncv
                        lworkl d_invsqrt pl ws;
  let self := set_points_state self (Some pl) n in
  if ws_info ws <? 0 then Some (self, Raise RuntimeError)
  else
    let '(d, ws) := dseupd_c rvecs select d n nev tol ncv lworkl ws in
    if ws_info ws <? 0 then Some (self, Raise RuntimeError)
    else
      if (nev <? 0) || (n <? 0) then None
      else
        data ← for_lt nev (fun j data =>
                  dj ← load d j; store data j (dj - 1)%float) (malloc_R nev);
        let eigenvalues := {| dims := [nev]; items := PyNumber <$> data |} in
        if rvecs then
          data ← for_lt n (fun i =>
                    for_lt nev (fun j data =>
                      kv ← CInt.mul j n ≫= fun jn => CInt.add jn i;
                      vji ← load (ws_v ws) kv;
                      kd ← CInt.mul i nev ≫= fun inev => CInt.add inev j;
                      store data kd vji))
                  (malloc_R (n * nev));
          let eigenvectors := {| dims := [n; nev]; items := PyNumber <$> data |} in
          Some (self, Return (Eigenpairs eigenvalues eigenvectors))
        else Some (self, Return (Eigenvalues eigenvalues)).

(** [AdjacencyCore_normalized_eigs] (built with [BUILD_EIGS]). *)
Definition AdjacencyCore_normalized_eigs `{FastsumLib} `{ArpackLib} (fuel : nat)
    (self : AdjacencyCoreObject) (args : PyEigsArgs)
    : option (AdjacencyCoreObject * result PyEigsValue) :=
  if negb (check_fastsum self) then Some (self, Raise RuntimeError)
  else
    let n := ac_n self in
    if n =? 0 then Some (self, Raise RuntimeError)
    else
      match args with
      | EigsMalformed => Some (self, Raise TypeError)
      | EigsArgs nev otol omaxiter oncv orvecs =>
        if negb (CInt.in_rangeb nev && from_option CInt.in_rangeb true omaxiter &&
                 from_option CInt.in_rangeb true oncv)
        then Some (self, Raise TypeError)
        else
          let tol := default 0%float otol in
          let maxiter := default 0 omaxiter in
          let ncv := default 0 oncv in
          let rvecs := default true orvecs in
          ncv ← eigs_ncv n nev ncv;
          let maxiter := eigs_maxiter maxiter in
          eigs_run fuel self nev tol maxiter ncv rvecs
      end.

(** ** Vocabulary of the specification *)

Definition is_power_of_two (z : Z) : Prop := exists k, 0 <= k /\ z = 2 ^ k.

(** Integers that fit an [int], as the format ["i"] requires. *)
Definition int_args (l : list Z) : Prop := Forall CInt.in_range l.

(** The kernel variants of the specification and the selector values the
    code compares [self->kernel] with. *)
Inductive kernel_variant : Type :=
  | Gaussian
  | SquaredGaussian
  | LaplacianRBF
  | DefaultGaussian.

Definition kernel_of_selector (kernel : Z) : kernel_variant :=
  if kernel =? 1 then Gaussian
  else if kernel =? 2 then SquaredGaussian
  else if kernel =? 3 then LaplacianRBF
  else DefaultGaussian.

(** The diagonal correction as the specification words it (section 4.1):
    [(diagonal - 1.0) * weight] for the Gaussian, LaplacianRBF and default
    variants, [diagonal * weight] for SquaredGaussian. *)
Definition diagonalCorrection (variant : kernel_variant) (diagonal weight : float)
    : float :=
  match variant with
  | SquaredGaussian => (diagonal * weight)%float
  | Gaussian | LaplacianRBF | DefaultGaussian => ((diagonal - 1) * weight)%float
  end.


(** A one-dimensional array of doubles, and a [k] by [d] table of them. *)
Definition vector (w : list float) : PyArrayObject :=
  {| dims := [Z.of_nat (length w)]; items := PyNumber <$> w |}.

Definition table (k d : Z) (vs : list float) : PyArrayObject :=
  {| dims := [k; d]; items := PyNumber <$> vs |}.

(** The weights as [apply] loads them into the plan. *)
Definition weights_as_alpha (w : list float) : list complex :=
  (fun v => CMPLX v 0%float) <$> w.

(** An operator that came out of the constructor: it has its plan, and the
    plan has the operator's dimension. *)
Definition constructed (self : AdjacencyCoreObject) : Prop :=
  exists pl, ac_fastsum self = Some pl /\ fs_d pl = ac_d self.

(** The disabled state: no points, no node storage. *)
Definition points_absent (self : AdjacencyCoreObject) : Prop :=
  ac_n self = 0 /\
  exists pl, ac_fastsum self = Some pl /\
    fs_x pl = None /\ fs_y pl = None /\ fs_alpha pl = None /\ fs_f pl = None.

(** An operator with [n > 0] bound points: the four node buffers are there
    and have the sizes the plan allocated them with. *)
Definition points_bound (self : AdjacencyCoreObject) : Prop :=
  0 < ac_n self /\
  exists pl x y alpha f,
    ac_fastsum self = Some pl /\
    fs_x pl = Some x /\ fs_y pl = Some y /\
    fs_alpha pl = Some alpha /\ fs_f pl = Some f /\
    Z.of_nat (length x) = ac_d self * ac_n self /\
    Z.of_nat (length y) = ac_d self * ac_n self /\
    Z.of_nat (length alpha) = ac_n self /\
    Z.of_nat (length f) = ac_n self.

(** The plan [apply] hands to the transform for the weights [w]. *)
Definition plan_with_weights (pl : fastsum_plan) (w : list float) : fastsum_plan :=
  plan_set_buffers pl (fs_x pl) (fs_y pl) (Some (weights_as_alpha w)) (fs_f pl).

Definition transform `{FastsumLib} (exact : bool) : fastsum_plan -> fastsum_plan :=
  if exact then fastsum_exact else fastsum_trafo.

(** ** Stand-ins for the libraries, for the examples *)

(** A fastsum whose kernel is 1 everywhere: every sum is the sum of the
    weights.  Fresh storage holds zeros. *)
Definition sum_weights (alpha : list complex) : float :=
  fold_right (fun a s => (CREAL a + s)%float) 0%float alpha.

Definition ones_transform (pl : fastsum_plan) : fastsum_plan :=
  plan_set_target pl (fs_M_total pl) (fs_y pl)
    (map (fun _ => CMPLX (sum_weights (default [] (fs_alpha pl))) 0%float)
       <$> fs_f pl).

Definition ones_fastsum : FastsumLib :=
  {| uninit_R := fun _ => 0%float;
     uninit_C := fun _ => CMPLX 0%float 0%float;
     fastsum_precompute := fun pl => pl;
     fastsum_trafo := ones_transform;
     fastsum_exact := ones_transform |}.

(** An ARPACK that reports convergence at once. *)
Definition idle_arpack : ArpackLib :=
  {| uninit_I := fun _ => 0;
     dsaupd_c := fun _ _ _ _ _ ws =>
       {| ws_ido := 99; ws_info := ws_info ws; ws_resid := ws_resid ws;
          ws_v := ws_v ws; ws_workd := ws_workd ws; ws_workl := ws_workl ws;
          ws_iparam := ws_iparam ws; ws_ipntr := ws_ipntr ws |};
     dseupd_c := fun _ _ d _ _ _ _ _ ws => (d, ws) |}.

(** ** Vocabulary for the loops over array elements *)

(** The doubles [PyFloat_AsDouble] yields for the elements, in order, and
    whether any conversion set the error indicator. *)
Definition converted (l : list PyObject) : list float :=
  (fun item => fst (PyFloat_AsDouble item)) <$> l.

Definition conversion_error (l : list PyObject) : bool :=
  existsb (fun item => snd (PyFloat_AsDouble item)) l.

(** A buffer [old] whose first [r] cells have been overwritten with those
    of [new]. *)
Definition filled {A : Type} (new old : list A) (r : nat) : list A :=
  take r new ++ drop r old.

(** Two objects with the same configuration members. *)
Definition same_config (self self' : AdjacencyCoreObject) : Prop :=
  ac_kernel self' = ac_kernel self /\ ac_d self' = ac_d self /\
  ac_sigma self' = ac_sigma self /\ ac_N self' = ac_N self /\
  ac_p self' = ac_p self /\ ac_m self' = ac_m self /\
  ac_eps self' = ac_eps self /\ ac_NN self' = ac_NN self /\
  ac_diagonal self' = ac_diagonal self.

(** The state of the setter's loops once the first [r] elements (in
    row-major order) have been converted and stored. *)
Definition setpoints_state (a : PyArrayObject) (x0 y0 : list float) (r : Z)
    : list float * list float * bool :=
  (filled (converted (items a)) x0 (Z.to_nat r),
   filled (converted (items a)) y0 (Z.to_nat r),
   conversion_error (take (Z.to_nat r) (items a))).

(** A table of [k] rows whose elements an [int] can index. *)
Definition table_fits (k d : Z) : Prop :=
  0 < k <= CInt.max_signed /\ k * d <= CInt.max_signed.

(** The value [NN] has after the [if (self->NN == 0)] block of a
    construction. *)
Definition constructed_NN (N : Z) (oNN : option Z) : option Z :=
  if default 0 oNN =? 0 then NN_loop NN_fuel N 2 else Some (default 0 oNN).

(** The smallest power of two, from [2] on, that is greater than or equal
    to [w]. *)
Definition smallest_power_of_two_geq (w : Z) : Z := 2 ^ Z.max 1 (Z.log2_up w).

(** The plan the setter builds for a table before it looks at the error
    indicator. *)
Definition plan_with_points `{FastsumLib} (pl : fastsum_plan) (k NN m : Z)
    (a : PyArrayObject) : fastsum_plan :=
  let pl := fastsum_init_guru_source_nodes pl k NN m in
  let pl := fastsum_init_guru_target_nodes pl k NN m in
  plan_set_buffers pl (Some (converted (items a))) (Some (converted (items a)))
                   (fs_alpha pl) (fs_f pl).

(** ** Example objects *)

(** The construction of the end-to-end scenario of the specification
    (Gaussian kernel, [d = 1], [sigma = 1.0], [N = 128], [p = 4], [m = 4];
    [eps] a binary fraction). *)
Definition example_args : PyInitArgs := InitTuple 1 1 1 128 4 4 0.125 None.

Definition example_operator : AdjacencyCoreObject := Eval vm_compute in
  match construct example_args with
  | Some (self, _) => self
  | None => AdjacencyCore_new
  end.

(** Five equally spaced points in [[0, 1]], bound to the operator. *)
Definition example_points : list float := [0; 0.25; 0.5; 0.75; 1]%float.

Definition example_bound : AdjacencyCoreObject := Eval vm_compute in
  match AdjacencyCore_setpoints (H := ones_fastsum) example_operator
          (PyArray (table 5 1 example_points)) with
  | Some (self, _) => self
  | None => example_operator
  end.

(** The bound operator after one [apply] to the all-ones vector. *)
Definition example_applied : AdjacencyCoreObject := Eval vm_compute in
  match AdjacencyCore_apply (H := ones_fastsum) example_bound
          (ApplyArgs (PyArray (vector [1; 1; 1; 1; 1]%float)) None) with
  | Some (self, _) => self
  | None => example_bound
  end.


(** Two tables of [2 ^ 32] rows and one column, one of elements that are
    not numbers and one of zeros: more rows than an [int] counts. *)
Definition example_wide_nonnumeric : PyArrayObject :=
  {| dims := [2 ^ 32; 1]; items := repeat PyNonNumber (Z.to_nat (2 ^ 32)) |}.

Definition example_wide_zeros : list float := repeat 0%float (Z.to_nat (2 ^ 32)).

(** The weights the plan of an operator holds. *)
Definition weights_of (self : AdjacencyCoreObject) : option (list complex) :=
  pl ← ac_fastsum self; fs_alpha pl.

(** ** The operator between calls *)

(** What every entry point finds and leaves: the plan is there and has the
    operator's dimension, and [n] tells whether node storage is bound. *)
Definition operator_inv (self : AdjacencyCoreObject) : Prop :=
  constructed self /\ (points_absent self \/ points_bound self).

(** A Python value whose array, if numpy makes one of it, has a shape that
    describes its elements. *)
Definition value_wf (v : PyValue) : Prop :=
  forall a, PyArray_Converter v = Some a -> array_wf a.

Definition apply_args_wf (args : PyApplyArgs) : Prop :=
  match args with
  | ApplyArgs points _ => value_wf points
  | ApplyMalformed => True
  end.

(** A value the setter can take without leaving [int]: if it is a table
    with the operator's number of columns, an [int] can index its elements
    (or it has no rows). *)
Definition points_arg_fits (d : Z) (v : PyValue) : Prop :=
  forall a, PyArray_Converter v = Some a ->
    PyArray_NDIM a = 2 -> PyArray_DIM a 1 = d ->
    PyArray_DIM a 0 = 0 \/ table_fits (PyArray_DIM a 0) d.

(** [fastsum_finalize_kernel] releases the kernel's tables, nothing that
    [core.c] looks at. *)
Definition fastsum_finalize_kernel (pl : fastsum_plan) : fastsum_plan := pl.

(** [AdjacencyCore_dealloc], up to the final [tp_free]: the members of the
    object it hands to [tp_free]. *)
Definition AdjacencyCore_dealloc (self : AdjacencyCoreObject)
    : option AdjacencyCoreObject :=
  match ac_fastsum self with
  | Some _ =>
      self ← remove_points self;
      pl ← ac_fastsum self;
      let pl := fastsum_finalize_kernel pl in
      Some (set_points_state self None (ac_n self))
  | None => Some self
  end.

(** The operators a program can hold: constructed, then taken through any
    calls that returned. *)
Inductive reachable `{FastsumLib} `{ArpackLib} : AdjacencyCoreObject -> Prop :=
  | reach_construct (args : PyInitArgs) (self : AdjacencyCoreObject) :
      construct args = Some (self, Return 0) -> reachable self
  | reach_setpoints (self self' : AdjacencyCoreObject) (arg : PyValue)
        (r : result Z) :
      reachable self -> value_wf arg ->
      AdjacencyCore_setpoints self arg = Some (self', r) -> reachable self'
  | reach_apply (self self' : AdjacencyCoreObject) (args : PyApplyArgs)
        (r : result PyValue) :
      reachable self -> apply_args_wf args ->
      AdjacencyCore_apply self args = Some (self', r) -> reachable self'
  | reach_eigs (fuel : nat) (self self' : AdjacencyCoreObject) (args : PyEigsArgs)
        (r : result PyEigsValue) :
      reachable self ->
      AdjacencyCore_normalized_eigs fuel self args = Some (self', r) ->
      reachable self'
  | reach_diagonal (self : AdjacencyCoreObject) (v : float) :
      reachable self -> reachable (set_diagonal self v).

(** The plan members the fastsum contract speaks of, compared. *)
Definition same_nodes (pl pl' : fastsum_plan) : Prop :=
  fs_d pl' = fs_d pl /\ fs_x pl' = fs_x pl /\ fs_y pl' = fs_y pl.

(** An ARPACK that asks for one operator application, from [workd[0..n)]
    to [workd[n..2n)], then reports convergence with every eigenvalue 2. *)
Definition one_step_arpack : ArpackLib :=
  {| uninit_I := fun _ => 0;
     dsaupd_c := fun n _ _ _ _ ws =>
       {| ws_ido := if ws_ido ws =? 0 then 1 else 99;
          ws_info := ws_info ws; ws_resid := ws_resid ws;
          ws_v := ws_v ws; ws_workd := ws_workd ws; ws_workl := ws_workl ws;
          ws_iparam := ws_iparam ws;
          ws_ipntr := [0; n; 0; 0; 0; 0; 0; 0; 0; 0; 0] |};
     dseupd_c := fun _ _ d _ nev _ _ _ ws => (repeat 2%float (Z.to_nat nev), ws) |}.

(** An ARPACK whose iteration fails with status [-9999]. *)
Definition failing_arpack : ArpackLib :=
  {| uninit_I := fun _ => 0;
     dsaupd_c := fun _ _ _ _ _ ws =>
       {| ws_ido := 99; ws_info := -9999; ws_resid := ws_resid ws;
          ws_v := ws_v ws; ws_workd := ws_workd ws; ws_workl := ws_workl ws;
          ws_iparam := ws_iparam ws; ws_ipntr := ws_ipntr ws |};
     dseupd_c := fun _ _ d _ _ _ _ _ ws => (d, ws) |}.

(** Two plans with the same nodes and node storage of the same size. *)
Definition same_storage (pl pl' : fastsum_plan) : Prop :=
  same_nodes pl pl' /\
  length <$> fs_alpha pl' = length <$> fs_alpha pl /\
  length <$> fs_f pl' = length <$> fs_f pl.

(** The degree scaling of [normalized_eigs] for one sum, by kernel. *)
Definition degree_scaling (kernel : Z) (diagonal : float) (fi : complex) : float :=
  if kernel =? 2 then (1 / PrimFloat.sqrt (CREAL fi + diagonal))%float
  else (1 / PrimFloat.sqrt (CREAL fi + diagonal - 1))%float.

(** Splits a chain of binds that returned into its steps. *)
Ltac bind_inv H :=
  repeat match type of H with
         | (_ ≫= _) = Some _ =>
             let x := fresh "x" in
             let Hx := fresh "Hx" in
             apply bind_Some in H as (x & Hx & H)
         end.


(** * Properties *)

(** ** Integers *)

Lemma check_in_range (z : Z) : CInt.in_range z -> CInt.check z = Some z.
Proof.
  unfold CInt.check, CInt.in_rangeb, CInt.in_range. intros [Hlo Hhi].
  apply Z.leb_le in Hlo. apply Z.leb_le in Hhi. now rewrite Hlo, Hhi.
Qed.

Lemma check_Some (z r : Z) : CInt.check z = Some r -> r = z /\ CInt.in_range z.
Proof.
  unfold CInt.check, CInt.in_rangeb, CInt.in_range.
  destruct (CInt.min_signed <=? z) eqn:Hlo; destruct (z <=? CInt.max_signed) eqn:Hhi;
    simpl; intros H; inversion H; subst.
  apply Z.leb_le in Hlo. apply Z.leb_le in Hhi. auto.
Qed.

Lemma check_out_of_range (z : Z) : ~ CInt.in_range z -> CInt.check z = None.
Proof.
  intros Hz. destruct (CInt.check z) as [r|] eqn:E; [|reflexivity].
  apply check_Some in E. tauto.
Qed.

Lemma in_rangeb_spec (z : Z) : CInt.in_rangeb z = true <-> CInt.in_range z.
Proof.
  unfold CInt.in_rangeb, CInt.in_range.
  rewrite andb_true_iff, !Z.leb_le. tauto.
Qed.

Lemma wrap_in_range (z : Z) : CInt.in_range z -> CInt.wrap z = z.
Proof.
  unfold CInt.in_range, CInt.min_signed, CInt.max_signed, CInt.wrap. intros Hz.
  rewrite Z.mod_small; lia.
Qed.

Lemma mul_in_range (a b : Z) : CInt.in_range (a * b) -> CInt.mul a b = Some (a * b).
Proof. apply check_in_range. Qed.

Lemma add_in_range (a b : Z) : CInt.in_range (a + b) -> CInt.add a b = Some (a + b).
Proof. apply check_in_range. Qed.

Lemma mul_out_of_range (a b : Z) : ~ CInt.in_range (a * b) -> CInt.mul a b = None.
Proof. apply check_out_of_range. Qed.

(** ** The derivation of [NN] *)

Lemma NN_loop_step (fuel : nat) (N NN : Z) :
  NN_loop (S fuel) N NN =
    if CInt.wrap (2 * N) >? NN then NN_loop fuel N (CInt.wrap (NN * 2)) else Some NN.
Proof. reflexivity. Qed.

Lemma pow2_double (k : Z) : 0 <= k -> 2 ^ (k + 1) = 2 * 2 ^ k.
Proof. intros Hk. rewrite Z.pow_add_r by lia. lia. Qed.

Lemma pow2_le_30 (k : Z) : 0 <= k <= 30 -> 0 < 2 ^ k <= 2 ^ 30.
Proof.
  intros Hk. split; [apply Z.pow_pos_nonneg; lia|].
  apply Z.pow_le_mono_r; lia.
Qed.

(** Where [2 * N] fits an [int] the wrapped product is the product. *)
Lemma wrap_double (N : Z) : - 2 ^ 30 <= N < 2 ^ 30 -> CInt.wrap (2 * N) = 2 * N.
Proof.
  intros HN. apply wrap_in_range.
  unfold CInt.in_range, CInt.min_signed, CInt.max_signed. lia.
Qed.

(** More fuel does not change what the loop returned. *)
Lemma NN_loop_more_fuel (N : Z) (fuel fuel' : nat) (NN r : Z) :
  (fuel <= fuel')%nat -> NN_loop fuel N NN = Some r -> NN_loop fuel' N NN = Some r.
Proof.
  revert fuel' NN. induction fuel as [|fuel IH]; intros fuel' NN Hle Hrun; [discriminate|].
  destruct fuel' as [|fuel']; [lia|].
  rewrite NN_loop_step in *. destruct (_ >? _); [|exact Hrun].
  apply IH; [lia|exact Hrun].
Qed.

(** Where the wrapped [2 * N] exceeds [2 ^ 30] the loop does not end: [NN]
    runs through the powers of two up to [2 ^ 30], wraps to [- 2 ^ 31] and
    then to [0], where doubling leaves it. *)
Lemma NN_loop_diverges (N : Z) (fuel : nat) (NN : Z) :
  2 ^ 30 < CInt.wrap (2 * N) ->
  NN = 0 \/ NN = - 2 ^ 31 \/ (exists k, 1 <= k <= 30 /\ NN = 2 ^ k) ->
  NN_loop fuel N NN = None.
Proof.
  intros Hw. revert NN. induction fuel as [|fuel IH]; intros NN HNN; [reflexivity|].
  rewrite NN_loop_step.
  assert (NN <= 2 ^ 30) as Hle.
  { destruct HNN as [->|[->|(k & Hk & ->)]]; [lia|lia|apply pow2_le_30; lia]. }
  replace (CInt.wrap (2 * N) >? NN) with true by (symmetry; apply Z.gtb_lt; lia).
  apply IH. destruct HNN as [->|[->|(k & Hk & ->)]].
  - left. reflexivity.
  - left. reflexivity.
  - destruct (Z.eq_dec k 30) as [->|Hk30].
    + right. left. reflexivity.
    + right. right. exists (k + 1). split; [lia|].
      pose proof (pow2_le_30 (k + 1) ltac:(lia)) as Hp.
      pose proof (pow2_double k ltac:(lia)) as Hd.
      rewrite wrap_in_range
        by (unfold CInt.in_range, CInt.min_signed, CInt.max_signed; lia).
      lia.
Qed.

(** What the loop computes from [2 ^ k] on, where the wrapped [2 * N] is at
    most [2 ^ 30]: the first power of two from there that reaches it. *)
Lemma NN_loop_pow2 (N : Z) (fuel : nat) (k : Z) :
  1 <= k <= 30 -> 31 - k <= Z.of_nat fuel ->
  (k = 1 \/ 2 ^ (k - 1) < CInt.wrap (2 * N)) ->
  CInt.wrap (2 * N) <= 2 ^ 30 ->
  exists j, k <= j <= 30 /\ NN_loop fuel N (2 ^ k) = Some (2 ^ j) /\
            CInt.wrap (2 * N) <= 2 ^ j /\
            (j = 1 \/ 2 ^ (j - 1) < CInt.wrap (2 * N)).
Proof.
  revert k. induction fuel as [|fuel IH]; intros k Hk Hf Hlow H30; [lia|].
  rewrite NN_loop_step.
  destruct (CInt.wrap (2 * N) >? 2 ^ k) eqn:Hcmp.
  - apply Z.gtb_lt in Hcmp.
    assert (k < 30) as Hk30 by (destruct (Z.eq_dec k 30) as [->|]; lia).
    pose proof (pow2_le_30 (k + 1) ltac:(lia)) as Hp.
    pose proof (pow2_double k ltac:(lia)) as Hd.
    rewrite wrap_in_range
      by (unfold CInt.in_range, CInt.min_signed, CInt.max_signed; lia).
    replace (2 ^ k * 2) with (2 ^ (k + 1)) by lia.
    destruct (IH (k + 1)) as (j & Hj & Hrun & Hge & Hmin); try lia.
    { right. now replace (k + 1 - 1) with k by lia. }
    exists j. repeat split; auto; lia.
  - assert (CInt.wrap (2 * N) <= 2 ^ k) as Hle.
    { destruct (Z.gtb_spec (CInt.wrap (2 * N)) (2 ^ k)); [discriminate|lia]. }
    exists k. repeat split; auto; lia.
Qed.

(** [NN_loop] from [2]: it returns the first power of two that reaches the
    wrapped [2 * N], or that product exceeds [2 ^ 30] and the loop does not
    end, whatever the fuel. *)
Lemma NN_loop_result (N : Z) :
  match NN_loop NN_fuel N 2 with
  | Some NN =>
      CInt.wrap (2 * N) <= 2 ^ 30 /\
      exists j, 1 <= j <= 30 /\ NN = 2 ^ j /\ CInt.wrap (2 * N) <= 2 ^ j /\
                (j = 1 \/ 2 ^ (j - 1) < CInt.wrap (2 * N))
  | None => 2 ^ 30 < CInt.wrap (2 * N) /\ forall fuel, NN_loop fuel N 2 = None
  end.
Proof.
  destruct (Z_le_dec (CInt.wrap (2 * N)) (2 ^ 30)) as [H30|H30].
  - destruct (NN_loop_pow2 N NN_fuel 1) as (j & Hj & Hrun & Hge & Hmin);
      [lia | unfold NN_fuel; lia | now left | exact H30 |].
    change (2 ^ 1) with 2 in Hrun. rewrite Hrun. split; [exact H30|].
    exists j. repeat split; auto; lia.
  - assert (forall fuel, NN_loop fuel N 2 = None) as Hdiv.
    { intros fuel. apply NN_loop_diverges; [lia|].
      right. right. exists 1. split; [lia|reflexivity]. }
    rewrite Hdiv. split; [lia|exact Hdiv].
Qed.

(** The fuel the constructor runs the loop with is enough. *)
Lemma NN_loop_fuel (N : Z) (fuel : nat) :
  (NN_fuel <= fuel)%nat -> NN_loop fuel N 2 = NN_loop NN_fuel N 2.
Proof.
  intros Hf. pose proof (NN_loop_result N) as Hres.
  destruct (NN_loop NN_fuel N 2) as [NN|] eqn:Hrun.
  - now apply (NN_loop_more_fuel N NN_fuel fuel).
  - apply Hres.
Qed.

(** The closed form of the power of two the loop stops at. *)
Lemma smallest_power_of_two_geq_unique (w j : Z) :
  1 <= j -> w <= 2 ^ j -> (j = 1 \/ 2 ^ (j - 1) < w) ->
  smallest_power_of_two_geq w = 2 ^ j.
Proof.
  intros Hj Hge Hmin. unfold smallest_power_of_two_geq. f_equal.
  destruct (Z_lt_dec (2 ^ (j - 1)) w) as [Hlt|Hnlt].
  - rewrite (Z.log2_up_unique w j); [lia|lia|].
    replace (Z.pred j) with (j - 1) by lia. split; assumption.
  - destruct Hmin as [->|Hlt]; [|contradiction].
    change (2 ^ (1 - 1)) with 1 in Hnlt.
    rewrite Z.log2_up_eqn0 by lia. reflexivity.
Qed.

(** ** Construction *)

Lemma int_args_cons (z : Z) (l : list Z) :
  int_args (z :: l) <-> CInt.in_range z /\ int_args l.
Proof.
  unfold int_args. split.
  - intros H. inversion H; subst. split; assumption.
  - intros [Hz Hl]. apply List.Forall_cons; assumption.
Qed.

Lemma int_args_nil : int_args [] <-> True.
Proof. unfold int_args. split; [trivial|intros _; apply List.Forall_nil]. Qed.

(** The parse of a tuple of the right length: it succeeds exactly when
    the integers fit, and then has stored every element. *)
Lemma parse_init_spec (self : AdjacencyCoreObject) kernel d sigma N p m eps oNN :
  (int_args ([kernel; d; N; p; m] ++ option_list oNN) /\
   PyArg_ParseTuple_init self kernel d sigma N p m eps oNN =
     ({| ac_kernel := kernel; ac_d := d; ac_sigma := sigma; ac_N := N;
         ac_p := p; ac_m := m; ac_eps := eps; ac_NN := default (ac_NN self) oNN;
         ac_diagonal := ac_diagonal self; ac_n := ac_n self;
         ac_fastsum := ac_fastsum self |}, true)) \/
  (~ int_args ([kernel; d; N; p; m] ++ option_list oNN) /\
   exists self', PyArg_ParseTuple_init self kernel d sigma N p m eps oNN =
                   (self', false)).
Proof.
  unfold PyArg_ParseTuple_init.
  pose proof (in_rangeb_spec kernel) as Hk. pose proof (in_rangeb_spec d) as Hd.
  pose proof (in_rangeb_spec N) as HN. pose proof (in_rangeb_spec p) as Hp.
  pose proof (in_rangeb_spec m) as Hm.
  destruct oNN as [NN|]; cbn [app option_list option_rect default];
    rewrite !int_args_cons, int_args_nil;
    (destruct (CInt.in_rangeb kernel); cbn [negb];
       [|right; split; [intuition discriminate|eauto]]);
    (destruct (CInt.in_rangeb d); cbn [negb];
       [|right; split; [intuition discriminate|eauto]]);
    (destruct (CInt.in_rangeb N); cbn [negb];
       [|right; split; [intuition discriminate|eauto]]);
    (destruct (CInt.in_rangeb p); cbn [negb];
       [|right; split; [intuition discriminate|eauto]]);
    (destruct (CInt.in_rangeb m); cbn [negb];
       [|right; split; [intuition discriminate|eauto]]).
  - pose proof (in_rangeb_spec NN) as HNN.
    destruct (CInt.in_rangeb NN); cbn [negb];
      [left; split; [intuition auto|reflexivity]
      |right; split; [intuition discriminate|eauto]].
  - left. split; [intuition auto|reflexivity].
Qed.

(** Everything a construction from a tuple of the right length can end
    in. *)
Lemma construct_cases kernel d sigma N p m eps oNN :
  let args := InitTuple kernel d sigma N p m eps oNN in
  (~ int_args ([kernel; d; N; p; m] ++ option_list oNN) /\
   exists self', construct args = Some (self', Raise OverflowError)) \/
  (int_args ([kernel; d; N; p; m] ++ option_list oNN) /\
   constructed_NN N oNN = None /\ construct args = None) \/
  (int_args ([kernel; d; N; p; m] ++ option_list oNN) /\
   exists self pl,
     construct args = Some (self, Return 0) /\
     constructed_NN N oNN = Some (ac_NN self) /\
     ac_kernel self = kernel /\ ac_d self = d /\ ac_sigma self = sigma /\
     ac_N self = N /\ ac_p self = p /\ ac_m self = m /\ ac_eps self = eps /\
     ac_diagonal self = 0%float /\ ac_n self = 0 /\
     ac_fastsum self = Some pl /\ fs_d pl = d /\
     fs_x pl = None /\ fs_y pl = None /\ fs_alpha pl = None /\ fs_f pl = None).
Proof.
  intros args. unfold args, construct, AdjacencyCore_init.
  destruct (parse_init_spec AdjacencyCore_new kernel d sigma N p m eps oNN)
    as [[Hok ->]|[Hno [self' ->]]]; cbn [negb].
  - cbn [ac_kernel ac_d ac_sigma ac_N ac_p ac_m ac_eps ac_NN].
    change (ac_NN AdjacencyCore_new) with 0.
    change (if default 0 oNN =? 0 then NN_loop NN_fuel N 2
            else Some (default 0 oNN)) with (constructed_NN N oNN).
    right. destruct (constructed_NN N oNN) as [NN|] eqn:HNN; cbn [mbind option_bind].
    + right. split; [exact Hok|].
      destruct (kernel =? 1); [|destruct (kernel =? 2); [|destruct (kernel =? 3)]];
        eexists; eexists; (split; [reflexivity|]); simpl; repeat split; reflexivity.
    + left. repeat split; auto.
  - left. split; [exact Hno|]. exists self'. reflexivity.
Qed.

(** A derived [NN]: a power of two between [2] and [2 ^ 30], the first one
    that reaches the wrapped [2 * N]. *)
Lemma derived_NN_spec (N NN : Z) :
  constructed_NN N None = Some NN ->
  CInt.wrap (2 * N) <= 2 ^ 30 /\
  exists j, 1 <= j <= 30 /\ NN = 2 ^ j /\ CInt.wrap (2 * N) <= 2 ^ j /\
            (j = 1 \/ 2 ^ (j - 1) < CInt.wrap (2 * N)).
Proof.
  change (constructed_NN N None) with (NN_loop NN_fuel N 2). intros Hrun.
  pose proof (NN_loop_result N) as Hres. rewrite Hrun in Hres. exact Hres.
Qed.

(** For [- 2 ^ 30 <= N <= 2 ^ 29] nothing wraps and the loop ends. *)
Lemma derived_NN_in_range (N : Z) :
  - 2 ^ 30 <= N <= 2 ^ 29 ->
  exists j, 1 <= j <= 30 /\ constructed_NN N None = Some (2 ^ j) /\
            2 * N <= 2 ^ j /\ (j = 1 \/ 2 ^ (j - 1) < 2 * N).
Proof.
  intros HN. change (constructed_NN N None) with (NN_loop NN_fuel N 2).
  pose proof (NN_loop_result N) as Hres.
  rewrite (wrap_double N) in Hres by lia.
  destruct (NN_loop NN_fuel N 2) as [NN|].
  - destruct Hres as (_ & j & Hj & -> & Hge & Hmin). exists j. auto.
  - destruct Hres as [Hres _]. lia.
Qed.

Lemma derived_NN_defined (N : Z) :
  - 2 ^ 30 <= N <= 2 ^ 29 -> exists NN, constructed_NN N None = Some NN.
Proof.
  intros HN. destruct (derived_NN_in_range N HN) as (j & _ & Hrun & _). eauto.
Qed.

(** For [2 ^ 29 < N < 2 ^ 30] the doubling wraps before [NN] reaches
    [2 * N]: the loop does not end and no operator results. *)
Lemma derived_NN_diverges kernel d sigma N p m eps :
  2 ^ 29 < N < 2 ^ 30 ->
  (forall fuel, NN_loop fuel N 2 = None) /\
  forall self r, construct (InitTuple kernel d sigma N p m eps None) = Some (self, r) ->
                 r = Raise OverflowError.
Proof.
  intros HN.
  pose proof (NN_loop_result N) as Hres. rewrite (wrap_double N) in Hres by lia.
  destruct (NN_loop NN_fuel N 2) as [NN|] eqn:Hrun; [lia|].
  split; [apply Hres|]. intros self r Hc.
  destruct (construct_cases kernel d sigma N p m eps None)
    as [[_ [self' H]]|[(_ & _ & H)|(_ & self' & pl & H & HNN & _)]].
  - rewrite H in Hc. now inversion Hc.
  - rewrite H in Hc. discriminate.
  - change (constructed_NN N None) with (NN_loop NN_fuel N 2) in HNN. congruence.
Qed.

Lemma constructed_NN_zero (N : Z) : constructed_NN N (Some 0) = constructed_NN N None.
Proof. reflexivity. Qed.

Lemma construct_Return kernel d sigma N p m eps oNN self :
  construct (InitTuple kernel d sigma N p m eps oNN) = Some (self, Return 0) ->
  constructed_NN N oNN = Some (ac_NN self).
Proof.
  intros Hc.
  destruct (construct_cases kernel d sigma N p m eps oNN)
    as [[_ [self' H]]|[(_ & _ & H)|(_ & self' & pl & H & HNN & _)]];
    rewrite H in Hc; try discriminate.
  now inversion Hc; subst.
Qed.

Lemma construct_defined kernel d sigma N p m eps oNN NN :
  int_args ([kernel; d; N; p; m] ++ option_list oNN) ->
  constructed_NN N oNN = Some NN ->
  exists self, construct (InitTuple kernel d sigma N p m eps oNN) = Some (self, Return 0) /\
               ac_NN self = NN.
Proof.
  intros Hints HNN.
  destruct (construct_cases kernel d sigma N p m eps oNN)
    as [[H _]|[(_ & H & _)|(_ & self & pl & H & HNN' & _)]].
  - contradiction.
  - congruence.
  - exists self. split; [exact H|congruence].
Qed.

(** A construction with [- 2 ^ 30 <= N <= 2 ^ 29] and [NN] omitted or [0]
    yields an operator whose [NN] is the first power of two, from [2] on,
    that reaches [2 * N]. *)
Lemma construct_derived kernel d sigma N p m eps oNN :
  int_args [kernel; d; N; p; m] -> oNN = None \/ oNN = Some 0 ->
  - 2 ^ 30 <= N <= 2 ^ 29 ->
  exists self j,
    construct (InitTuple kernel d sigma N p m eps oNN) = Some (self, Return 0) /\
    1 <= j <= 30 /\ ac_NN self = 2 ^ j /\ 2 * N <= 2 ^ j /\
    (j = 1 \/ 2 ^ (j - 1) < 2 * N).
Proof.
  intros Hints HoNN HN.
  destruct (derived_NN_in_range N HN) as (j & Hj & Hrun & Hge & Hmin).
  destruct (construct_defined kernel d sigma N p m eps oNN (2 ^ j)) as (self & Hc & HNN).
  - destruct HoNN as [->| ->]; cbn [app option_list option_rect]; [exact Hints|].
    assert (CInt.in_range 0) as H0
      by (unfold CInt.in_range, CInt.min_signed, CInt.max_signed; lia).
    rewrite !int_args_cons in *. tauto.
  - destruct HoNN as [->| ->]; [exact Hrun|]. rewrite constructed_NN_zero. exact Hrun.
  - exists self, j. auto.
Qed.

(** C9 as stated fails: the construction with [N = 2 ^ 30] returns an
    operator, with the derived [NN = 2]: the product [2 * N] wraps to
    [- 2 ^ 31] and the loop ends at once.  No power of two in
    [[2 * N, 4 * N)] fits an [int] for such an [N]. *)
Lemma derived_NN_wraps :
  exists self,
    construct (InitTuple 1 1 1 (2 ^ 30) 4 4 0.125 None) = Some (self, Return 0) /\
    ac_NN self = 2 /\ ~ (2 * 2 ^ 30 <= ac_NN self < 4 * 2 ^ 30).
Proof.
  eexists. split; [vm_compute; reflexivity|]. split; [reflexivity|]. simpl. lia.
Qed.

(** C9, amended. For every construction with [0 < N <= 2 ^ 29] (and
    integers that fit an [int]) in which [NN] is not supplied, the
    construction yields an operator and the derived [NN] is a power of two
    with [2 * N <= NN < 4 * N].  [2 ^ 29] is the largest [N] for which such
    a power of two fits an [int]. *)
Theorem derived_NN_bounds kernel d sigma N p m eps :
  int_args [kernel; d; N; p; m] -> 0 < N <= 2 ^ 29 ->
  exists self,
    construct (InitTuple kernel d sigma N p m eps None) = Some (self, Return 0) /\
    is_power_of_two (ac_NN self) /\ 2 * N <= ac_NN self < 4 * N.
Proof.
  intros Hints HN.
  destruct (construct_derived kernel d sigma N p m eps None Hints)
    as (self & j & Hc & Hj & HNN & Hge & Hmin); [now left|lia|].
  exists self. split; [exact Hc|]. rewrite HNN.
  split; [exists j; split; [lia|reflexivity]|]. split; [exact Hge|].
  destruct Hmin as [->|Hmin]; [change (2 ^ 1) with 2; lia|].
  replace j with ((j - 1) + 1) at 1 by lia. rewrite pow2_double by lia. lia.
Qed.

Lemma derived_NN_bounds_witness :
  exists self,
    construct (InitTuple 1 1 1 128 4 4 0.125 None) = Some (self, Return 0) /\
    is_power_of_two (ac_NN self) /\ 2 * 128 <= ac_NN self < 4 * 128.
Proof.
  apply (derived_NN_bounds 1 1 1%float 128 4 4 0.125%float).
  - unfold int_args, CInt.in_range, CInt.min_signed, CInt.max_signed.
    repeat (apply List.Forall_cons; [lia|]). apply List.Forall_nil.
  - lia.
Defined.

(** C3 as stated fails: with [N = 1] the derived [NN] is [2 = 2 * N], not a
    power of two strictly greater than [2 * N]. *)
Lemma derived_NN_not_strictly_greater :
  exists self,
    construct (InitTuple 1 1 1 1 4 4 0.125 None) = Some (self, Return 0) /\
    ~ (2 * 1 < ac_NN self).
Proof.
  eexists. split; [vm_compute; reflexivity|]. simpl. lia.
Qed.

(** C3, amended. For every construction with [0 < N <= 2 ^ 29] (and
    integers that fit an [int]) in which [NN] is not supplied, the
    construction yields an operator and the derived [NN] is the smallest
    power of two greater than or equal to [2 * N]. *)
Theorem derived_NN_smallest_power_of_two kernel d sigma N p m eps :
  int_args [kernel; d; N; p; m] -> 0 < N <= 2 ^ 29 ->
  exists self,
    construct (InitTuple kernel d sigma N p m eps None) = Some (self, Return 0) /\
    is_power_of_two (ac_NN self) /\ 2 * N <= ac_NN self /\
    forall z, is_power_of_two z -> 2 * N <= z -> ac_NN self <= z.
Proof.
  intros Hints HN.
  destruct (construct_derived kernel d sigma N p m eps None Hints)
    as (self & j & Hc & Hj & HNN & Hge & Hmin); [now left|lia|].
  exists self. split; [exact Hc|]. rewrite HNN.
  split; [exists j; split; [lia|reflexivity]|]. split; [exact Hge|].
  intros z (k & Hk & ->) Hz.
  apply Z.pow_le_mono_r; [lia|].
  destruct Hmin as [->|Hmin].
  - destruct (Z.eq_dec k 0) as [->|]; [change (2 ^ 0) with 1 in Hz|]; lia.
  - assert (2 ^ (j - 1) < 2 ^ k) as Hlt by lia.
    apply Z.pow_lt_mono_r_iff in Hlt; lia.
Qed.

Lemma derived_NN_smallest_power_of_two_witness :
  exists self,
    construct (InitTuple 1 1 1 100 4 4 0.125 None) = Some (self, Return 0) /\
    is_power_of_two (ac_NN self) /\ 2 * 100 <= ac_NN self /\
    forall z, is_power_of_two z -> 2 * 100 <= z -> ac_NN self <= z.
Proof.
  apply (derived_NN_smallest_power_of_two 1 1 1%float 100 4 4 0.125%float).
  - unfold int_args, CInt.in_range, CInt.min_signed, CInt.max_signed.
    repeat (apply List.Forall_cons; [lia|]). apply List.Forall_nil.
  - lia.
Defined.

(** C10. An explicit [NN = 0] is treated as an omitted [NN]: the two
    constructions are the same; whenever one returns an operator, its [NN]
    is the derived power of two, the smallest one from [2] on that reaches
    the (wrapped) product [2 * N]; for [- 2 ^ 30 <= N <= 2 ^ 29] it does
    return one, with [NN] the smallest power of two from [2] on that
    reaches [2 * N].  Any other [NN] is stored as given, without a check
    against [N]. *)
Theorem explicit_zero_NN_is_derived kernel d sigma N p m eps :
  construct (InitTuple kernel d sigma N p m eps (Some 0)) =
    construct (InitTuple kernel d sigma N p m eps None) /\
  (forall self,
     construct (InitTuple kernel d sigma N p m eps (Some 0)) = Some (self, Return 0) ->
     ac_NN self = smallest_power_of_two_geq (CInt.wrap (2 * N))) /\
  (int_args [kernel; d; N; p; m] -> - 2 ^ 30 <= N <= 2 ^ 29 ->
   exists self,
     construct (InitTuple kernel d sigma N p m eps (Some 0)) = Some (self, Return 0) /\
     ac_NN self = smallest_power_of_two_geq (2 * N) /\
     is_power_of_two (ac_NN self) /\ 2 <= ac_NN self /\ 2 * N <= ac_NN self /\
     (ac_NN self = 2 \/ ac_NN self < 4 * N)) /\
  (forall NN, NN <> 0 -> int_args [kernel; d; N; p; m; NN] ->
   exists self,
     construct (InitTuple kernel d sigma N p m eps (Some NN)) = Some (self, Return 0) /\
     ac_NN self = NN).
Proof.
  split; [reflexivity|]. split; [|split].
  - intros self Hc. apply construct_Return in Hc.
    rewrite constructed_NN_zero in Hc.
    apply derived_NN_spec in Hc as (_ & j & Hj & -> & Hge & Hmin).
    symmetry. apply smallest_power_of_two_geq_unique; [lia|exact Hge|exact Hmin].
  - intros Hints HN.
    destruct (construct_derived kernel d sigma N p m eps (Some 0) Hints)
      as (self & j & Hc & Hj & HNN & Hge & Hmin); [now right|exact HN|].
    exists self. split; [exact Hc|]. rewrite HNN.
    split; [symmetry; apply smallest_power_of_two_geq_unique; [lia|exact Hge|exact Hmin]|].
    split; [exists j; split; [lia|reflexivity]|].
    assert (2 ^ 1 <= 2 ^ j) as H2 by (apply Z.pow_le_mono_r; lia).
    change (2 ^ 1) with 2 in H2.
    split; [exact H2|]. split; [exact Hge|].
    destruct Hmin as [->|Hmin]; [left; reflexivity|right].
    replace j with ((j - 1) + 1) at 1 by lia. rewrite pow2_double by lia. lia.
  - intros NN HNN Hints.
    apply (construct_defined kernel d sigma N p m eps (Some NN) NN); [exact Hints|].
    unfold constructed_NN. change (default 0 (Some NN)) with NN.
    destruct (Z.eqb_spec NN 0); [contradiction|reflexivity].
Qed.

Lemma explicit_zero_NN_is_derived_witness :
  (exists self,
     construct (InitTuple 1 1 1 128 4 4 0.125 (Some 0)) = Some (self, Return 0) /\
     ac_NN self = smallest_power_of_two_geq (2 * 128) /\ ac_NN self = 256) /\
  (exists self,
     construct (InitTuple 1 1 1 128 4 4 0.125 (Some 1)) = Some (self, Return 0) /\
     ac_NN self = 1 /\ ac_NN self < 2 * ac_N self).
Proof.
  destruct (explicit_zero_NN_is_derived 1 1 1%float 128 4 4 0.125%float)
    as (_ & _ & Htot & Hverb).
  assert (forall l, Forall (fun z => -2 ^ 31 <= z <= 2 ^ 31 - 1) l -> int_args l)
    as Hin by (intros l Hl; exact Hl).
  split.
  - destruct Htot as (self & Hc & HNN & _).
    + apply Hin. repeat (apply List.Forall_cons; [lia|]). apply List.Forall_nil.
    + lia.
    + exists self. split; [exact Hc|]. split; [exact HNN|].
      rewrite HNN. reflexivity.
  - destruct (Hverb 1) as (self & Hc & HNN).
    + lia.
    + apply Hin. repeat (apply List.Forall_cons; [lia|]). apply List.Forall_nil.
    + exists self. split; [exact Hc|]. split; [exact HNN|].
      rewrite HNN. vm_compute in Hc. inversion Hc. reflexivity.
Defined.

(** C2 as stated fails: a construction with [d = 0], one with
    [sigma = -1.0] and one with [N = 0] all return [0] and yield an
    operator. *)
Lemma construct_accepts_nonpositive :
  (exists self, construct (InitTuple 1 0 1 16 4 4 0.125 None) = Some (self, Return 0)) /\
  (exists self, construct (InitTuple 1 1 (-1) 16 4 4 0.125 None) = Some (self, Return 0)) /\
  (exists self, construct (InitTuple 1 1 1 0 4 4 0.125 None) = Some (self, Return 0)).
Proof.
  repeat split; eexists; vm_compute; reflexivity.
Qed.

(** C2, amended. The constructor does not look at the sign of [d],
    [sigma] or [N]: every argument tuple whose integers fit an [int], with
    [NN] non-zero or [-2 ^ 30 <= N <= 2 ^ 29], yields an operator that holds
    the arguments as given, has [n = 0] and a plan without nodes.  The only
    exceptions a construction raises are those of argument parsing
    ([TypeError] for a malformed tuple, [OverflowError] for an integer
    that does not fit). *)
Theorem construct_does_not_validate kernel d sigma N p m eps oNN :
  (int_args ([kernel; d; N; p; m] ++ option_list oNN) ->
   default 0 oNN <> 0 \/ -2 ^ 30 <= N <= 2 ^ 29 ->
   exists self,
     construct (InitTuple kernel d sigma N p m eps oNN) = Some (self, Return 0) /\
     ac_kernel self = kernel /\ ac_d self = d /\ ac_sigma self = sigma /\
     ac_N self = N /\ ac_p self = p /\ ac_m self = m /\ ac_eps self = eps /\
     constructed self /\ points_absent self) /\
  (forall self e,
     construct (InitTuple kernel d sigma N p m eps oNN) = Some (self, Raise e) ->
     e = OverflowError /\ ~ int_args ([kernel; d; N; p; m] ++ option_list oNN)) /\
  (forall self e, construct InitMalformed = Some (self, Raise e) -> e = TypeError).
Proof.
  split; [|split].
  - intros Hints HNN.
    destruct (construct_cases kernel d sigma N p m eps oNN)
      as [[H _]|[(_ & H & _)|(_ & self & pl & H & _ & Hk & Hd & Hs & HN & Hp & Hm &
                                He & _ & Hn & Hpl & Hfd & Hx & Hy & Ha & Hf)]].
    + contradiction.
    + exfalso. unfold constructed_NN in H.
      destruct (Z.eqb_spec (default 0 oNN) 0) as [H0|H0]; [|discriminate].
      destruct HNN as [HNN|HNN]; [contradiction|].
      destruct (derived_NN_defined N HNN) as [NN HNN']. 
      change (constructed_NN N None) with (NN_loop NN_fuel N 2) in HNN'. congruence.
    + exists self. repeat split; auto.
      * exists pl. split; [exact Hpl|congruence].
      * exists pl. repeat split; assumption.
  - intros self e Hc.
    destruct (construct_cases kernel d sigma N p m eps oNN)
      as [[Hno [self' H]]|[(_ & _ & H)|(_ & self' & pl & H & _)]];
      rewrite H in Hc; inversion Hc; subst. split; [reflexivity|exact Hno].
  - intros self e Hc. vm_compute in Hc. now inversion Hc.
Qed.

Lemma construct_does_not_validate_witness :
  exists self,
    construct (InitTuple 1 (-3) (-1) (-5) 4 4 0.125 None) = Some (self, Return 0) /\
    ac_d self = -3 /\ ac_sigma self = (-1)%float /\ ac_N self = -5 /\
    constructed self /\ points_absent self.
Proof.
  destruct (construct_does_not_validate 1 (-3) (-1)%float (-5) 4 4 0.125%float None)
    as (Hok & _ & _).
  destruct Hok as (self & Hc & _ & Hd & Hs & HN & _ & _ & _ & Hcons & Habs).
  - simpl. unfold int_args, CInt.in_range, CInt.min_signed, CInt.max_signed.
    repeat (apply List.Forall_cons; [lia|]). apply List.Forall_nil.
  - right. lia.
  - exists self. repeat (split; [assumption|]). assumption.
Defined.

(** ** Counted loops and buffers *)

(** A loop invariant carries through a counted loop whose body never
    fails where the invariant holds. *)
Lemma for_loop_invariant {St : Type} (P : Z -> St -> Prop)
    (body : Z -> St -> option St) (k : nat) (i : Z) (s : St) :
  P i s ->
  (forall j s, i <= j < i + Z.of_nat k -> P j s ->
               exists s', body j s = Some s' /\ P (j + 1) s') ->
  exists s', for_loop k i body s = Some s' /\ P (i + Z.of_nat k) s'.
Proof.
  revert i s. induction k as [|k IH]; intros i s Hinit Hstep.
  - exists s. split; [reflexivity|]. now replace (i + Z.of_nat 0) with i by lia.
  - destruct (Hstep i s) as (s1 & Hbody & Hs1); [lia|exact Hinit|].
    destruct (IH (i + 1) s1) as (s' & Hrun & Hs'); [exact Hs1| |].
    + intros j s2 Hj. apply Hstep. lia.
    + exists s'. split.
      * simpl. rewrite Hbody. exact Hrun.
      * now replace (i + Z.of_nat (S k)) with (i + 1 + Z.of_nat k) by lia.
Qed.

Lemma for_lt_invariant {St : Type} (P : Z -> St -> Prop)
    (body : Z -> St -> option St) (n : Z) (s : St) :
  0 <= n -> P 0 s ->
  (forall j s, 0 <= j < n -> P j s -> exists s', body j s = Some s' /\ P (j + 1) s') ->
  exists s', for_lt n body s = Some s' /\ P n s'.
Proof.
  intros Hn Hinit Hstep. unfold for_lt.
  destruct (for_loop_invariant P body (Z.to_nat n) 0 s) as (s' & Hrun & Hs');
    [exact Hinit| |].
  - intros j s1 Hj. apply Hstep. lia.
  - exists s'. split; [exact Hrun|]. now replace n with (0 + Z.of_nat (Z.to_nat n)) by lia.
Qed.

Lemma store_in_range {A : Type} (buf : list A) (i : Z) (v : A) :
  0 <= i < Z.of_nat (length buf) -> store buf i v = Some (<[Z.to_nat i := v]> buf).
Proof.
  intros [Hlo Hhi]. unfold store.
  apply Z.leb_le in Hlo. apply Z.ltb_lt in Hhi. now rewrite Hlo, Hhi.
Qed.

Lemma load_nonneg {A : Type} (buf : list A) (i : Z) :
  0 <= i -> load buf i = buf !! Z.to_nat i.
Proof. intros Hlo. unfold load. apply Z.leb_le in Hlo. now rewrite Hlo. Qed.

Lemma length_filled {A : Type} (new old : list A) (r : nat) :
  length new = length old -> length (filled new old r) = length old.
Proof.
  intros Hlen. unfold filled. rewrite length_app, length_take, length_drop. lia.
Qed.

Lemma filled_all {A : Type} (new old : list A) (r : nat) :
  length new = length old -> (length old <= r)%nat -> filled new old r = new.
Proof.
  intros Hlen Hr. unfold filled.
  rewrite take_ge by lia. rewrite drop_ge by lia. apply app_nil_r.
Qed.

(** Writing cell [r] of a buffer filled up to [r] fills it up to [r + 1]. *)
Lemma filled_step {A : Type} (new old : list A) (r : nat) (v : A) :
  length new = length old -> new !! r = Some v ->
  <[r := v]> (filled new old r) = filled new old (S r).
Proof.
  revert new old. induction r as [|r IH]; intros new old Hlen Hv;
    destruct new as [|a new]; destruct old as [|o old]; try discriminate.
  - simpl in Hv. inversion Hv; subst. reflexivity.
  - simpl in Hv, Hlen. unfold filled in *. simpl. f_equal.
    apply IH; [lia|exact Hv].
Qed.

Lemma conversion_error_step (l : list PyObject) (r : nat) (item : PyObject) :
  l !! r = Some item ->
  conversion_error (take (S r) l) =
    conversion_error (take r l) || snd (PyFloat_AsDouble item).
Proof.
  intros Hitem. unfold conversion_error.
  rewrite (take_S_r _ _ _ Hitem), existsb_app. simpl. now rewrite orb_false_r.
Qed.

Lemma converted_lookup (l : list PyObject) (r : nat) (item : PyObject) :
  l !! r = Some item -> converted l !! r = Some (fst (PyFloat_AsDouble item)).
Proof. intros Hitem. unfold converted. now rewrite list_lookup_fmap, Hitem. Qed.

Lemma length_converted (l : list PyObject) : length (converted l) = length l.
Proof. unfold converted. apply length_fmap. Qed.

Lemma converted_numbers (vs : list float) : converted (PyNumber <$> vs) = vs.
Proof.
  unfold converted. rewrite <- list_fmap_compose.
  induction vs as [|v vs IH]; simpl; [reflexivity|]. now f_equal.
Qed.

Lemma conversion_error_numbers (vs : list float) :
  conversion_error (PyNumber <$> vs) = false.
Proof. unfold conversion_error. induction vs as [|v vs IH]; simpl; auto. Qed.

Lemma conversion_error_nonnumber (l : list PyObject) :
  PyNonNumber ∈ l -> conversion_error l = true.
Proof.
  intros Hin. unfold conversion_error. apply existsb_exists.
  exists PyNonNumber. split; [now apply list_elem_of_In|reflexivity].
Qed.

Lemma length_malloc_R `{FastsumLib} (k : Z) : length (malloc_R k) = Z.to_nat k.
Proof. unfold malloc_R. now rewrite length_map, length_seq. Qed.

Lemma length_malloc_C `{FastsumLib} (k : Z) : length (malloc_C k) = Z.to_nat k.
Proof. unfold malloc_C. now rewrite length_map, length_seq. Qed.

(** ** The loops of the [points] setter *)

Lemma table_size (a : PyArrayObject) (k d : Z) :
  dims a = [k; d] -> array_wf a ->
  0 <= d /\ Z.of_nat (length (items a)) = k * d.
Proof.
  intros Hdims [Hnn Hlen]. rewrite Hdims in Hnn, Hlen. simpl in Hlen.
  apply Forall_cons_1 in Hnn as [_ Hnn]. apply Forall_cons_1 in Hnn as [Hd _].
  split; [exact Hd|]. rewrite Hlen. lia.
Qed.

Section SetpointsLoops.

Variables (a : PyArrayObject) (k d : Z) (x0 y0 : list float).
Hypothesis Hdims : dims a = [k; d].
Hypothesis Hwf : array_wf a.
Hypothesis Hfits : table_fits k d.
Hypothesis Hx0 : length x0 = length (items a).
Hypothesis Hy0 : length y0 = length (items a).



(** One element: converted and stored in both node arrays. *)
Lemma setpoints_body_step (i j : Z) :
  0 <= i < k -> 0 <= j < d ->
  setpoints_body a d i j (setpoints_state a x0 y0 (i * d + j)) =
    Some (setpoints_state a x0 y0 (i * d + j + 1)).
Proof.
  intros Hi Hj. destruct (table_size a k d Hdims Hwf) as [Hd Hlen].
  destruct Hfits as [Hk Hkd].
  assert (0 <= i * d + j < k * d) as Hr by nia.
  assert (0 <= i * d <= k * d) as Hid by nia.
  unfold setpoints_body, setpoints_state, PyArray_GETITEM2, PyArray_DIM.
  rewrite Hdims. simpl nth.
  replace (0 <=? i) with true by (symmetry; apply Z.leb_le; lia).
  replace (0 <=? j) with true by (symmetry; apply Z.leb_le; lia).
  replace (j <? d) with true by (symmetry; apply Z.ltb_lt; lia).
  cbn [andb].
  destruct (lookup_lt_is_Some_2 (items a) (Z.to_nat (i * d + j))) as [item Hitem];
    [lia|].
  rewrite Hitem. cbn [mbind option_bind].
  destruct (PyFloat_AsDouble item) as [v e] eqn:Hconv.
  rewrite mul_in_range
    by (unfold CInt.in_range, CInt.min_signed, CInt.max_signed in *; lia).
  cbn [mbind option_bind].
  rewrite add_in_range
    by (unfold CInt.in_range, CInt.min_signed, CInt.max_signed in *; lia).
  cbn [mbind option_bind].
  pose proof (length_converted (items a)) as Hlc.
  rewrite store_in_range by (rewrite length_filled; lia).
  cbn [mbind option_bind].
  rewrite store_in_range by (rewrite length_filled; lia).
  cbn [mbind option_bind].
  pose proof (converted_lookup _ _ _ Hitem) as Hv. rewrite Hconv in Hv. simpl in Hv.
  rewrite !filled_step by (try exact Hv; lia).
  replace (Z.to_nat (i * d + j + 1)) with (S (Z.to_nat (i * d + j))) by lia.
  rewrite (conversion_error_step _ _ _ Hitem), Hconv. reflexivity.
Qed.

(** One row: the inner loop. *)
Lemma setpoints_row (i : Z) :
  0 <= i < k ->
  for_lt d (fun j => setpoints_body a d i j) (setpoints_state a x0 y0 (i * d)) =
    Some (setpoints_state a x0 y0 ((i + 1) * d)).
Proof.
  intros Hi. destruct (table_size a k d Hdims Hwf) as [Hd _].
  destruct (for_lt_invariant
              (fun j s => s = setpoints_state a x0 y0 (i * d + j))
              (fun j => setpoints_body a d i j) d
              (setpoints_state a x0 y0 (i * d))) as (s' & Hrun & Hs').
  - exact Hd.
  - now replace (i * d + 0) with (i * d) by lia.
  - intros j s Hj ->. eexists. split; [apply setpoints_body_step; assumption|].
    f_equal. lia.
  - rewrite Hrun, Hs'. do 2 f_equal. lia.
Qed.

(** All rows: both node arrays hold the converted elements, and the
    error indicator is set if and only if a conversion failed. *)
Lemma setpoints_loops :
  for_lt k (fun i => for_lt d (fun j => setpoints_body a d i j)) (x0, y0, false) =
    Some (converted (items a), converted (items a), conversion_error (items a)).
Proof.
  destruct (table_size a k d Hdims Hwf) as [Hd Hlen]. destruct Hfits as [Hk Hkd].
  destruct (for_lt_invariant
              (fun i s => s = setpoints_state a x0 y0 (i * d))
              (fun i => for_lt d (fun j => setpoints_body a d i j)) k
              (x0, y0, false)) as (s' & Hrun & Hs').
  - lia.
  - reflexivity.
  - intros i s Hi ->. eexists. split; [apply setpoints_row; assumption|reflexivity].
  - rewrite Hrun, Hs'. unfold setpoints_state.
    pose proof (length_converted (items a)) as Hlc.
    rewrite !filled_all by lia. rewrite take_ge by lia. reflexivity.
Qed.

End SetpointsLoops.

(** ** The [points] attribute *)

Lemma check_fastsum_constructed (self : AdjacencyCoreObject) :
  constructed self -> check_fastsum self = true.
Proof. intros (pl & Hpl & _). unfold check_fastsum. now rewrite Hpl. Qed.

(** [remove_points] on an operator that has its plan: the plan stays, the
    points go. *)
Lemma remove_points_spec (self : AdjacencyCoreObject) (pl : fastsum_plan) :
  ac_fastsum self = Some pl ->
  exists self1 pl1,
    remove_points self = Some self1 /\
    ac_fastsum self1 = Some pl1 /\ fs_d pl1 = fs_d pl /\
    ac_n self1 = 0 /\ same_config self self1 /\
    (ac_n self = 0 -> self1 = self) /\
    (ac_n self <> 0 ->
     fs_x pl1 = None /\ fs_y pl1 = None /\ fs_alpha pl1 = None /\ fs_f pl1 = None).
Proof.
  intros Hpl. unfold remove_points.
  destruct (Z.eqb_spec (ac_n self) 0) as [Hn|Hn].
  - exists self, pl. unfold same_config.
    repeat split; auto; congruence.
  - rewrite Hpl. simpl. eexists. eexists. split; [reflexivity|].
    unfold same_config. simpl. repeat split; auto; congruence.
Qed.

Lemma remove_points_absent (self : AdjacencyCoreObject) (pl : fastsum_plan) :
  ac_fastsum self = Some pl -> ac_n self <> 0 ->
  exists self1, remove_points self = Some self1 /\ points_absent self1 /\
                same_config self self1 /\
                exists pl1, ac_fastsum self1 = Some pl1 /\ fs_d pl1 = fs_d pl.
Proof.
  intros Hpl Hn.
  destruct (remove_points_spec self pl Hpl)
    as (self1 & pl1 & Hrm & Hpl1 & Hd & Hn1 & Hcfg & _ & Hnone).
  exists self1. split; [exact Hrm|]. split; [|split; [exact Hcfg|eauto]].
  split; [exact Hn1|]. exists pl1. split; [exact Hpl1|]. now apply Hnone.
Qed.

(** The setter on an absent value. *)
Lemma setpoints_absent `{FastsumLib} (self : AdjacencyCoreObject) (arg : PyValue) :
  check_fastsum self = true -> arg = PyNULL \/ arg = PyNone ->
  exists self',
    AdjacencyCore_setpoints self arg = Some (self', Return 0) /\
    ac_n self' = 0 /\ check_fastsum self' = true.
Proof.
  intros Hcheck Harg. unfold AdjacencyCore_setpoints. rewrite Hcheck. cbn [negb].
  unfold check_fastsum in Hcheck.
  destruct (ac_fastsum self) as [pl|] eqn:Hpl; [|discriminate].
  destruct (remove_points_spec self pl Hpl)
    as (self1 & pl1 & Hrm & Hpl1 & _ & Hn1 & _).
  rewrite Hrm. cbn [mbind option_bind].
  exists self1. unfold check_fastsum. rewrite Hpl1.
  destruct Harg as [-> | ->]; auto.
Qed.

Lemma getpoints_absent (self : AdjacencyCoreObject) :
  check_fastsum self = true -> ac_n self = 0 ->
  AdjacencyCore_getpoints self = Some (self, Return PyNone).
Proof.
  intros Hcheck Hn. unfold AdjacencyCore_getpoints. rewrite Hcheck, Hn. reflexivity.
Qed.

(** A table whose row count, converted to [int], is not positive is taken
    for one without rows: the setter returns [0] and looks at no element. *)
Lemma setpoints_rows_not_positive `{FastsumLib} (self : AdjacencyCoreObject)
    (a : PyArrayObject) (k : Z) :
  constructed self -> dims a = [k; ac_d self] -> CInt.wrap k <= 0 ->
  exists self',
    AdjacencyCore_setpoints self (PyArray a) = Some (self', Return 0) /\
    ac_n self' = 0 /\ same_config self self' /\
    AdjacencyCore_getpoints self' = Some (self', Return PyNone).
Proof.
  intros Hcons Hdims Hk.
  pose proof (check_fastsum_constructed self Hcons) as Hcheck.
  destruct Hcons as (pl & Hpl & _).
  destruct (remove_points_spec self pl Hpl)
    as (self1 & pl1 & Hrm & Hpl1 & _ & Hn1 & Hcfg & _).
  exists self1.
  assert (AdjacencyCore_getpoints self1 = Some (self1, Return PyNone)) as Hget.
  { apply getpoints_absent; [|exact Hn1]. unfold check_fastsum. now rewrite Hpl1. }
  repeat split; try assumption; try apply Hcfg.
  unfold AdjacencyCore_setpoints. rewrite Hcheck. cbn [negb].
  rewrite Hrm. cbn [mbind option_bind PyArray_Converter].
  unfold PyArray_NDIM, PyArray_DIM. rewrite Hdims. cbn [length nth].
  change (Z.of_nat 2 =? 2) with true. rewrite Z.eqb_refl. cbn [negb orb].
  replace (CInt.wrap k >? 0) with false by (rewrite Z.gtb_ltb; symmetry; apply Z.ltb_ge; lia).
  reflexivity.
Qed.

(** A one-column table is well formed when it has as many elements as
    rows. *)
Lemma one_column_wf (k : Z) (l : list PyObject) :
  0 <= k -> length l = Z.to_nat k -> array_wf {| dims := [k; 1]; items := l |}.
Proof.
  intros Hk Hlen. split.
  - apply List.Forall_cons; [exact Hk|]. apply List.Forall_cons; [lia|].
    apply List.Forall_nil.
  - cbn [items dims fold_right]. rewrite Hlen. lia.
Qed.


(** The setter on a table of the right shape. *)
Lemma setpoints_table `{FastsumLib} (self : AdjacencyCoreObject) (a : PyArrayObject)
    (k : Z) :
  constructed self -> dims a = [k; ac_d self] -> array_wf a ->
  table_fits k (ac_d self) ->
  exists self1 pl1,
    remove_points self = Some self1 /\ ac_fastsum self1 = Some pl1 /\
    fs_d pl1 = ac_d self /\ same_config self self1 /\
    AdjacencyCore_setpoints self (PyArray a) =
      let pl3 := plan_with_points pl1 k (ac_NN self1) (ac_m self1) a in
      if conversion_error (items a) then
        self' ← remove_points (set_points_state self1 (Some pl3) k);
        Some (self', Raise TypeError)
      else Some (set_points_state self1 (Some (fastsum_precompute pl3)) k, Return 0).
Proof.
  intros Hcons Hdims Hwf Hfits.
  pose proof (check_fastsum_constructed self Hcons) as Hcheck.
  destruct Hcons as (pl & Hpl & Hpld).
  destruct (remove_points_spec self pl Hpl)
    as (self1 & pl1 & Hrm & Hpl1 & Hd1 & Hn1 & Hcfg & _).
  exists self1, pl1. repeat (split; [assumption || congruence|]).
  destruct (table_size a k (ac_d self) Hdims Hwf) as [Hd Hlen].
  unfold AdjacencyCore_setpoints. rewrite Hcheck. cbn [negb].
  rewrite Hrm. cbn [mbind option_bind PyArray_Converter].
  unfold PyArray_NDIM, PyArray_DIM. rewrite Hdims. cbn [length nth].
  change (Z.of_nat 2 =? 2) with true. rewrite Z.eqb_refl. cbn [negb orb].
  destruct Hfits as [Hk Hkd].
  rewrite wrap_in_range
    by (unfold CInt.in_range, CInt.min_signed, CInt.max_signed in *; lia).
  replace (k >? 0) with true by (symmetry; apply Z.gtb_lt; lia).
  rewrite Hpl1. cbn [mbind option_bind].
  cbn [fastsum_init_guru_target_nodes fastsum_init_guru_source_nodes
       plan_set_target plan_set_source fs_x fs_y fs_d].
  cbn [mbind option_bind].
  rewrite (setpoints_loops a k (ac_d self)); try assumption.
  - cbn [mbind option_bind]. unfold plan_with_points. reflexivity.
  - split; assumption.
  - rewrite length_malloc_R. rewrite Hd1, Hpld. lia.
  - rewrite length_malloc_R. rewrite Hd1, Hpld. lia.
Qed.

Lemma same_config_trans (s1 s2 s3 : AdjacencyCoreObject) :
  same_config s1 s2 -> same_config s2 s3 -> same_config s1 s3.
Proof.
  unfold same_config.
  intros (H1 & H2 & H3 & H4 & H5 & H6 & H7 & H8 & H9)
         (G1 & G2 & G3 & G4 & G5 & G6 & G7 & G8 & G9).
  repeat split; congruence.
Qed.

Lemma same_config_set_points_state (self : AdjacencyCoreObject)
    (fastsum : option fastsum_plan) (n : Z) :
  same_config self (set_points_state self fastsum n).
Proof. unfold same_config. simpl. repeat split; reflexivity. Qed.

(** C6, amended. A table that passes the shape check (two dimensions, [d]
    columns), has [0 < k <= INT_MAX] rows and [k * d <= INT_MAX] elements,
    so that an [int] counts its rows and indexes its elements, and contains
    an element that is not a number: the setter raises [TypeError] and
    leaves the operator disabled, with [n = 0] and no node storage bound. *)
Theorem setpoints_nonnumeric_rolls_back `{FastsumLib} (self : AdjacencyCoreObject)
    (a : PyArrayObject) (k : Z) :
  constructed self -> dims a = [k; ac_d self] -> array_wf a ->
  table_fits k (ac_d self) -> PyNonNumber ∈ items a ->
  exists self',
    AdjacencyCore_setpoints self (PyArray a) = Some (self', Raise TypeError) /\
    points_absent self' /\ same_config self self'.
Proof.
  intros Hcons Hdims Hwf Hfits Hbad.
  destruct (setpoints_table self a k Hcons Hdims Hwf Hfits)
    as (self1 & pl1 & Hrm & Hpl1 & Hd1 & Hcfg & Hset).
  rewrite (conversion_error_nonnumber _ Hbad) in Hset. cbv zeta in Hset.
  set (pl3 := plan_with_points pl1 k (ac_NN self1) (ac_m self1) a) in Hset.
  destruct (remove_points_absent (set_points_state self1 (Some pl3) k) pl3)
    as (self' & Hrm' & Habs & Hcfg' & _).
  - reflexivity.
  - simpl. destruct Hfits as [Hk _]. lia.
  - exists self'. rewrite Hset, Hrm'. split; [reflexivity|]. split; [exact Habs|].
    eapply same_config_trans; [exact Hcfg|].
    eapply same_config_trans; [apply same_config_set_points_state|exact Hcfg'].
Qed.

(** After the setter accepted a table of numbers the operator is bound. *)
Lemma setpoints_numbers `{L : FastsumLib} {C : FastsumContract L}
    (self : AdjacencyCoreObject) (k : Z) (vs : list float) :
  constructed self -> array_wf (table k (ac_d self) vs) ->
  table_fits k (ac_d self) ->
  exists self' pl',
    AdjacencyCore_setpoints self (PyArray (table k (ac_d self) vs)) =
      Some (self', Return 0) /\
    ac_n self' = k /\ same_config self self' /\
    ac_fastsum self' = Some pl' /\ fs_d pl' = ac_d self /\ fs_x pl' = Some vs /\
    points_bound self'.
Proof.
  intros Hcons Hwf Hfits.
  destruct (setpoints_table self (table k (ac_d self) vs) k Hcons eq_refl Hwf Hfits)
    as (self1 & pl1 & Hrm & Hpl1 & Hd1 & Hcfg & Hset).
  destruct (table_size (table k (ac_d self) vs) k (ac_d self) eq_refl Hwf) as [Hd Hlen].
  simpl in Hlen. rewrite length_fmap in Hlen.
  simpl items in Hset. rewrite conversion_error_numbers in Hset. cbv zeta in Hset.
  set (pl3 := plan_with_points pl1 k (ac_NN self1) (ac_m self1)
                (table k (ac_d self) vs)) in *.
  destruct (precompute_keeps pl3) as (Hpd & Hx & Hy & Ha & Hf).
  assert (fs_x pl3 = Some vs /\ fs_y pl3 = Some vs) as [Hx3 Hy3].
  { unfold pl3, plan_with_points, table. simpl. now rewrite converted_numbers. }
  assert (fs_alpha pl3 = Some (malloc_C k) /\ fs_f pl3 = Some (malloc_C k)) as [Ha3 Hf3].
  { unfold pl3, plan_with_points. simpl. split; reflexivity. }
  destruct Hfits as [Hk Hkd].
  exists (set_points_state self1 (Some (fastsum_precompute pl3)) k),
         (fastsum_precompute pl3).
  split; [exact Hset|]. split; [reflexivity|]. split.
  { eapply same_config_trans; [exact Hcfg|apply same_config_set_points_state]. }
  split; [reflexivity|]. split.
  { rewrite Hpd. unfold pl3, plan_with_points. simpl. exact Hd1. }
  split; [congruence|].
  destruct Hcfg as (_ & Hcd & _).
  rewrite Hf3 in Hf. simpl in Hf.
  destruct (fs_f (fastsum_precompute pl3)) as [f|] eqn:Hf'; [|discriminate].
  simpl in Hf. inversion Hf as [Hflen]. rewrite length_malloc_C in Hflen.
  split; [simpl; lia|].
  exists (fastsum_precompute pl3), vs, vs, (malloc_C k), f. simpl.
  rewrite Hcd, length_malloc_C.
  repeat split; try congruence; lia.
Qed.

Lemma getpoints_bound (self : AdjacencyCoreObject) (pl : fastsum_plan)
    (x : list float) :
  ac_fastsum self = Some pl -> fs_x pl = Some x ->
  0 < ac_n self -> 0 <= ac_d self ->
  Z.of_nat (length x) = ac_n self * ac_d self ->
  AdjacencyCore_getpoints self =
    Some (self, Return (PyArray (table (ac_n self) (ac_d self) x))).
Proof.
  intros Hpl Hx Hn Hd Hlen. unfold AdjacencyCore_getpoints, check_fastsum.
  rewrite Hpl. cbn [negb].
  replace (ac_n self =? 0) with false by (symmetry; apply Z.eqb_neq; lia).
  replace (ac_n self <? 0) with false by (symmetry; apply Z.ltb_ge; lia).
  replace (ac_d self <? 0) with false by (symmetry; apply Z.ltb_ge; lia).
  cbn [orb mbind option_bind]. rewrite Hx. cbn [mbind option_bind].
  replace (Z.of_nat (length x) <? ac_n self * ac_d self) with false
    by (symmetry; apply Z.ltb_ge; lia).
  rewrite take_ge by lia. reflexivity.
Qed.

(** C8, amended. Round trip of the [points] attribute.  A table of numbers
    with [d] columns, [0 < k <= INT_MAX] rows and [k * d <= INT_MAX]
    elements is accepted by the setter, the operator then has [n = k] and
    the getter returns a table equal to it.  After the setter was given an
    absent value ([NULL] or [None]), whatever points were bound before,
    [n = 0] and the getter returns [None]. *)
Theorem points_roundtrip `{L : FastsumLib} {C : FastsumContract L}
    (self : AdjacencyCoreObject) :
  constructed self ->
  (forall k vs,
     array_wf (table k (ac_d self) vs) -> table_fits k (ac_d self) ->
     exists self',
       AdjacencyCore_setpoints self (PyArray (table k (ac_d self) vs)) =
         Some (self', Return 0) /\
       ac_n self' = k /\
       AdjacencyCore_getpoints self' =
         Some (self', Return (PyArray (table k (ac_d self) vs)))) /\
  (forall arg,
     arg = PyNULL \/ arg = PyNone ->
     exists self',
       AdjacencyCore_setpoints self arg = Some (self', Return 0) /\
       ac_n self' = 0 /\
       AdjacencyCore_getpoints self' = Some (self', Return PyNone)).
Proof.
  intros Hcons. split.
  - intros k vs Hwf Hfits.
    destruct (setpoints_numbers self k vs Hcons Hwf Hfits)
      as (self' & pl' & Hset & Hn & Hcfg & Hpl' & _ & Hx & _).
    destruct (table_size (table k (ac_d self) vs) k (ac_d self) eq_refl Hwf)
      as [Hd Hlen].
    simpl in Hlen. rewrite length_fmap in Hlen.
    destruct Hcfg as (_ & Hcd & _). destruct Hfits as [Hk _].
    exists self'. split; [exact Hset|]. split; [exact Hn|].
    rewrite (getpoints_bound self' pl' vs Hpl' Hx); rewrite ?Hn, ?Hcd; try lia.
    reflexivity.
  - intros arg Harg.
    destruct (setpoints_absent self arg (check_fastsum_constructed self Hcons) Harg)
      as (self' & Hset & Hn & Hcheck).
    exists self'. split; [exact Hset|]. split; [exact Hn|].
    now apply getpoints_absent.
Qed.

(** The stand-in library keeps the contract. *)
Lemma ones_fastsum_contract : FastsumContract ones_fastsum.
Proof.
  assert (keeps_nodes ones_transform) as Hones.
  { intros pl. unfold ones_transform. simpl. repeat split.
    destruct (fs_f pl) as [f|]; simpl; [|reflexivity]. now rewrite length_map. }
  split; [|exact Hones|exact Hones].
  intros pl. repeat split.
Qed.

Lemma example_operator_constructed : constructed example_operator.
Proof. eexists. split; reflexivity. Qed.

Lemma example_bound_constructed : constructed example_bound.
Proof. eexists. split; reflexivity. Qed.

Lemma array_wf_intro (a : PyArrayObject) :
  forallb (fun k => 0 <=? k) (dims a) = true ->
  (Z.of_nat (length (items a)) =? fold_right Z.mul 1 (dims a)) = true ->
  array_wf a.
Proof.
  intros Hnn Hlen. split; [|now apply Z.eqb_eq].
  apply List.Forall_forall. intros k Hk.
  rewrite forallb_forall in Hnn. apply Z.leb_le. now apply Hnn.
Qed.

(** C6 as stated fails: a table of [2 ^ 32] rows and one column whose
    elements are not numbers passes the shape check, but its row count is
    [0] once converted to the [int n]: the setter returns [0] without
    looking at an element, and no error is signalled. *)
Lemma setpoints_wide_nonnumeric_accepted :
  array_wf example_wide_nonnumeric /\
  PyArray_NDIM example_wide_nonnumeric = 2 /\
  PyArray_DIM example_wide_nonnumeric 1 = ac_d example_operator /\
  PyNonNumber ∈ items example_wide_nonnumeric /\
  exists self',
    AdjacencyCore_setpoints (H := ones_fastsum) example_operator
      (PyArray example_wide_nonnumeric) = Some (self', Return 0).
Proof.
  assert (0 < 2 ^ 32) as Hpos by lia.
  split; [|split; [reflexivity|split; [reflexivity|split]]].
  - unfold example_wide_nonnumeric. apply one_column_wf; [lia|].
    apply repeat_length.
  - unfold example_wide_nonnumeric. cbn [items].
    generalize Hpos. generalize (2 ^ 32). intros k Hk.
    destruct (Z.to_nat k) as [|r] eqn:Hr; [lia|]. cbn [repeat]. apply list_elem_of_here.
  - destruct (setpoints_rows_not_positive (H := ones_fastsum) example_operator
                example_wide_nonnumeric (2 ^ 32) example_operator_constructed eq_refl)
      as (self' & Hset & _).
    + assert (CInt.wrap (2 ^ 32) = 0) as -> by reflexivity. lia.
    + exists self'. exact Hset.
Qed.

(** C8 as stated fails: a table of [2 ^ 32] rows of zeros is accepted, but
    the operator is left with [n = 0], not with [n = 2 ^ 32], and the
    getter returns [None], not the table. *)
Lemma points_roundtrip_wide_table :
  array_wf (table (2 ^ 32) 1 example_wide_zeros) /\
  exists self',
    AdjacencyCore_setpoints (H := ones_fastsum) example_operator
      (PyArray (table (2 ^ 32) 1 example_wide_zeros)) = Some (self', Return 0) /\
    ac_n self' = 0 /\
    AdjacencyCore_getpoints self' = Some (self', Return PyNone).
Proof.
  split.
  - unfold table, example_wide_zeros. apply one_column_wf; [lia|].
    rewrite length_fmap. apply repeat_length.
  - destruct (setpoints_rows_not_positive (H := ones_fastsum) example_operator
                (table (2 ^ 32) 1 example_wide_zeros) (2 ^ 32)
                example_operator_constructed eq_refl)
      as (self' & Hset & Hn & _ & Hget).
    + assert (CInt.wrap (2 ^ 32) = 0) as -> by reflexivity. lia.
    + exists self'. auto.
Qed.

Lemma points_roundtrip_witness :
  (exists self',
     AdjacencyCore_setpoints (H := ones_fastsum) example_operator
       (PyArray (table 5 1 example_points)) = Some (self', Return 0) /\
     ac_n self' = 5 /\
     AdjacencyCore_getpoints self' =
       Some (self', Return (PyArray (table 5 1 example_points)))) /\
  (exists self',
     AdjacencyCore_setpoints (H := ones_fastsum) example_bound PyNone =
       Some (self', Return 0) /\
     ac_n self' = 0 /\
     AdjacencyCore_getpoints self' = Some (self', Return PyNone)).
Proof.
  split.
  - destruct (points_roundtrip (C := ones_fastsum_contract) example_operator
                example_operator_constructed) as [Hset _].
    apply (Hset 5 example_points).
    + apply array_wf_intro; reflexivity.
    + unfold table_fits, CInt.max_signed. simpl. lia.
  - destruct (points_roundtrip (C := ones_fastsum_contract) example_bound
                example_bound_constructed) as [_ Habsent].
    apply Habsent. right. reflexivity.
Defined.

Lemma setpoints_nonnumeric_rolls_back_witness :
  exists self',
    AdjacencyCore_setpoints (H := ones_fastsum) example_bound
      (PyArray {| dims := [2; 1]; items := [PyNumber 0; PyNonNumber] |}) =
      Some (self', Raise TypeError) /\
    points_absent self' /\ same_config example_bound self'.
Proof.
  apply (setpoints_nonnumeric_rolls_back (H := ones_fastsum) example_bound
           {| dims := [2; 1]; items := [PyNumber 0; PyNonNumber] |} 2).
  - exact example_bound_constructed.
  - reflexivity.
  - apply array_wf_intro; reflexivity.
  - unfold table_fits, CInt.max_signed. simpl. lia.
  - simpl. apply list_elem_of_In. simpl. auto.
Defined.

(** ** Matrix-vector product *)

(** The loop that loads the weights. *)
Lemma apply_load_loop (a : PyArrayObject) (n : Z) (alpha0 : list complex) :
  Z.of_nat (length (items a)) = n -> length alpha0 = length (items a) ->
  for_lt n (apply_load_body a) (alpha0, false) =
    Some (weights_as_alpha (converted (items a)), conversion_error (items a)).
Proof.
  intros Hn Hlen.
  set (new := weights_as_alpha (converted (items a))).
  assert (length new = length (items a)) as Hnew
    by (unfold new, weights_as_alpha; now rewrite length_fmap, length_converted).
  destruct (for_lt_invariant
              (fun i s => s = (filled new alpha0 (Z.to_nat i),
                               conversion_error (take (Z.to_nat i) (items a))))
              (apply_load_body a) n (alpha0, false)) as (s' & Hrun & Hs').
  - lia.
  - reflexivity.
  - intros i s Hi ->. unfold apply_load_body, PyArray_GETITEM1.
    replace (0 <=? i) with true by (symmetry; apply Z.leb_le; lia).
    destruct (lookup_lt_is_Some_2 (items a) (Z.to_nat i)) as [item Hitem]; [lia|].
    rewrite Hitem. cbn [mbind option_bind].
    destruct (PyFloat_AsDouble item) as [v e] eqn:Hconv.
    rewrite store_in_range by (rewrite length_filled; lia).
    cbn [mbind option_bind]. eexists. split; [reflexivity|].
    replace (Z.to_nat (i + 1)) with (S (Z.to_nat i)) by lia.
    rewrite (conversion_error_step _ _ _ Hitem), Hconv. simpl snd.
    rewrite filled_step; [reflexivity|lia|].
    unfold new, weights_as_alpha. rewrite list_lookup_fmap.
    rewrite (converted_lookup _ _ _ Hitem), Hconv. reflexivity.
  - rewrite Hrun, Hs'. rewrite filled_all by lia. rewrite take_ge by lia. reflexivity.
Qed.

(** A loop that fills [data[i]] from [f[i]] and [alpha[i]]. *)
Lemma output_loop (g : complex -> complex -> float) (n : Z)
    (f alpha : list complex) (data0 : list float) :
  Z.of_nat (length f) = n -> Z.of_nat (length alpha) = n ->
  Z.of_nat (length data0) = n ->
  for_lt n (fun i data =>
              fi ← load f i; ai ← load alpha i; store data i (g fi ai)) data0 =
    Some (zip_with g f alpha).
Proof.
  intros Hf Ha Hd.
  assert (length (zip_with g f alpha) = length data0) as Hlen
    by (rewrite length_zip_with; lia).
  destruct (for_lt_invariant
              (fun i data => data = filled (zip_with g f alpha) data0 (Z.to_nat i))
              (fun i data =>
                 fi ← load f i; ai ← load alpha i; store data i (g fi ai))
              n data0) as (s' & Hrun & Hs').
  - lia.
  - reflexivity.
  - intros i data Hi ->. rewrite !load_nonneg by lia.
    destruct (lookup_lt_is_Some_2 f (Z.to_nat i)) as [fi Hfi]; [lia|].
    destruct (lookup_lt_is_Some_2 alpha (Z.to_nat i)) as [ai Hai]; [lia|].
    rewrite Hfi, Hai. cbn [mbind option_bind].
    rewrite store_in_range by (rewrite length_filled; lia).
    eexists. split; [reflexivity|].
    replace (Z.to_nat (i + 1)) with (S (Z.to_nat i)) by lia.
    apply filled_step; [exact Hlen|].
    rewrite lookup_zip_with, Hfi. simpl. rewrite Hai. reflexivity.
  - rewrite Hrun, Hs'. rewrite filled_all by lia. reflexivity.
Qed.

(** The four branches of [apply] compute the correction of the
    specification. *)
Lemma apply_output_spec (kernel : Z) (diagonal : float) (n : Z)
    (f alpha : list complex) (data0 : list float) :
  Z.of_nat (length f) = n -> Z.of_nat (length alpha) = n ->
  Z.of_nat (length data0) = n ->
  apply_output kernel diagonal n f alpha data0 =
    Some (zip_with
            (fun fi ai =>
               (CREAL fi +
                diagonalCorrection (kernel_of_selector kernel) diagonal (CREAL ai))%float)
            f alpha).
Proof.
  intros Hf Ha Hd. unfold apply_output, kernel_of_selector.
  destruct (kernel =? 1); [|destruct (kernel =? 2); [|destruct (kernel =? 3)]];
    apply (output_loop _ n f alpha data0 Hf Ha Hd).
Qed.

(** C7. With [n = 0] both [apply] and [normalized_eigs] raise
    [RuntimeError], return no value and leave the object as it is, whatever
    their arguments. *)
Theorem lifecycle_error_without_points `{FastsumLib} `{ArpackLib}
    (self : AdjacencyCoreObject) (args : PyApplyArgs) (fuel : nat)
    (eigs_args : PyEigsArgs) :
  ac_n self = 0 ->
  AdjacencyCore_apply self args = Some (self, Raise RuntimeError) /\
  AdjacencyCore_normalized_eigs fuel self eigs_args = Some (self, Raise RuntimeError).
Proof.
  intros Hn. unfold AdjacencyCore_apply, AdjacencyCore_normalized_eigs.
  rewrite Hn. destruct (check_fastsum self); split; reflexivity.
Qed.

Lemma lifecycle_error_without_points_witness :
  ac_n example_operator = 0 /\
  AdjacencyCore_apply (H := ones_fastsum) example_operator
    (ApplyArgs (PyArray (vector [1; 1]%float)) None) =
    Some (example_operator, Raise RuntimeError) /\
  AdjacencyCore_normalized_eigs (H := ones_fastsum) (H0 := idle_arpack) 1
    example_operator (EigsArgs 1 None None None None) =
    Some (example_operator, Raise RuntimeError).
Proof.
  split; [reflexivity|].
  apply (lifecycle_error_without_points (H := ones_fastsum) (H0 := idle_arpack)
           example_operator).
  reflexivity.
Defined.

Lemma transform_keeps `{L : FastsumLib} {C : FastsumContract L} (exact : bool) :
  keeps_nodes (transform exact).
Proof. destruct exact; [apply exact_keeps|apply trafo_keeps]. Qed.

(** The extent read for the result is [n] exactly when [exact] is [0]. *)
Lemma apply_result_extent_eqb (n : Z) (exact : bool) :
  (apply_result_extent n exact =? n) = negb exact.
Proof.
  unfold apply_result_extent.
  destruct exact; cbn [negb]; [apply Z.eqb_neq|apply Z.eqb_eq]; lia.
Qed.

Lemma not_exact (oexact : option bool) :
  oexact <> Some true -> default false oexact = false.
Proof. destruct oexact as [[|]|]; [congruence|reflexivity|reflexivity]. Qed.

(** [apply] on a vector of the right length: the weights are loaded and
    the error indicator is looked at; then the transform runs, and the
    result is made unless [exact] was set. *)
Lemma apply_loaded `{FastsumLib} (self : AdjacencyCoreObject) (a : PyArrayObject)
    (oexact : option bool) :
  points_bound self -> dims a = [ac_n self] -> array_wf a ->
  exists pl,
    ac_fastsum self = Some pl /\
    AdjacencyCore_apply self (ApplyArgs (PyArray a) oexact) =
      let pl := plan_with_weights pl (converted (items a)) in
      if conversion_error (items a)
      then Some (set_points_state self (Some pl) (ac_n self), Raise TypeError)
      else if default false oexact then None
      else
        let pl := transform false pl in
        f ← fs_f pl;
        alpha ← fs_alpha pl;
        data ← apply_output (ac_kernel self) (ac_diagonal self) (ac_n self) f alpha
                            (malloc_R (ac_n self));
        Some (set_points_state self (Some pl) (ac_n self),
              Return (PyArray {| dims := [ac_n self]; items := PyNumber <$> data |})).
Proof.
  intros (Hn & pl & x & y & alpha & f & Hpl & Hx & Hy & Ha & Hf & _ & _ & Hla & Hlf)
         Hdims [_ Hlen].
  rewrite Hdims in Hlen. simpl in Hlen.
  exists pl. split; [exact Hpl|].
  unfold AdjacencyCore_apply, check_fastsum. rewrite Hpl. cbn [negb].
  replace (ac_n self =? 0) with false by (symmetry; apply Z.eqb_neq; lia).
  cbn [PyArray_Converter]. unfold PyArray_NDIM, PyArray_DIM. rewrite Hdims.
  cbn [length nth]. change (Z.of_nat 1 =? 1) with true. rewrite Z.eqb_refl.
  cbn [negb orb mbind option_bind]. rewrite Ha. cbn [mbind option_bind].
  rewrite (apply_load_loop a (ac_n self) alpha) by lia.
  cbn [mbind option_bind]. cbv zeta.
  replace (ac_n self <? 0) with false by (symmetry; apply Z.ltb_ge; lia).
  rewrite apply_result_extent_eqb, negb_involutive. cbn [orb].
  unfold plan_with_weights, transform.
  destruct (conversion_error (items a)); [reflexivity|].
  destruct (default false oexact); reflexivity.
Qed.

(** Whatever [apply] does with a vector of the right length, the operator
    stays bound to the same points. *)
Lemma apply_keeps_points `{L : FastsumLib} {C : FastsumContract L}
    (self self' : AdjacencyCoreObject) (a : PyArrayObject) (oexact : option bool)
    (r : result PyValue) :
  points_bound self -> dims a = [ac_n self] -> array_wf a ->
  AdjacencyCore_apply self (ApplyArgs (PyArray a) oexact) = Some (self', r) ->
  points_bound self' /\ same_config self self' /\ ac_n self' = ac_n self /\
  exists pl pl', ac_fastsum self = Some pl /\ ac_fastsum self' = Some pl' /\
                 fs_x pl' = fs_x pl /\ fs_y pl' = fs_y pl.
Proof.
  intros Hb Hdims Hwf Happly.
  destruct (apply_loaded self a oexact Hb Hdims Hwf) as (pl & Hpl & Heq).
  rewrite Heq in Happly. clear Heq. cbv zeta in Happly.
  destruct Hb as (Hn & pl0 & x & y & alpha & f & Hpl0 & Hx & Hy & Ha & Hf &
                  Hlx & Hly & Hla & Hlf).
  assert (pl0 = pl) as -> by congruence.
  destruct Hwf as [_ Hlen]. rewrite Hdims in Hlen. simpl in Hlen.
  set (plw := plan_with_weights pl (converted (items a))) in *.
  assert (length (weights_as_alpha (converted (items a))) = length (items a)) as Hlw
    by (unfold weights_as_alpha; now rewrite length_fmap, length_converted).
  assert (forall pl',
            fs_x pl' = Some x -> fs_y pl' = Some y ->
            fs_alpha pl' = Some (weights_as_alpha (converted (items a))) ->
            length <$> fs_f pl' = Some (length f) ->
            let s := set_points_state self (Some pl') (ac_n self) in
            points_bound s /\ same_config self s /\ ac_n s = ac_n self /\
            exists pl0 pl1, ac_fastsum self = Some pl0 /\ ac_fastsum s = Some pl1 /\
                            fs_x pl1 = fs_x pl0 /\ fs_y pl1 = fs_y pl0) as Hstate.
  { intros pl' Hx' Hy' Ha' Hf' s.
    destruct (fs_f pl') as [f'|] eqn:Hf''; [|discriminate]. simpl in Hf'.
    inversion Hf' as [Hlf'].
    split; [|split; [apply same_config_set_points_state|split; [reflexivity|]]].
    - split; [exact Hn|].
      exists pl', x, y, (weights_as_alpha (converted (items a))), f'. simpl.
      repeat split; try assumption; lia.
    - exists pl, pl'. simpl. repeat split; congruence. }
  destruct (conversion_error (items a)).
  - inversion Happly; subst. apply (Hstate plw); try assumption; try reflexivity.
    unfold plw, plan_with_weights. simpl. now rewrite Hf.
  - destruct (default false oexact); [discriminate|].
    destruct (transform_keeps false plw) as (_ & Hx' & Hy' & Ha' & Hf').
    destruct (fs_f (transform false plw)) as [f'|] eqn:Hf'';
      [|discriminate].
    rewrite Ha' in Happly. cbn [mbind option_bind] in Happly.
    change (fs_alpha plw) with (Some (weights_as_alpha (converted (items a)))) in Happly.
    cbn [mbind option_bind] in Happly.
    destruct (apply_output _ _ _ _ _ _) as [data|]; [|discriminate].
    cbn [mbind option_bind] in Happly. inversion Happly; subst.
    apply (Hstate (transform false plw)).
    + rewrite Hx'. exact Hx.
    + rewrite Hy'. exact Hy.
    + rewrite Ha'. reflexivity.
    + rewrite Hf'', Hf'. unfold plw, plan_with_weights. simpl. now rewrite Hf.
Qed.

(** [apply] on a vector of [n] doubles with [exact] false or omitted, in
    closed form. *)
Lemma apply_vector_result `{L : FastsumLib} {C : FastsumContract L}
    (self : AdjacencyCoreObject) (w : list float) (oexact : option bool) :
  points_bound self -> Z.of_nat (length w) = ac_n self -> oexact <> Some true ->
  exists pl f,
    ac_fastsum self = Some pl /\
    fs_f (transform false (plan_with_weights pl w)) = Some f /\
    length f = length w /\
    AdjacencyCore_apply self (ApplyArgs (PyArray (vector w)) oexact) =
      Some (set_points_state self
              (Some (transform false (plan_with_weights pl w)))
              (ac_n self),
            Return (PyArray (vector
              (zip_with
                 (fun fi ai =>
                    (CREAL fi +
                     diagonalCorrection (kernel_of_selector (ac_kernel self))
                       (ac_diagonal self) (CREAL ai))%float)
                 f (weights_as_alpha w))))).
Proof.
  intros Hb Hw Hex.
  assert (array_wf (vector w)) as Hwf.
  { split; simpl; [|rewrite length_fmap; lia].
    apply List.Forall_cons; [lia|apply List.Forall_nil]. }
  destruct (apply_loaded self (vector w) oexact Hb) as (pl & Hpl & Happly);
    [simpl; congruence|exact Hwf|].
  simpl items in Happly.
  rewrite converted_numbers, conversion_error_numbers, (not_exact oexact Hex) in Happly.
  cbv zeta in Happly.
  destruct Hb as (Hn & pl0 & x & y & alpha & f0 & Hpl0 & _ & _ & _ & Hf0 & _ & _ & _ & Hlf0).
  assert (pl0 = pl) as -> by congruence.
  set (plw := plan_with_weights pl w) in *.
  destruct (transform_keeps false plw) as (_ & _ & _ & Ha & Hf).
  assert (fs_f plw = Some f0) as Hfw by (unfold plw, plan_with_weights; simpl; exact Hf0).
  rewrite Hfw in Hf. change (fs_alpha plw) with (Some (weights_as_alpha w)) in Ha.
  destruct (fs_f (transform false plw)) as [f|] eqn:Hf';
    [|discriminate].
  simpl in Hf. inversion Hf as [Hlf].
  rewrite Ha in Happly. cbn [mbind option_bind] in Happly.
  assert (length (weights_as_alpha w) = length w) as Hlw
    by (unfold weights_as_alpha; apply length_fmap).
  rewrite apply_output_spec in Happly by (rewrite ?length_malloc_R, ?Hlw; lia).
  cbn [mbind option_bind] in Happly.
  exists pl, f. split; [exact Hpl|]. split; [exact Hf'|]. split; [lia|].
  rewrite Happly. unfold vector. rewrite length_zip_with, Hlw.
  replace (length f `min` length w)%nat with (length w) by lia.
  rewrite Hw. reflexivity.
Qed.

(** [apply] on a vector of [n] doubles with [exact] set: the transform
    runs, and the extent then read for the result is [n + 2 ^ 32]. *)
Lemma apply_exact_extent `{FastsumLib} (self : AdjacencyCoreObject) (w : list float) :
  points_bound self -> Z.of_nat (length w) = ac_n self ->
  AdjacencyCore_apply self (ApplyArgs (PyArray (vector w)) (Some true)) = None.
Proof.
  intros Hb Hw.
  assert (array_wf (vector w)) as Hwf.
  { split; simpl; [|rewrite length_fmap; lia].
    apply List.Forall_cons; [lia|apply List.Forall_nil]. }
  destruct (apply_loaded self (vector w) (Some true) Hb) as (pl & Hpl & Happly);
    [simpl; congruence|exact Hwf|].
  simpl items in Happly. rewrite conversion_error_numbers in Happly. exact Happly.
Qed.

(** C1. On an operator with [n > 0] bound points, [apply] to a vector of
    [n] doubles with [exact] false or omitted returns a vector of [n]
    doubles; entry [i] is the real part of the sum the library computed
    for point [i] from these weights, plus the diagonal correction of the
    specification for the operator's kernel on [weights[i]].  With [exact]
    set the code does not return this vector: the extent it reads for the
    result is [n + 2 ^ 32], not [n], and the call has no result. *)
Theorem apply_diagonal_correction `{L : FastsumLib} {C : FastsumContract L}
    (self : AdjacencyCoreObject) (w : list float) :
  points_bound self -> Z.of_nat (length w) = ac_n self ->
  (forall oexact, oexact <> Some true ->
     exists self' pl f out,
       ac_fastsum self = Some pl /\
       fs_f (fastsum_trafo (plan_with_weights pl w)) = Some f /\
       AdjacencyCore_apply self (ApplyArgs (PyArray (vector w)) oexact) =
         Some (self', Return (PyArray (vector out))) /\
       length out = length w /\
       forall i wi, w !! i = Some wi ->
         exists fi, f !! i = Some fi /\
           out !! i =
             Some (CREAL fi + diagonalCorrection (kernel_of_selector (ac_kernel self))
                                (ac_diagonal self) wi)%float) /\
  apply_result_extent (ac_n self) true = ac_n self + 2 ^ 32 /\
  AdjacencyCore_apply self (ApplyArgs (PyArray (vector w)) (Some true)) = None.
Proof.
  intros Hb Hw. split; [|split; [unfold apply_result_extent; lia
                               |now apply apply_exact_extent]].
  intros oexact Hex.
  destruct (apply_vector_result self w oexact Hb Hw Hex)
    as (pl & f & Hpl & Hf & Hlf & Happly).
  do 4 eexists. split; [exact Hpl|]. split; [exact Hf|]. split; [exact Happly|].
  assert (length (weights_as_alpha w) = length w) as Hlw
    by (unfold weights_as_alpha; apply length_fmap).
  split; [rewrite length_zip_with; lia|].
  intros i wi Hwi.
  assert (i < length w)%nat as Hi by (eapply lookup_lt_Some; exact Hwi).
  destruct (lookup_lt_is_Some_2 f i) as [fi Hfi]; [lia|].
  exists fi. split; [exact Hfi|].
  rewrite lookup_zip_with, Hfi. simpl.
  unfold weights_as_alpha. rewrite list_lookup_fmap, Hwi. reflexivity.
Qed.

Lemma diagonalCorrection_selector (kernel : Z) (diagonal weight : float) :
  diagonalCorrection (kernel_of_selector kernel) diagonal weight =
    if kernel =? 2 then (diagonal * weight)%float
    else ((diagonal - 1) * weight)%float.
Proof.
  unfold kernel_of_selector.
  destruct (Z.eqb_spec kernel 1) as [->|H1]; [reflexivity|].
  destruct (Z.eqb_spec kernel 2) as [->|H2]; [reflexivity|].
  destruct (kernel =? 3); reflexivity.
Qed.

Lemma example_bound_points_bound : points_bound example_bound.
Proof.
  split; [reflexivity|].
  do 5 eexists. repeat split; reflexivity.
Qed.

Lemma apply_diagonal_correction_witness :
  (exists self' pl f out,
     ac_fastsum example_bound = Some pl /\
     fs_f (fastsum_trafo (FastsumLib := ones_fastsum)
             (plan_with_weights pl [1; 1; 1; 1; 1]%float)) = Some f /\
     AdjacencyCore_apply (H := ones_fastsum) example_bound
       (ApplyArgs (PyArray (vector [1; 1; 1; 1; 1]%float)) None) =
       Some (self', Return (PyArray (vector out))) /\
     length out = 5%nat /\
     forall i wi, [1; 1; 1; 1; 1]%float !! i = Some wi ->
       exists fi, f !! i = Some fi /\
         out !! i =
           Some (CREAL fi + diagonalCorrection (kernel_of_selector (ac_kernel example_bound))
                              (ac_diagonal example_bound) wi)%float) /\
  apply_result_extent 5 true = 5 + 2 ^ 32 /\
  AdjacencyCore_apply (H := ones_fastsum) example_bound
    (ApplyArgs (PyArray (vector [1; 1; 1; 1; 1]%float)) (Some true)) = None.
Proof.
  destruct (apply_diagonal_correction (C := ones_fastsum_contract) example_bound
              [1; 1; 1; 1; 1]%float example_bound_points_bound eq_refl)
    as (Hret & Hext & Hnone).
  split; [apply (Hret None); discriminate|]. split; [exact Hext|exact Hnone].
Defined.

(** C5 as stated fails: [apply] with a vector of the right length that
    holds an element that is not a number raises [TypeError], but the
    weights the plan held (here those of the preceding [apply]) have been
    overwritten. *)
Lemma apply_nonnumeric_overwrites_weights :
  exists self',
    AdjacencyCore_apply (H := ones_fastsum) example_applied
      (ApplyArgs (PyArray {| dims := [5];
                             items := [PyNumber 2; PyNonNumber; PyNumber 2;
                                       PyNumber 2; PyNumber 2] |}) None) =
      Some (self', Raise TypeError) /\
    weights_of example_applied = Some (weights_as_alpha [1; 1; 1; 1; 1]%float) /\
    weights_of self' = Some (weights_as_alpha [2; -1; 2; 2; 2]%float) /\
    self' <> example_applied.
Proof.
  eexists. split; [vm_compute; reflexivity|].
  split; [vm_compute; reflexivity|]. split; [vm_compute; reflexivity|].
  intros Heq.
  apply (f_equal (fun s => match weights_of s with
                           | Some ((v, _) :: _) => PrimFloat.eqb v 1
                           | _ => false
                           end)) in Heq.
  vm_compute in Heq. discriminate.
Qed.

(** C5, amended. On an operator with bound points a malformed weights
    argument is reported and changes nothing but, in one case, the weight
    buffer: an argument numpy cannot convert raises [TypeError] and one of
    the wrong rank or length raises [ValueError], both with the object
    untouched; a vector of the right length with an element that is not a
    number raises [TypeError] after every weight has been overwritten with
    the converted element ([-1.0] where the conversion failed), the
    object being otherwise the same. *)
Theorem apply_malformed_weights `{FastsumLib} (self : AdjacencyCoreObject)
    (oexact : option bool) :
  points_bound self ->
  AdjacencyCore_apply self ApplyMalformed = Some (self, Raise TypeError) /\
  (forall v, PyArray_Converter v = None ->
     AdjacencyCore_apply self (ApplyArgs v oexact) = Some (self, Raise TypeError)) /\
  (forall v a, PyArray_Converter v = Some a ->
     PyArray_NDIM a <> 1 \/ PyArray_DIM a 0 <> ac_n self ->
     AdjacencyCore_apply self (ApplyArgs v oexact) = Some (self, Raise ValueError)) /\
  (forall a, dims a = [ac_n self] -> array_wf a -> PyNonNumber ∈ items a ->
     exists pl,
       ac_fastsum self = Some pl /\
       AdjacencyCore_apply self (ApplyArgs (PyArray a) oexact) =
         Some (set_points_state self
                 (Some (plan_with_weights pl (converted (items a)))) (ac_n self),
               Raise TypeError)).
Proof.
  intros Hb. pose proof Hb as (Hn & pl & x & y & alpha & f & Hpl & _).
  assert (check_fastsum self = true) as Hcheck by (unfold check_fastsum; now rewrite Hpl).
  assert ((ac_n self =? 0) = false) as Hn0 by (apply Z.eqb_neq; lia).
  split; [|split; [|split]].
  - unfold AdjacencyCore_apply. now rewrite Hcheck, Hn0.
  - intros v Hv. unfold AdjacencyCore_apply. now rewrite Hcheck, Hn0, Hv.
  - intros v a Hv Hshape. unfold AdjacencyCore_apply. rewrite Hcheck, Hn0, Hv.
    cbn [negb].
    destruct (Z.eqb_spec (PyArray_NDIM a) 1) as [H1|H1]; [|reflexivity].
    destruct (Z.eqb_spec (PyArray_DIM a 0) (ac_n self)) as [H2|H2]; [|reflexivity].
    tauto.
  - intros a Hdims Hwf Hbad.
    destruct (apply_loaded self a oexact Hb Hdims Hwf) as (pl' & Hpl' & Happly).
    exists pl'. split; [exact Hpl'|].
    rewrite Happly. cbv zeta. now rewrite (conversion_error_nonnumber _ Hbad).
Qed.

Lemma apply_malformed_weights_witness :
  AdjacencyCore_apply (H := ones_fastsum) example_bound
    (ApplyArgs (PyArray (vector [1; 1]%float)) None) =
    Some (example_bound, Raise ValueError) /\
  exists pl,
    ac_fastsum example_bound = Some pl /\
    AdjacencyCore_apply (H := ones_fastsum) example_bound
      (ApplyArgs (PyArray {| dims := [5];
                             items := [PyNumber 2; PyNonNumber; PyNumber 2;
                                       PyNumber 2; PyNumber 2] |}) None) =
      Some (set_points_state example_bound
              (Some (plan_with_weights pl [2; -1; 2; 2; 2]%float)) 5,
            Raise TypeError).
Proof.
  destruct (apply_malformed_weights (H := ones_fastsum) example_bound None
              example_bound_points_bound) as (_ & _ & Hshape & Hitems).
  split.
  - apply (Hshape _ (vector [1; 1]%float)); [reflexivity|].
    right. vm_compute. discriminate.
  - apply (Hitems {| dims := [5];
                     items := [PyNumber 2; PyNonNumber; PyNumber 2;
                               PyNumber 2; PyNumber 2] |}).
    + reflexivity.
    + apply array_wf_intro; reflexivity.
    + simpl. apply list_elem_of_In. simpl. auto.
Defined.

(** ** The parameters of [normalized_eigs] *)



(** Where [nev < 10] and [n < 20] the default exceeds [n]: with five
    points and [nev = 1] it is [20].  The comment at the declaration of
    [ncv] gives the default as [min (n, max (2*k+1, 20))], which is [5]
    here; the [if (nev < 10)] branch does not take the minimum. *)
Lemma default_ncv_exceeds_n :
  ac_n example_bound = 5 /\
  eigs_ncv (ac_n example_bound) 1 0 = Some 20 /\
  AdjacencyCore_normalized_eigs (H := ones_fastsum) (H0 := idle_arpack) 8
    example_bound (EigsArgs 1 None None None None) =
    eigs_run (H := ones_fastsum) (H0 := idle_arpack) 8 example_bound 1 0%float 300 20 true /\
  ~ (1 < 20 <= ac_n example_bound).
Proof.
  split; [reflexivity|]. split; [reflexivity|]. split; [reflexivity|].
  change (ac_n example_bound) with 5. lia.
Qed.




(** * Further properties of the code *)

(** ** Construction and the kernel *)

(** X1. The plan of a constructed operator is bound to the kernel the
    selector names: [xx_gaussian] for 2, [laplacian_rbf] for 3 and
    [gaussian] for 1 and for every other value (nothing is rejected), with
    [sigma] as its parameter, [N], [p], an inner boundary of [0.0] and [eps]
    as outer boundary; [diagonal] starts at [0.0].  The bound kernel is
    [xx_gaussian] exactly when [apply] corrects with [diagonal * w]. *)
Theorem constructor_binds_kernel kernel d sigma N p m eps oNN self :
  construct (InitTuple kernel d sigma N p m eps oNN) = Some (self, Return 0) ->
  exists pl,
    ac_fastsum self = Some pl /\
    fs_k pl = (if kernel =? 2 then xx_gaussian
               else if kernel =? 3 then laplacian_rbf else gaussian) /\
    fs_kernel_param pl = sigma /\ fs_flags pl = STORE_PERMUTATION_X_ALPHA /\
    fs_d pl = d /\ fs_n pl = N /\ fs_p pl = p /\
    fs_eps_I pl = 0%float /\ fs_eps_B pl = eps /\
    ac_diagonal self = 0%float /\
    (fs_k pl = xx_gaussian <-> kernel_of_selector (ac_kernel self) = SquaredGaussian).
Proof.
  unfold construct, AdjacencyCore_init. intros Hc.
  destruct (parse_init_spec AdjacencyCore_new kernel d sigma N p m eps oNN)
    as [[_ Hp]|[_ [self' Hp]]]; rewrite Hp in Hc; cbn [negb] in Hc; [|discriminate].
  cbn [ac_kernel ac_d ac_sigma ac_N ac_p ac_m ac_eps ac_NN] in Hc.
  change (if default (ac_NN AdjacencyCore_new) oNN =? 0 then NN_loop NN_fuel N 2
          else Some (default (ac_NN AdjacencyCore_new) oNN))
    with (constructed_NN N oNN) in Hc.
  destruct (constructed_NN N oNN) as [NN|]; [|discriminate].
  cbn [mbind option_bind] in Hc. inversion Hc; subst; clear Hc.
  unfold kernel_of_selector. simpl.
  destruct (Z.eqb_spec kernel 1) as [->|H1]; simpl.
  { eexists. repeat split; try reflexivity; discriminate. }
  destruct (Z.eqb_spec kernel 2) as [->|H2]; simpl.
  { eexists. repeat split; reflexivity. }
  destruct (Z.eqb_spec kernel 3) as [->|H3]; simpl;
    eexists; repeat split; try reflexivity; discriminate.
Qed.

(** X18. A call of [__init__] that fails on an integer that does not fit an
    [int] raises [OverflowError] and has stored the elements before that
    integer ([sigma] with [d], [eps] with [m]); the members from it on,
    [NN], [diagonal], [n] and the plan are as they were. *)
Theorem init_overflow_stores_prefix (self : AdjacencyCoreObject)
    kernel d sigma N p m eps oNN :
  ~ int_args ([kernel; d; N; p; m] ++ option_list oNN) ->
  exists self',
    AdjacencyCore_init self (InitTuple kernel d sigma N p m eps oNN) =
      Some (self', Raise OverflowError) /\
    ac_NN self' = ac_NN self /\ ac_diagonal self' = ac_diagonal self /\
    ac_n self' = ac_n self /\ ac_fastsum self' = ac_fastsum self /\
    (int_args [kernel] -> ac_kernel self' = kernel) /\
    (~ int_args [kernel] -> ac_kernel self' = ac_kernel self) /\
    (int_args [kernel; d] -> ac_d self' = d /\ ac_sigma self' = sigma) /\
    (~ int_args [kernel; d] ->
     ac_d self' = ac_d self /\ ac_sigma self' = ac_sigma self) /\
    (int_args [kernel; d; N] -> ac_N self' = N) /\
    (~ int_args [kernel; d; N] -> ac_N self' = ac_N self) /\
    (int_args [kernel; d; N; p] -> ac_p self' = p) /\
    (~ int_args [kernel; d; N; p] -> ac_p self' = ac_p self) /\
    (int_args [kernel; d; N; p; m] -> ac_m self' = m /\ ac_eps self' = eps) /\
    (~ int_args [kernel; d; N; p; m] ->
     ac_m self' = ac_m self /\ ac_eps self' = ac_eps self).
Proof.
  intros Hno. unfold AdjacencyCore_init, PyArg_ParseTuple_init.
  pose proof (in_rangeb_spec kernel) as Hk. pose proof (in_rangeb_spec d) as Hd.
  pose proof (in_rangeb_spec N) as HN. pose proof (in_rangeb_spec p) as Hp.
  pose proof (in_rangeb_spec m) as Hm.
  cbn [app] in Hno. rewrite !int_args_cons in Hno.
  destruct (CInt.in_rangeb kernel); cbn [negb];
    [|eexists; split; [reflexivity|]; rewrite !int_args_cons, ?int_args_nil;
      cbn [ac_kernel ac_d ac_sigma ac_N ac_p ac_m ac_eps ac_NN ac_diagonal ac_n
           ac_fastsum]; intuition (try congruence)].
  destruct (CInt.in_rangeb d); cbn [negb];
    [|eexists; split; [reflexivity|]; rewrite !int_args_cons, ?int_args_nil;
      cbn [ac_kernel ac_d ac_sigma ac_N ac_p ac_m ac_eps ac_NN ac_diagonal ac_n
           ac_fastsum]; intuition (try congruence)].
  destruct (CInt.in_rangeb N); cbn [negb];
    [|eexists; split; [reflexivity|]; rewrite !int_args_cons, ?int_args_nil;
      cbn [ac_kernel ac_d ac_sigma ac_N ac_p ac_m ac_eps ac_NN ac_diagonal ac_n
           ac_fastsum]; intuition (try congruence)].
  destruct (CInt.in_rangeb p); cbn [negb];
    [|eexists; split; [reflexivity|]; rewrite !int_args_cons, ?int_args_nil;
      cbn [ac_kernel ac_d ac_sigma ac_N ac_p ac_m ac_eps ac_NN ac_diagonal ac_n
           ac_fastsum]; intuition (try congruence)].
  destruct (CInt.in_rangeb m); cbn [negb];
    [|eexists; split; [reflexivity|]; rewrite !int_args_cons, ?int_args_nil;
      cbn [ac_kernel ac_d ac_sigma ac_N ac_p ac_m ac_eps ac_NN ac_diagonal ac_n
           ac_fastsum]; intuition (try congruence)].
  destruct oNN as [NN|]; cbn [option_list option_rect] in Hno.
  - pose proof (in_rangeb_spec NN) as HNN. rewrite int_args_cons, int_args_nil in Hno.
    destruct (CInt.in_rangeb NN); cbn [negb]; [exfalso; intuition auto|].
    eexists. split; [reflexivity|]. rewrite !int_args_cons, ?int_args_nil.
    cbn [ac_kernel ac_d ac_sigma ac_N ac_p ac_m ac_eps ac_NN ac_diagonal ac_n
         ac_fastsum]. intuition (try congruence).
  - rewrite int_args_nil in Hno. exfalso. intuition auto.
Qed.

(** ** What the entry points keep *)

(** Whatever a counted loop's body preserves, the loop preserves. *)
Lemma for_loop_preserves {St : Type} (P : St -> Prop)
    (body : Z -> St -> option St) (k : nat) (i : Z) (s s' : St) :
  (forall j s s', P s -> body j s = Some s' -> P s') ->
  P s -> for_loop k i body s = Some s' -> P s'.
Proof.
  intros Hbody. revert i s. induction k as [|k IH]; intros i s Hs Hrun; simpl in Hrun.
  - now inversion Hrun; subst.
  - destruct (body i s) as [s1|] eqn:Hb; [|discriminate].
    cbn [mbind option_bind] in Hrun.
    apply (IH (i + 1) s1); [eapply Hbody; eassumption|exact Hrun].
Qed.

Lemma for_lt_preserves {St : Type} (P : St -> Prop)
    (body : Z -> St -> option St) (n : Z) (s s' : St) :
  (forall j s s', P s -> body j s = Some s' -> P s') ->
  P s -> for_lt n body s = Some s' -> P s'.
Proof. unfold for_lt. apply for_loop_preserves. Qed.

Lemma store_Some_length {A : Type} (buf buf' : list A) (i : Z) (v : A) :
  store buf i v = Some buf' -> length buf' = length buf.
Proof.
  unfold store. destruct (_ && _); [|discriminate].
  intros H. inversion H; subst. apply length_insert.
Qed.

Lemma operator_inv_construct (args : PyInitArgs) (self : AdjacencyCoreObject) :
  construct args = Some (self, Return 0) -> operator_inv self.
Proof.
  intros Hc. destruct args as [kernel d sigma N p m eps oNN|]; [|discriminate].
  destruct (construct_cases kernel d sigma N p m eps oNN)
    as [[_ [self' H]]|[(_ & _ & H)|(_ & self' & pl & H & _ & _ & Hd & _ & _ & _ & _ & _ &
                                    _ & Hn & Hpl & Hpd & Hx & Hy & Ha & Hf)]];
    rewrite H in Hc; try discriminate.
  inversion Hc; subst self'. split.
  - exists pl. split; [exact Hpl|congruence].
  - left. split; [exact Hn|]. exists pl. repeat split; assumption.
Qed.

Lemma points_bound_not_absent (self : AdjacencyCoreObject) :
  points_bound self -> ac_n self <> 0.
Proof. intros [Hn _]. lia. Qed.

Lemma constructed_same_config (self self' : AdjacencyCoreObject)
    (pl pl' : fastsum_plan) :
  constructed self -> ac_fastsum self = Some pl -> same_config self self' ->
  ac_fastsum self' = Some pl' -> fs_d pl' = fs_d pl -> constructed self'.
Proof.
  intros (pl0 & Hpl0 & Hd0) Hpl (_ & Hcd & _) Hpl' Hd.
  exists pl'. split; [exact Hpl'|]. congruence.
Qed.

(** [remove_points] takes a well-formed operator to the disabled state. *)
Lemma remove_points_inv (self : AdjacencyCoreObject) :
  operator_inv self ->
  exists self1,
    remove_points self = Some self1 /\ constructed self1 /\ points_absent self1 /\
    same_config self self1.
Proof.
  intros [Hcons Hstate]. pose proof Hcons as (pl & Hpl & Hd).
  destruct (remove_points_spec self pl Hpl)
    as (self1 & pl1 & Hrm & Hpl1 & Hd1 & Hn1 & Hcfg & Hsame & Hnone).
  exists self1. split; [exact Hrm|]. split.
  { eapply constructed_same_config; eauto. }
  split; [|exact Hcfg].
  destruct (Z.eq_dec (ac_n self) 0) as [Hn|Hn].
  - rewrite (Hsame Hn). destruct Hstate as [Habs|Hb]; [exact Habs|].
    now apply points_bound_not_absent in Hb.
  - split; [exact Hn1|]. exists pl1. split; [exact Hpl1|]. now apply Hnone.
Qed.

Lemma setpoints_body_lengths (a : PyArrayObject) (d i j : Z) (lx ly : nat)
    (s s' : list float * list float * bool) :
  (length s.1.1 = lx /\ length s.1.2 = ly) ->
  setpoints_body a d i j s = Some s' ->
  length s'.1.1 = lx /\ length s'.1.2 = ly.
Proof.
  destruct s as [[x y] err]. unfold setpoints_body. simpl. intros [Hx Hy] Hb.
  destruct (PyArray_GETITEM2 a i j) as [item|]; [|discriminate].
  cbn [mbind option_bind] in Hb. destruct (PyFloat_AsDouble item) as [v e].
  destruct (CInt.mul i d ≫= _) as [k|]; [|discriminate].
  cbn [mbind option_bind] in Hb.
  destruct (store x k v) as [x'|] eqn:Hsx; [|discriminate].
  cbn [mbind option_bind] in Hb.
  destruct (store y k v) as [y'|] eqn:Hsy; [|discriminate].
  cbn [mbind option_bind] in Hb. inversion Hb; subst. simpl.
  apply store_Some_length in Hsx. apply store_Some_length in Hsy. lia.
Qed.

Lemma array_wf_dim_nonneg (a : PyArrayObject) (k : nat) :
  array_wf a -> 0 <= PyArray_DIM a k.
Proof.
  intros [Hnn _]. unfold PyArray_DIM.
  destruct (nth_in_or_default k (dims a) 0) as [Hin | Hdef]; [|rewrite Hdef; lia].
  rewrite List.Forall_forall in Hnn. now apply Hnn.
Qed.

(** The setter keeps the operator well formed, whatever it is given and
    however it returns, and never touches the configuration. *)
Lemma setpoints_inv `{L : FastsumLib} {C : FastsumContract L}
    (self self' : AdjacencyCoreObject) (arg : PyValue) (r : result Z) :
  operator_inv self -> value_wf arg ->
  AdjacencyCore_setpoints self arg = Some (self', r) ->
  operator_inv self' /\ same_config self self'.
Proof.
  intros Hinv Hwf Hset.
  pose proof (check_fastsum_constructed self (proj1 Hinv)) as Hcheck.
  destruct (remove_points_inv self Hinv) as (self1 & Hrm & Hcons1 & Habs1 & Hcfg1).
  assert (operator_inv self1) as Hinv1 by (split; [exact Hcons1|now left]).
  unfold AdjacencyCore_setpoints in Hset. rewrite Hcheck in Hset. cbn [negb] in Hset.
  rewrite Hrm in Hset. cbn [mbind option_bind] in Hset.
  assert (forall a, PyArray_Converter arg = Some a ->
            match PyArray_Converter arg with
            | Some array =>
                if negb (PyArray_NDIM array =? 2) || negb (PyArray_DIM array 1 =? ac_d self)
                then Some (self1, Raise TypeError)
                else
                  let n := CInt.wrap (PyArray_DIM array 0) in
                  if n >? 0 then
                    pl ← ac_fastsum self1;
                    let pl := fastsum_init_guru_source_nodes pl n (ac_NN self1) (ac_m self1) in
                    let pl := fastsum_init_guru_target_nodes pl n (ac_NN self1) (ac_m self1) in
                    x ← fs_x pl;
                    y ← fs_y pl;
                    '(x, y, err) ←
                      for_lt n (fun i => for_lt (ac_d self)
                                  (fun j => setpoints_body array (ac_d self) i j))
                             (x, y, false);
                    let pl := plan_set_buffers pl (Some x) (Some y) (fs_alpha pl) (fs_f pl) in
                    let self := set_points_state self1 (Some pl) n in
                    if err : bool then
                      (self ← remove_points self;
                       Some (self, Raise TypeError))
                    else
                      Some (set_points_state self (Some (fastsum_precompute pl)) n, Return 0)
                  else Some (self1, Return 0)
            | None => Some (self1, Raise TypeError)
            end = Some (self', r) ->
            operator_inv self' /\ same_config self self') as Harray.
  { intros a Ha Hrun. rewrite Ha in Hrun.
    destruct (negb (PyArray_NDIM a =? 2) || negb (PyArray_DIM a 1 =? ac_d self)) eqn:Hshape.
    { inversion Hrun; subst. split; assumption. }
    apply orb_false_elim in Hshape as [_ Hd]. apply negb_false_iff, Z.eqb_eq in Hd.
    cbv zeta in Hrun. set (n := CInt.wrap (PyArray_DIM a 0)) in *.
    destruct (Z.gtb_spec n 0) as [Hn|Hn]; [|inversion Hrun; subst; split; assumption].
    pose proof Hcons1 as (pl1 & Hpl1 & Hd1). rewrite Hpl1 in Hrun.
    cbn [mbind option_bind fastsum_init_guru_target_nodes fastsum_init_guru_source_nodes
         plan_set_target plan_set_source fs_x fs_y fs_d] in Hrun.
    destruct (for_lt n _ _) as [[[x y] err]|] eqn:Hloop; [|discriminate].
    cbn [mbind option_bind] in Hrun.
    assert (0 <= ac_d self) as Hdnn
      by (rewrite <- Hd; apply array_wf_dim_nonneg; now apply Hwf).
    assert (ac_d self1 = ac_d self) as Hd1' by (destruct Hcfg1 as (_ & H & _); exact H).
    assert (length x = Z.to_nat (ac_d self * n) /\ length y = Z.to_nat (ac_d self * n))
      as [Hlx Hly].
    { change x with ((x, y, err).1.1). change y with ((x, y, err).1.2) at 2.
      apply (for_lt_preserves
               (fun s => length s.1.1 = Z.to_nat (ac_d self * n) /\
                         length s.1.2 = Z.to_nat (ac_d self * n))
               _ n _ _) in Hloop; [exact Hloop| |].
      - intros i s s' Hs Hrow.
        apply (for_lt_preserves
                 (fun s => length s.1.1 = Z.to_nat (ac_d self * n) /\
                           length s.1.2 = Z.to_nat (ac_d self * n))
                 _ (ac_d self) _ _) in Hrow; [exact Hrow| |exact Hs].
        intros j t t'. apply setpoints_body_lengths.
      - simpl. rewrite !length_malloc_R. rewrite Hd1, Hd1'. auto. }
    set (pl3 := plan_set_buffers _ (Some x) (Some y) _ _) in Hrun.
    destruct err.
    - destruct (remove_points_absent (set_points_state self1 (Some pl3) n) pl3)
        as (self2 & Hrm2 & Habs2 & Hcfg2 & pl2 & Hpl2 & Hd2); [reflexivity|simpl; lia|].
      rewrite Hrm2 in Hrun. cbn [mbind option_bind] in Hrun. inversion Hrun; subst.
      assert (same_config self self') as Hcfg.
      { eapply same_config_trans; [exact Hcfg1|].
        eapply same_config_trans; [apply same_config_set_points_state|exact Hcfg2]. }
      split; [|exact Hcfg]. split; [|now left].
      exists pl2. split; [exact Hpl2|]. destruct Hcfg as (_ & Hcd & _).
      rewrite Hd2, Hcd. unfold pl3. simpl. congruence.
    - inversion Hrun; subst.
      destruct (precompute_keeps pl3) as (Hpd & Hpx & Hpy & Hpa & Hpf).
      assert (same_config self
                (set_points_state self1 (Some (fastsum_precompute pl3)) n)) as Hcfg
        by (eapply same_config_trans; [exact Hcfg1|apply same_config_set_points_state]).
      split; [|exact Hcfg]. split.
      + exists (fastsum_precompute pl3). split; [reflexivity|].
        rewrite Hpd. unfold pl3. simpl. congruence.
      + right. split; [simpl; lia|].
        assert (fs_f pl3 = Some (malloc_C n)) as Hf3 by reflexivity.
        rewrite Hf3 in Hpf. simpl in Hpf.
        destruct (fs_f (fastsum_precompute pl3)) as [f|] eqn:Hf'; [|discriminate].
        simpl in Hpf. inversion Hpf as [Hlf]. rewrite length_malloc_C in Hlf.
        exists (fastsum_precompute pl3), x, y, (malloc_C n), f. simpl.
        rewrite Hd1', length_malloc_C.
        repeat split; try congruence; try lia.
        * rewrite Hpx. reflexivity.
        * rewrite Hpy. reflexivity.
        * rewrite Hpa. reflexivity. }
  destruct arg as [| |a|].
  - inversion Hset; subst. split; assumption.
  - inversion Hset; subst. split; assumption.
  - apply (Harray a eq_refl). exact Hset.
  - inversion Hset; subst. split; assumption.
Qed.

Lemma dims_of_vector (a : PyArrayObject) (n : Z) :
  PyArray_NDIM a = 1 -> PyArray_DIM a 0 = n -> dims a = [n].
Proof.
  unfold PyArray_NDIM, PyArray_DIM.
  destruct (dims a) as [|k [|k' l]]; simpl; intros H1 H2; try lia. congruence.
Qed.

Lemma dims_of_table (a : PyArrayObject) (d : Z) :
  PyArray_NDIM a = 2 -> PyArray_DIM a 1 = d -> dims a = [PyArray_DIM a 0; d].
Proof.
  unfold PyArray_NDIM, PyArray_DIM.
  destruct (dims a) as [|k [|k' [|k'' l]]]; simpl; intros H1 H2; try lia. congruence.
Qed.

Lemma same_config_refl (self : AdjacencyCoreObject) : same_config self self.
Proof. unfold same_config. repeat split; reflexivity. Qed.

Lemma same_nodes_refl (pl : fastsum_plan) : same_nodes pl pl.
Proof. unfold same_nodes. repeat split; reflexivity. Qed.

(** What [apply] leaves behind: it returns in one of its error branches
    with the object untouched, or with the object's plan replaced by one
    that holds the same nodes. *)
Lemma apply_inv `{L : FastsumLib} {C : FastsumContract L}
    (self self' : AdjacencyCoreObject) (args : PyApplyArgs) (r : result PyValue) :
  operator_inv self -> apply_args_wf args ->
  AdjacencyCore_apply self args = Some (self', r) ->
  operator_inv self' /\ same_config self self' /\ ac_n self' = ac_n self /\
  exists pl pl', ac_fastsum self = Some pl /\ ac_fastsum self' = Some pl' /\
                 same_nodes pl pl'.
Proof.
  intros Hinv Hwf Happly. pose proof Hinv as [Hcons Hstate].
  pose proof Hcons as (pl & Hpl & Hd).
  assert (operator_inv self /\ same_config self self /\ ac_n self = ac_n self /\
          exists pl pl', ac_fastsum self = Some pl /\ ac_fastsum self = Some pl' /\
                         same_nodes pl pl') as Hsame.
  { split; [exact Hinv|]. split; [apply same_config_refl|]. split; [reflexivity|].
    exists pl, pl. repeat split; auto. }
  pose proof Happly as Hrun. unfold AdjacencyCore_apply, check_fastsum in Hrun.
  rewrite Hpl in Hrun. cbn [negb] in Hrun.
  destruct (Z.eqb_spec (ac_n self) 0) as [Hn|Hn]; [now inversion Hrun; subst|].
  destruct args as [v oexact|]; [|now inversion Hrun; subst].
  destruct (PyArray_Converter v) as [a|] eqn:Hv; [|now inversion Hrun; subst].
  destruct (Z.eqb_spec (PyArray_NDIM a) 1) as [H1|H1];
    [|now inversion Hrun; subst].
  destruct (Z.eqb_spec (PyArray_DIM a 0) (ac_n self)) as [H2|H2];
    [|now inversion Hrun; subst].
  clear Hrun Hsame.
  assert (points_bound self) as Hb by (destruct Hstate as [[Hn0 _]|Hb]; [lia|exact Hb]).
  pose proof (dims_of_vector a (ac_n self) H1 H2) as Hdims.
  assert (array_wf a) as Hawf by (apply Hwf; exact Hv).
  assert (AdjacencyCore_apply self (ApplyArgs (PyArray a) oexact) = Some (self', r))
    as Happly'.
  { rewrite <- Happly. unfold AdjacencyCore_apply. simpl PyArray_Converter.
    now rewrite Hv. }
  destruct (apply_keeps_points self self' a oexact r Hb Hdims Hawf Happly')
    as (Hb' & Hcfg & Hn' & _).
  destruct (apply_loaded self a oexact Hb Hdims Hawf) as (pl0 & Hpl0 & Heq).
  assert (pl0 = pl) as -> by congruence.
  rewrite Heq in Happly'. cbv zeta in Happly'.
  set (plw := plan_with_weights pl (converted (items a))) in *.
  assert (same_nodes pl plw) as Hnw by (unfold same_nodes; repeat split; reflexivity).
  assert (exists pl', ac_fastsum self' = Some pl' /\ same_nodes pl pl') as (pl' & Hpl' & Hnodes).
  { destruct (conversion_error (items a)).
    - inversion Happly'; subst. exists plw. split; [reflexivity|exact Hnw].
    - destruct (default false oexact); [discriminate|].
      destruct (transform_keeps false plw) as (Htd & Htx & Hty & _).
      destruct (fs_f _) as [f|]; [|discriminate]. cbn [mbind option_bind] in Happly'.
      destruct (fs_alpha _) as [al|]; [|discriminate]. cbn [mbind option_bind] in Happly'.
      destruct (apply_output _ _ _ _ _ _) as [data|]; [|discriminate].
      cbn [mbind option_bind] in Happly'. inversion Happly'; subst.
      exists (transform false plw). split; [reflexivity|].
      unfold same_nodes in *. destruct Hnw as (Hwd & Hwx & Hwy).
      repeat split; congruence. }
  split; [|split; [exact Hcfg|split; [exact Hn'|exists pl, pl'; auto]]].
  split; [|now right].
  exists pl'. split; [exact Hpl'|].
  destruct Hnodes as (Hd' & _). destruct Hcfg as (_ & Hcd & _). congruence.
Qed.

Lemma operator_inv_set_diagonal (self : AdjacencyCoreObject) (v : float) :
  operator_inv self -> operator_inv (set_diagonal self v).
Proof. intros Hinv. exact Hinv. Qed.

(** ** Memory safety of the entry points *)


Lemma operator_inv_bound (self : AdjacencyCoreObject) :
  operator_inv self -> ac_n self <> 0 -> points_bound self.
Proof. intros [_ [[Hn _]|Hb]] Hn0; [contradiction|exact Hb]. Qed.


Lemma points_bound_dim_nonneg (self : AdjacencyCoreObject) :
  points_bound self -> 0 <= ac_d self.
Proof.
  intros (Hn & pl & x & y & alpha & f & _ & _ & _ & _ & _ & Hlx & _). nia.
Qed.

(** X5. On a well-formed operator the getter leaves the object as it is
    and returns [None] when [n = 0], else a fresh, well-formed [n] by [d]
    table that holds the plan's source coordinates. *)
Theorem getpoints_copy (self : AdjacencyCoreObject) :
  operator_inv self ->
  (ac_n self = 0 /\ AdjacencyCore_getpoints self = Some (self, Return PyNone)) \/
  (exists pl x,
     ac_fastsum self = Some pl /\ fs_x pl = Some x /\
     AdjacencyCore_getpoints self =
       Some (self, Return (PyArray (table (ac_n self) (ac_d self) x))) /\
     array_wf (table (ac_n self) (ac_d self) x) /\ 0 < ac_n self).
Proof.
  intros Hinv. destruct (Z.eq_dec (ac_n self) 0) as [Hn|Hn].
  - left. split; [exact Hn|]. apply getpoints_absent; [|exact Hn].
    apply check_fastsum_constructed. apply Hinv.
  - right. pose proof (operator_inv_bound self Hinv Hn) as Hb.
    pose proof (points_bound_dim_nonneg self Hb) as Hd.
    destruct Hb as (Hn0 & pl & x & y & alpha & f & Hpl & Hx & _ & _ & _ & Hlx & _).
    exists pl, x. split; [exact Hpl|]. split; [exact Hx|]. split.
    + apply (getpoints_bound self pl x Hpl Hx Hn0 Hd). lia.
    + split; [|exact Hn0]. split; simpl.
      * repeat (apply List.Forall_cons; [lia|]). apply List.Forall_nil.
      * rewrite length_fmap. lia.
Qed.

(** X3. On a well-formed operator the setter is defined for every
    argument whose table, if it has the operator's number of columns, has
    no rows or [k * d] elements an [int] can index: it returns or raises,
    and never stores outside the node arrays. *)
Theorem setpoints_defined `{L : FastsumLib} {C : FastsumContract L}
    (self : AdjacencyCoreObject) (arg : PyValue) :
  operator_inv self -> value_wf arg -> points_arg_fits (ac_d self) arg ->
  exists self' r, AdjacencyCore_setpoints self arg = Some (self', r).
Proof.
  intros Hinv Hwf Hfits. pose proof Hinv as [Hcons _].
  destruct (remove_points_inv self Hinv) as (self1 & Hrm & Hcons1 & Habs1 & Hcfg1).
  pose proof (check_fastsum_constructed self Hcons) as Hcheck.
  destruct arg as [| |a|];
    try (unfold AdjacencyCore_setpoints; rewrite Hcheck; cbn [negb];
         rewrite Hrm; cbn [mbind option_bind PyArray_Converter]; eauto; fail).
  specialize (Hwf a eq_refl). specialize (Hfits a eq_refl).
  destruct (Z.eq_dec (PyArray_NDIM a) 2) as [H2|H2];
    [destruct (Z.eq_dec (PyArray_DIM a 1) (ac_d self)) as [Hd|Hd]|].
  - destruct (Hfits H2 Hd) as [Hk0|Hk].
    + unfold AdjacencyCore_setpoints. rewrite Hcheck. cbn [negb].
      rewrite Hrm. cbn [mbind option_bind PyArray_Converter].
      rewrite H2, Hd, Hk0, !Z.eqb_refl. cbn [negb orb].
      change (CInt.wrap 0 >? 0) with false. cbv iota. eauto.
    + destruct (setpoints_table self a (PyArray_DIM a 0) Hcons
                  (dims_of_table a (ac_d self) H2 Hd) Hwf Hk)
        as (self1' & pl1 & Hrm' & Hpl1 & Hd1 & Hcfg & Heq).
      rewrite Heq. cbv zeta. destruct (conversion_error (items a)); [|eauto].
      set (pl3 := plan_with_points _ _ _ _ _).
      destruct (remove_points_absent (set_points_state self1' (Some pl3) (PyArray_DIM a 0)) pl3)
        as (self2 & Hrm2 & _); [reflexivity|simpl; destruct Hk; lia|].
      rewrite Hrm2. cbn [mbind option_bind]. eauto.
  - unfold AdjacencyCore_setpoints. rewrite Hcheck. cbn [negb].
    rewrite Hrm. cbn [mbind option_bind PyArray_Converter].
    destruct (Z.eqb_spec (PyArray_DIM a 1) (ac_d self)); [contradiction|].
    rewrite orb_true_r. eauto.
  - unfold AdjacencyCore_setpoints. rewrite Hcheck. cbn [negb].
    rewrite Hrm. cbn [mbind option_bind PyArray_Converter].
    destruct (Z.eqb_spec (PyArray_NDIM a) 2); [contradiction|].
    cbn [negb orb]. eauto.
Qed.

(** ** More on the [points] setter *)

(** X6. An argument that is neither absent nor convertible to a table
    with two dimensions and [d] columns makes the setter raise
    [TypeError]; the points bound before are released all the same: the
    operator is left with [n = 0] and the getter returns [None]. *)
Theorem setpoints_shape_error `{FastsumLib} (self : AdjacencyCoreObject)
    (arg : PyValue) :
  constructed self -> arg <> PyNULL -> arg <> PyNone ->
  (forall a, PyArray_Converter arg = Some a ->
             PyArray_NDIM a <> 2 \/ PyArray_DIM a 1 <> ac_d self) ->
  exists self',
    AdjacencyCore_setpoints self arg = Some (self', Raise TypeError) /\
    ac_n self' = 0 /\ same_config self self' /\
    AdjacencyCore_getpoints self' = Some (self', Return PyNone).
Proof.
  intros Hcons Hnull Hnone Hshape.
  pose proof (check_fastsum_constructed self Hcons) as Hcheck.
  destruct Hcons as (pl & Hpl & _).
  destruct (remove_points_spec self pl Hpl)
    as (self1 & pl1 & Hrm & Hpl1 & _ & Hn1 & Hcfg & _).
  exists self1.
  assert (AdjacencyCore_getpoints self1 = Some (self1, Return PyNone)) as Hget.
  { apply getpoints_absent; [|exact Hn1]. unfold check_fastsum. now rewrite Hpl1. }
  repeat split; try assumption; try apply Hcfg.
  unfold AdjacencyCore_setpoints. rewrite Hcheck. cbn [negb].
  rewrite Hrm. cbn [mbind option_bind].
  destruct arg as [| |a|]; try contradiction; [|reflexivity].
  cbn [PyArray_Converter].
  destruct (Hshape a eq_refl) as [H2|Hd].
  - destruct (Z.eqb_spec (PyArray_NDIM a) 2); [contradiction|reflexivity].
  - destruct (Z.eqb_spec (PyArray_DIM a 1) (ac_d self)); [contradiction|].
    now rewrite orb_true_r.
Qed.

(** X7. A table with [d] columns and no rows is accepted like an absent
    value: the setter returns [0], whatever its elements would be, and the
    operator is left with [n = 0]. *)
Theorem setpoints_empty_table `{FastsumLib} (self : AdjacencyCoreObject)
    (a : PyArrayObject) :
  constructed self -> dims a = [0; ac_d self] ->
  exists self',
    AdjacencyCore_setpoints self (PyArray a) = Some (self', Return 0) /\
    ac_n self' = 0 /\ same_config self self' /\
    AdjacencyCore_getpoints self' = Some (self', Return PyNone).
Proof.
  intros Hcons Hdims.
  pose proof (check_fastsum_constructed self Hcons) as Hcheck.
  destruct Hcons as (pl & Hpl & _).
  destruct (remove_points_spec self pl Hpl)
    as (self1 & pl1 & Hrm & Hpl1 & _ & Hn1 & Hcfg & _).
  exists self1.
  assert (AdjacencyCore_getpoints self1 = Some (self1, Return PyNone)) as Hget.
  { apply getpoints_absent; [|exact Hn1]. unfold check_fastsum. now rewrite Hpl1. }
  repeat split; try assumption; try apply Hcfg.
  unfold AdjacencyCore_setpoints. rewrite Hcheck. cbn [negb].
  rewrite Hrm. cbn [mbind option_bind PyArray_Converter].
  unfold PyArray_NDIM, PyArray_DIM. rewrite Hdims. cbn [length nth].
  change (Z.of_nat 2 =? 2) with true. rewrite Z.eqb_refl. reflexivity.
Qed.

(** X8. Setting a table of numbers and then another one, each with
    [0 < k <= INT_MAX] rows and [k * d <= INT_MAX] elements, leaves the
    operator with the second: [n] is its number of rows and the getter
    returns it.  (With the same table twice: setting is idempotent for
    what the getter shows.) *)
Theorem setpoints_replaces `{L : FastsumLib} {C : FastsumContract L}
    (self : AdjacencyCoreObject) (k1 k2 : Z) (vs1 vs2 : list float) :
  constructed self ->
  array_wf (table k1 (ac_d self) vs1) -> table_fits k1 (ac_d self) ->
  array_wf (table k2 (ac_d self) vs2) -> table_fits k2 (ac_d self) ->
  exists self1 self2,
    AdjacencyCore_setpoints self (PyArray (table k1 (ac_d self) vs1)) =
      Some (self1, Return 0) /\
    AdjacencyCore_setpoints self1 (PyArray (table k2 (ac_d self) vs2)) =
      Some (self2, Return 0) /\
    ac_n self2 = k2 /\
    AdjacencyCore_getpoints self2 =
      Some (self2, Return (PyArray (table k2 (ac_d self) vs2))).
Proof.
  intros Hcons Hwf1 Hfits1 Hwf2 Hfits2.
  destruct (setpoints_numbers self k1 vs1 Hcons Hwf1 Hfits1)
    as (self1 & pl1 & Hset1 & Hn1 & Hcfg1 & Hpl1 & Hd1 & _).
  assert (ac_d self1 = ac_d self) as Hcd1 by (destruct Hcfg1 as (_ & H & _); exact H).
  assert (constructed self1) as Hcons1 by (exists pl1; split; congruence).
  rewrite <- Hcd1 in Hwf2, Hfits2.
  destruct (setpoints_numbers self1 k2 vs2 Hcons1 Hwf2 Hfits2)
    as (self2 & pl2 & Hset2 & Hn2 & Hcfg2 & Hpl2 & _ & Hx2 & _).
  rewrite Hcd1 in Hset2, Hwf2.
  exists self1, self2. split; [exact Hset1|]. split; [exact Hset2|].
  split; [exact Hn2|].
  destruct (table_size (table k2 (ac_d self) vs2) k2 (ac_d self) eq_refl Hwf2)
    as [Hd Hlen].
  simpl in Hlen. rewrite length_fmap in Hlen.
  assert (ac_d self2 = ac_d self) as Hcd2
    by (destruct Hcfg2 as (_ & H & _); congruence).
  destruct Hfits2 as [Hk _].
  rewrite (getpoints_bound self2 pl2 vs2 Hpl2 Hx2); rewrite ?Hn2, ?Hcd2; try lia.
  reflexivity.
Qed.

(** ** Deallocation *)

(** X16. Deallocation is defined for every object, with or without a plan
    and with or without points: it releases the points if there is a plan,
    and hands [tp_free] an object whose plan pointer is [NULL]. *)
Theorem dealloc_releases (self : AdjacencyCoreObject) :
  exists self',
    AdjacencyCore_dealloc self = Some self' /\ ac_fastsum self' = None /\
    (ac_fastsum self <> None -> ac_n self' = 0).
Proof.
  unfold AdjacencyCore_dealloc.
  destruct (ac_fastsum self) as [pl|] eqn:Hpl.
  - destruct (remove_points_spec self pl Hpl)
      as (self1 & pl1 & Hrm & Hpl1 & _ & Hn1 & _).
    rewrite Hrm. cbn [mbind option_bind]. rewrite Hpl1. cbn [mbind option_bind].
    eexists. split; [reflexivity|]. split; [reflexivity|]. intros _. exact Hn1.
  - exists self. split; [reflexivity|]. split; [exact Hpl|]. intros H. contradiction.
Qed.

(** ** [apply] and the diagonal *)


(** ** The loops of [normalized_eigs] *)

(** A loop that fills [data[i]] from [f[i]]. *)
Lemma fill_loop (g : complex -> float) (n : Z) (f : list complex)
    (data0 : list float) :
  Z.of_nat (length f) = n -> Z.of_nat (length data0) = n ->
  for_lt n (fun i data => fi ← load f i; store data i (g fi)) data0 = Some (g <$> f).
Proof.
  intros Hf Hd.
  assert (length (g <$> f) = length data0) as Hlen by (rewrite length_fmap; lia).
  destruct (for_lt_invariant
              (fun i data => data = filled (g <$> f) data0 (Z.to_nat i))
              (fun i data => fi ← load f i; store data i (g fi))
              n data0) as (s' & Hrun & Hs').
  - lia.
  - reflexivity.
  - intros i data Hi ->. rewrite load_nonneg by lia.
    destruct (lookup_lt_is_Some_2 f (Z.to_nat i)) as [fi Hfi]; [lia|].
    rewrite Hfi. cbn [mbind option_bind].
    rewrite store_in_range by (rewrite length_filled; lia).
    eexists. split; [reflexivity|].
    replace (Z.to_nat (i + 1)) with (S (Z.to_nat i)) by lia.
    apply filled_step; [exact Hlen|]. now rewrite list_lookup_fmap, Hfi.
  - rewrite Hrun, Hs'. rewrite filled_all by lia. reflexivity.
Qed.

(** X11. The degree loop of [normalized_eigs] fills [d_invsqrt[i]] with
    [1.0 / sqrt (CREAL f[i] + diagonal - 1.0)] for every [i < n], and with
    [1.0 / sqrt (CREAL f[i] + diagonal)] when the kernel selector is 2. *)
Theorem eigs_degrees_spec (kernel : Z) (diagonal : float) (n : Z)
    (f : list complex) (d_invsqrt : list float) :
  Z.of_nat (length f) = n -> Z.of_nat (length d_invsqrt) = n ->
  eigs_degrees kernel diagonal n f d_invsqrt =
    Some (degree_scaling kernel diagonal <$> f).
Proof.
  intros Hf Hd. unfold eigs_degrees, degree_scaling.
  destruct (Z.eqb_spec kernel 1) as [->|H1]; [apply (fill_loop _ n f _ Hf Hd)|].
  destruct (Z.eqb_spec kernel 2) as [->|H2]; [apply (fill_loop _ n f _ Hf Hd)|].
  destruct (kernel =? 3); apply (fill_loop _ n f _ Hf Hd).
Qed.

Lemma eigs_degrees_spec_witness :
  eigs_degrees 1 0%float 2 [CMPLX 5 0; CMPLX 2 0]%float [0; 0]%float =
    Some (degree_scaling 1 0%float <$> [CMPLX 5 0; CMPLX 2 0]%float).
Proof. apply eigs_degrees_spec; reflexivity. Defined.

Lemma load_store_eq {A : Type} (buf buf' : list A) (i : Z) (v : A) :
  store buf i v = Some buf' -> load buf' i = Some v.
Proof.
  unfold store, load. destruct (Z.leb_spec 0 i) as [Hlo|]; [|discriminate].
  destruct (Z.ltb_spec i (Z.of_nat (length buf))) as [Hhi|]; [|discriminate].
  simpl. intros H. inversion H; subst. apply list_lookup_insert_eq. lia.
Qed.

Lemma load_store_ne {A : Type} (buf buf' : list A) (i k : Z) (v : A) :
  store buf i v = Some buf' -> k <> i -> load buf' k = load buf k.
Proof.
  unfold store, load. destruct (Z.leb_spec 0 i) as [Hlo|]; [|discriminate].
  destruct (Z.ltb_spec i (Z.of_nat (length buf))) as [Hhi|]; [|discriminate].
  simpl. intros H Hne. inversion H; subst.
  destruct (0 <=? k) eqn:Hk; [|reflexivity]. apply Z.leb_le in Hk.
  apply list_lookup_insert_ne. lia.
Qed.

Lemma load_in_range {A : Type} (buf : list A) (i : Z) :
  0 <= i < Z.of_nat (length buf) -> exists v, load buf i = Some v.
Proof.
  intros Hi. rewrite load_nonneg by lia. apply lookup_lt_is_Some_2. lia.
Qed.

(** The loop that writes the operator's result into [workd], for any
    correction [corr]: the block at [p1] receives the values computed from
    the block at [p0], the rest of [workd] stays. *)
Lemma matvec_loop (corr : float -> float) (n p0 p1 : Z)
    (d_invsqrt : list float) (f alpha : list complex) (workd : list float) :
  Z.of_nat (length d_invsqrt) = n -> Z.of_nat (length f) = n ->
  Z.of_nat (length alpha) = n ->
  0 <= p0 -> p0 + n <= Z.of_nat (length workd) ->
  0 <= p1 -> p1 + n <= Z.of_nat (length workd) ->
  p0 + n <= p1 \/ p1 + n <= p0 ->
  Z.of_nat (length workd) <= CInt.max_signed ->
  exists workd',
    for_lt n (fun i workd =>
                k0 ← CInt.add p0 i;
                wi ← load workd k0;
                di ← load d_invsqrt i;
                fi ← load f i;
                ai ← load alpha i;
                k1 ← CInt.add p1 i;
                store workd k1 (wi + di * (CREAL fi + corr (CREAL ai)))%float)
           workd = Some workd' /\
    length workd' = length workd /\
    (forall i, 0 <= i < n ->
       exists wi di fi ai,
         load workd (p0 + i) = Some wi /\ load d_invsqrt i = Some di /\
         load f i = Some fi /\ load alpha i = Some ai /\
         load workd' (p1 + i) =
           Some (wi + di * (CREAL fi + corr (CREAL ai)))%float) /\
    (forall k, ~ (p1 <= k < p1 + n) -> load workd' k = load workd k).
Proof.
  intros Hd Hf Ha Hp0 Hp0n Hp1 Hp1n Hdisj Hmax.
  set (body := fun (i : Z) (workd : list float) =>
                 k0 ← CInt.add p0 i;
                 wi ← load workd k0;
                 di ← load d_invsqrt i;
                 fi ← load f i;
                 ai ← load alpha i;
                 k1 ← CInt.add p1 i;
                 store workd k1 (wi + di * (CREAL fi + corr (CREAL ai)))%float).
  set (P := fun (i : Z) (w : list float) =>
              length w = length workd /\
              (forall j, 0 <= j < i ->
                 exists wi di fi ai,
                   load workd (p0 + j) = Some wi /\ load d_invsqrt j = Some di /\
                   load f j = Some fi /\ load alpha j = Some ai /\
                   load w (p1 + j) =
                     Some (wi + di * (CREAL fi + corr (CREAL ai)))%float) /\
              (forall k, ~ (p1 <= k < p1 + i) -> load w k = load workd k)).
  assert (0 <= n) as Hn by lia.
  destruct (for_lt_invariant P body n workd Hn) as (w' & Hrun & Hlen & Hvals & Hrest).
  - unfold P. split; [reflexivity|]. split; [intros j Hj; lia|auto].
  - intros i w Hi (Hlen & Hvals & Hrest). unfold body.
    rewrite !add_in_range
      by (unfold CInt.in_range, CInt.min_signed, CInt.max_signed in *; lia).
    cbn [mbind option_bind].
    destruct (load_in_range workd (p0 + i)) as [wi Hwi]; [lia|].
    destruct (load_in_range d_invsqrt i) as [di Hdi]; [lia|].
    destruct (load_in_range f i) as [fi Hfi]; [lia|].
    destruct (load_in_range alpha i) as [ai Hai]; [lia|].
    rewrite (Hrest (p0 + i)) by lia.
    rewrite Hwi, Hdi, Hfi, Hai. cbn [mbind option_bind].
    destruct (store w (p1 + i) _) as [w1|] eqn:Hst;
      [|rewrite store_in_range in Hst by lia; discriminate].
    exists w1. split; [reflexivity|]. unfold P. split; [|split].
    + rewrite (store_Some_length _ _ _ _ Hst). exact Hlen.
    + intros j Hj. destruct (Z.eq_dec j i) as [->|Hne].
      * exists wi, di, fi, ai. repeat split; try assumption.
        eapply load_store_eq. exact Hst.
      * destruct (Hvals j) as (wj & dj & fj & aj & H1 & H2 & H3 & H4 & H5); [lia|].
        exists wj, dj, fj, aj. repeat split; try assumption.
        rewrite (load_store_ne _ _ _ (p1 + j) _ Hst) by lia. exact H5.
    + intros k Hk. rewrite (load_store_ne _ _ _ k _ Hst) by lia. apply Hrest. lia.
  - exists w'. auto.
Qed.

(** X12. One operator application of the ARPACK loop: with the input
    block at [ipntr[0]] and the output block at [ipntr[1]] inside [workd]
    and apart from each other, the loop writes
    [workd[ipntr[0] + i] + d_invsqrt[i] * (CREAL f[i] + correction (alpha[i]))]
    to [workd[ipntr[1] + i]] for every [i < n] and changes nothing else in
    [workd]. *)
Theorem eigs_matvec_output_spec (kernel : Z) (diagonal : float) (n p0 p1 : Z)
    (d_invsqrt : list float) (f alpha : list complex) (workd : list float) :
  Z.of_nat (length d_invsqrt) = n -> Z.of_nat (length f) = n ->
  Z.of_nat (length alpha) = n ->
  0 <= p0 -> p0 + n <= Z.of_nat (length workd) ->
  0 <= p1 -> p1 + n <= Z.of_nat (length workd) ->
  p0 + n <= p1 \/ p1 + n <= p0 ->
  Z.of_nat (length workd) <= CInt.max_signed ->
  exists workd',
    eigs_matvec_output kernel diagonal n p0 p1 d_invsqrt f alpha workd = Some workd' /\
    length workd' = length workd /\
    (forall i, 0 <= i < n ->
       exists wi di fi ai,
         load workd (p0 + i) = Some wi /\ load d_invsqrt i = Some di /\
         load f i = Some fi /\ load alpha i = Some ai /\
         load workd' (p1 + i) =
           Some (wi + di * (CREAL fi +
                            diagonalCorrection (kernel_of_selector kernel) diagonal
                              (CREAL ai)))%float) /\
    (forall k, ~ (p1 <= k < p1 + n) -> load workd' k = load workd k).
Proof.
  intros Hd Hf Ha Hp0 Hp0n Hp1 Hp1n Hdisj Hmax.
  unfold eigs_matvec_output, kernel_of_selector.
  destruct (Z.eqb_spec kernel 1) as [->|H1];
    [|destruct (Z.eqb_spec kernel 2) as [->|H2]; [|destruct (kernel =? 3)]];
    apply (matvec_loop _ n p0 p1 d_invsqrt f alpha workd); assumption.
Qed.

Lemma eigs_matvec_output_spec_witness :
  exists workd',
    eigs_matvec_output 2 3%float 2 0 2 [0.5; 0.25]%float
      [CMPLX 4 0; CMPLX 8 0]%float [CMPLX 1 0; CMPLX 2 0]%float
      [10; 20; 0; 0; 7; 7]%float = Some workd' /\
    length workd' = 6%nat /\
    (forall i, 0 <= i < 2 ->
       exists wi di fi ai,
         load [10; 20; 0; 0; 7; 7]%float (0 + i) = Some wi /\
         load [0.5; 0.25]%float i = Some di /\
         load [CMPLX 4 0; CMPLX 8 0]%float i = Some fi /\
         load [CMPLX 1 0; CMPLX 2 0]%float i = Some ai /\
         load workd' (2 + i) =
           Some (wi + di * (CREAL fi +
                            diagonalCorrection (kernel_of_selector 2) 3 (CREAL ai)))%float) /\
    (forall k, ~ (2 <= k < 2 + 2) ->
       load workd' k = load [10; 20; 0; 0; 7; 7]%float k).
Proof.
  apply (eigs_matvec_output_spec 2 3%float 2 0 2); simpl;
    unfold CInt.max_signed; lia.
Defined.

(** ** What [normalized_eigs] leaves behind *)

Lemma same_storage_refl (pl : fastsum_plan) : same_storage pl pl.
Proof. unfold same_storage, same_nodes. repeat split; reflexivity. Qed.

Lemma same_storage_trans (pl1 pl2 pl3 : fastsum_plan) :
  same_storage pl1 pl2 -> same_storage pl2 pl3 -> same_storage pl1 pl3.
Proof.
  unfold same_storage, same_nodes.
  intros ((H1 & H2 & H3) & H4 & H5) ((G1 & G2 & G3) & G4 & G5).
  repeat split; congruence.
Qed.

Lemma same_storage_keeps `{L : FastsumLib} (op : fastsum_plan -> fastsum_plan)
    (pl : fastsum_plan) :
  keeps_nodes op -> same_storage pl (op pl).
Proof.
  intros Hop. destruct (Hop pl) as (Hd & Hx & Hy & Ha & Hf).
  unfold same_storage, same_nodes. repeat split; congruence.
Qed.

(** Overwriting the weights in place keeps the storage. *)
Lemma same_storage_weights (pl : fastsum_plan) (alpha alpha' : list complex) :
  fs_alpha pl = Some alpha -> length alpha' = length alpha ->
  same_storage pl (plan_set_buffers pl (fs_x pl) (fs_y pl) (Some alpha') (fs_f pl)).
Proof.
  intros Ha Hlen. unfold same_storage, same_nodes. simpl.
  repeat split. rewrite Ha. simpl. congruence.
Qed.

(** The ARPACK loop keeps the plan's nodes and the size of its storage. *)
Lemma eigs_loop_storage `{L : FastsumLib} {C : FastsumContract L} `{ArpackLib}
    (fuel : nat) (kernel : Z) (diagonal : float) (n nev : Z) (tol : float)
    (ncv lworkl : Z) (d_invsqrt : list float) (pl pl' : fastsum_plan)
    (ws ws' : arpack_ws) :
  eigs_loop fuel kernel diagonal n nev tol ncv lworkl d_invsqrt pl ws = Some (pl', ws') ->
  same_storage pl pl'.
Proof.
  revert pl ws. induction fuel as [|fuel IH]; intros pl ws Hrun; [discriminate|].
  simpl in Hrun.
  set (ws1 := dsaupd_c n nev tol ncv lworkl ws) in *.
  destruct ((ws_ido ws1 =? 1) || (ws_ido ws1 =? -1));
    [|inversion Hrun; subst; apply same_storage_refl].
  apply bind_Some in Hrun as (p0 & _ & Hrun).
  apply bind_Some in Hrun as (p1 & _ & Hrun).
  apply bind_Some in Hrun as (alpha & Ha & Hrun).
  apply bind_Some in Hrun as (alpha' & Hload & Hrun).
  apply bind_Some in Hrun as (f & _ & Hrun).
  apply bind_Some in Hrun as (alpha2 & _ & Hrun).
  apply bind_Some in Hrun as (workd & _ & Hrun).
  apply IH in Hrun.
  assert (length alpha' = length alpha) as Hlen.
  { apply (for_lt_preserves (fun a => length a = length alpha) _ n alpha alpha')
      in Hload; [exact Hload| |reflexivity].
    intros i s s' Hs Hbody. bind_inv Hbody.
    apply store_Some_length in Hbody. congruence. }
  eapply same_storage_trans; [|exact Hrun].
  eapply same_storage_trans; [apply (same_storage_weights pl alpha alpha' Ha Hlen)|].
  apply same_storage_keeps. apply trafo_keeps.
Qed.

Lemma for_lt_store_length {A : Type} (n : Z) (body : Z -> list A -> option (list A))
    (data data' : list A) :
  (forall i s s', body i s = Some s' -> length s' = length s) ->
  for_lt n body data = Some data' -> length data' = length data.
Proof.
  intros Hbody Hrun.
  apply (for_lt_preserves (fun s => length s = length data) body n data data');
    [|reflexivity|exact Hrun].
  intros i s s' Hs Hb. rewrite (Hbody i s s' Hb). exact Hs.
Qed.

(** Everything [eigs_run] can return. *)
Lemma eigs_run_inv `{L : FastsumLib} {C : FastsumContract L} `{ArpackLib}
    (fuel : nat) (self self' : AdjacencyCoreObject) (nev : Z) (tol : float)
    (maxiter ncv : Z) (rvecs : bool) (r : result PyEigsValue) :
  eigs_run fuel self nev tol maxiter ncv rvecs = Some (self', r) ->
  exists pl pl',
    ac_fastsum self = Some pl /\
    self' = set_points_state self (Some pl') (ac_n self) /\
    same_storage pl pl' /\
    (r = Raise RuntimeError \/
     (rvecs = false /\ exists w,
        r = Return (Eigenvalues w) /\ dims w = [nev] /\ array_wf w) \/
     (rvecs = true /\ exists w v,
        r = Return (Eigenpairs w v) /\ dims w = [nev] /\ array_wf w /\
        dims v = [ac_n self; nev] /\ array_wf v)).
Proof.
  unfold eigs_run. intros Hrun.
  apply bind_Some in Hrun as (pl & Hpl & Hrun).
  apply bind_Some in Hrun as (alpha & Ha & Hrun).
  apply bind_Some in Hrun as (alpha' & Hones & Hrun).
  apply bind_Some in Hrun as (f & _ & Hrun).
  apply bind_Some in Hrun as (d_invsqrt & _ & Hrun).
  apply bind_Some in Hrun as (lworkl & _ & Hrun).
  apply bind_Some in Hrun as (v_len & _ & Hrun).
  apply bind_Some in Hrun as (workd_len & _ & Hrun).
  apply bind_Some in Hrun as ([pl' ws] & Hloop & Hrun).
  apply eigs_loop_storage in Hloop.
  assert (length alpha' = length alpha) as Hlen.
  { refine (for_lt_store_length _ _ _ _ _ Hones).
    intros i s s' Hb. exact (store_Some_length _ _ _ _ Hb). }
  assert (same_storage pl pl') as Hst.
  { eapply same_storage_trans; [|exact Hloop].
    eapply same_storage_trans; [apply (same_storage_weights pl alpha alpha' Ha Hlen)|].
    apply same_storage_keeps. apply trafo_keeps. }
  exists pl, pl'. split; [exact Hpl|].
  destruct (ws_info ws <? 0); [inversion Hrun; subst; auto|].
  destruct (dseupd_c _ _ _ _ _ _ _ _ _) as [d ws2].
  destruct (ws_info ws2 <? 0); [inversion Hrun; subst; auto|].
  destruct (Z.ltb_spec nev 0) as [|Hnev]; [discriminate|].
  destruct (Z.ltb_spec (ac_n self) 0) as [|Hn]; [discriminate|].
  cbn [orb] in Hrun.
  apply bind_Some in Hrun as (data & Hdata & Hrun).
  assert (length data = Z.to_nat nev) as Hld.
  { rewrite <- (length_malloc_R nev).
    refine (for_lt_store_length _ _ _ _ _ Hdata).
    intros i s s' Hb. bind_inv Hb. exact (store_Some_length _ _ _ _ Hb). }
  assert (array_wf {| dims := [nev]; items := PyNumber <$> data |}) as Hwfw.
  { split; simpl; [|rewrite length_fmap; lia].
    apply List.Forall_cons; [lia|apply List.Forall_nil]. }
  destruct rvecs.
  - apply bind_Some in Hrun as (vdata & Hvdata & Hrun).
    inversion Hrun; subst. split; [reflexivity|]. split; [exact Hst|].
    right. right. split; [reflexivity|]. eexists. eexists.
    split; [reflexivity|]. split; [reflexivity|]. split; [exact Hwfw|].
    split; [reflexivity|].
    assert (length vdata = Z.to_nat (ac_n self * nev)) as Hlv.
    { rewrite <- (length_malloc_R (ac_n self * nev)).
      refine (for_lt_store_length _ _ _ _ _ Hvdata).
      intros i s s' Hb. refine (for_lt_store_length _ _ _ _ _ Hb).
      intros j t t' Hb'. bind_inv Hb'. exact (store_Some_length _ _ _ _ Hb'). }
    split; simpl; [|rewrite length_fmap; nia].
    repeat (apply List.Forall_cons; [lia|]). apply List.Forall_nil.
  - inversion Hrun; subst. split; [reflexivity|]. split; [exact Hst|].
    right. left. split; [reflexivity|]. eexists.
    split; [reflexivity|]. split; [reflexivity|exact Hwfw].
Qed.

Lemma points_bound_same_storage (self : AdjacencyCoreObject) (pl pl' : fastsum_plan) :
  points_bound self -> ac_fastsum self = Some pl -> same_storage pl pl' ->
  points_bound (set_points_state self (Some pl') (ac_n self)).
Proof.
  intros (Hn & pl0 & x & y & alpha & f & Hpl0 & Hx & Hy & Ha & Hf & Hlx & Hly & Hla & Hlf)
         Hpl ((Hd & Hsx & Hsy) & Hsa & Hsf).
  assert (pl0 = pl) as -> by congruence.
  rewrite Ha in Hsa. rewrite Hf in Hsf. simpl in Hsa, Hsf.
  destruct (fs_alpha pl') as [alpha'|] eqn:Ha'; [|discriminate].
  destruct (fs_f pl') as [f'|] eqn:Hf'; [|discriminate].
  simpl in Hsa, Hsf. inversion Hsa. inversion Hsf.
  split; [exact Hn|]. exists pl', x, y, alpha', f'. simpl.
  repeat split; try congruence; lia.
Qed.

(** Whenever [normalized_eigs] returns, the operator is well formed and
    holds the same nodes. *)
Lemma eigs_inv `{L : FastsumLib} {C : FastsumContract L} `{ArpackLib}
    (fuel : nat) (self self' : AdjacencyCoreObject) (args : PyEigsArgs)
    (r : result PyEigsValue) :
  operator_inv self ->
  AdjacencyCore_normalized_eigs fuel self args = Some (self', r) ->
  operator_inv self' /\ same_config self self' /\ ac_n self' = ac_n self /\
  exists pl pl', ac_fastsum self = Some pl /\ ac_fastsum self' = Some pl' /\
                 same_nodes pl pl'.
Proof.
  intros Hinv Hrun. pose proof Hinv as [Hcons Hstate].
  pose proof Hcons as (pl & Hpl & Hd).
  assert (operator_inv self /\ same_config self self /\ ac_n self = ac_n self /\
          exists pl pl', ac_fastsum self = Some pl /\ ac_fastsum self = Some pl' /\
                         same_nodes pl pl') as Hsame.
  { split; [exact Hinv|]. split; [apply same_config_refl|]. split; [reflexivity|].
    exists pl, pl. repeat split; auto. }
  unfold AdjacencyCore_normalized_eigs, check_fastsum in Hrun.
  rewrite Hpl in Hrun. cbn [negb] in Hrun.
  destruct (Z.eqb_spec (ac_n self) 0) as [Hn|Hn]; [now inversion Hrun; subst|].
  destruct args as [nev otol omaxiter oncv orvecs|]; [|now inversion Hrun; subst].
  destruct (negb _); [now inversion Hrun; subst|].
  apply bind_Some in Hrun as (ncv & _ & Hrun).
  apply eigs_run_inv in Hrun as (pl0 & pl' & Hpl0 & -> & Hst & _).
  assert (pl0 = pl) as -> by congruence.
  pose proof (operator_inv_bound self Hinv Hn) as Hb.
  split; [|split; [apply same_config_set_points_state|split; [reflexivity|]]].
  - split.
    + exists pl'. split; [reflexivity|]. destruct Hst as ((Hd' & _) & _).
      simpl. congruence.
    + right. now apply (points_bound_same_storage self pl pl').
  - exists pl, pl'. split; [exact Hpl|]. split; [reflexivity|]. apply Hst.
Qed.

(** X14. Whatever [normalized_eigs] returns for a well-typed argument
    tuple is complete: a [RuntimeError] or [TypeError], or [nev]
    eigenvalues, with an [n] by [nev] eigenvector table unless
    [return_eigenvectors] is false; both arrays are well formed. *)
Theorem eigs_result_shape `{L : FastsumLib} {C : FastsumContract L} `{ArpackLib}
    (fuel : nat) (self self' : AdjacencyCoreObject) (nev : Z)
    (otol : option float) (omaxiter oncv : option Z) (orvecs : option bool)
    (r : result PyEigsValue) :
  AdjacencyCore_normalized_eigs fuel self (EigsArgs nev otol omaxiter oncv orvecs) =
    Some (self', r) ->
  r = Raise RuntimeError \/ r = Raise TypeError \/
  (orvecs = Some false /\ exists w,
     r = Return (Eigenvalues w) /\ dims w = [nev] /\ array_wf w) \/
  (orvecs <> Some false /\ exists w v,
     r = Return (Eigenpairs w v) /\ dims w = [nev] /\ array_wf w /\
     dims v = [ac_n self; nev] /\ array_wf v).
Proof.
  unfold AdjacencyCore_normalized_eigs. intros Hrun.
  destruct (negb (check_fastsum self)); [inversion Hrun; auto|].
  destruct (ac_n self =? 0); [inversion Hrun; auto|].
  destruct (negb _); [inversion Hrun; auto|].
  apply bind_Some in Hrun as (ncv & _ & Hrun).
  apply eigs_run_inv in Hrun as (pl & pl' & _ & _ & _ & [Hr|[[Hv Hr]|[Hv Hr]]]).
  - auto.
  - right. right. left. split; [|exact Hr].
    destruct orvecs as [[|]|]; simpl in Hv; congruence.
  - right. right. right. split; [|exact Hr].
    destruct orvecs as [[|]|]; simpl in Hv; congruence.
Qed.

(** X15. A positive [ncv] is passed to the solver as given, without a
    check against [nev] or [n]; [maxiter] is [300] when unset or not
    positive and as given otherwise. *)
Theorem eigs_explicit_parameters `{FastsumLib} `{ArpackLib} (fuel : nat)
    (self : AdjacencyCoreObject) (nev ncv : Z) (otol : option float)
    (omaxiter : option Z) (orvecs : option bool) :
  check_fastsum self = true -> ac_n self <> 0 ->
  int_args ([nev; ncv] ++ option_list omaxiter) -> 0 < ncv ->
  AdjacencyCore_normalized_eigs fuel self (EigsArgs nev otol omaxiter (Some ncv) orvecs) =
    eigs_run fuel self nev (default 0%float otol)
             (if default 0 omaxiter <=? 0 then 300 else default 0 omaxiter)
             ncv (default true orvecs).
Proof.
  intros Hcheck Hn Hints Hncv.
  unfold AdjacencyCore_normalized_eigs. rewrite Hcheck. cbn [negb].
  destruct (Z.eqb_spec (ac_n self) 0) as [|_]; [contradiction|].
  simpl in Hints. rewrite !int_args_cons in Hints. destruct Hints as (Hnev & Hncvr & Hmi).
  assert (CInt.in_rangeb nev && from_option CInt.in_rangeb true omaxiter &&
          from_option CInt.in_rangeb true (Some ncv) = true) as ->.
  { rewrite !andb_true_iff. repeat split; try (now apply in_rangeb_spec).
    destruct omaxiter as [mi|]; [|reflexivity]. simpl in *.
    apply in_rangeb_spec. apply int_args_cons in Hmi. tauto. }
  cbn [negb]. unfold eigs_ncv. simpl default.
  destruct (Z.leb_spec ncv 0); [lia|]. reflexivity.
Qed.

(** ** The operator as a state machine *)

(** X2. Every operator a program can hold (constructed, then taken through
    any calls of the setter, [apply], [normalized_eigs] and writes of
    [diagonal] that returned) is well formed: it has its plan, with the
    operator's dimension, and either [n = 0] and no node storage, or
    [n > 0] and node storage of [n * d] coordinates and [n] weights and
    sums. *)
Theorem reachable_operator_inv `{L : FastsumLib} {C : FastsumContract L}
    `{ArpackLib} (self : AdjacencyCoreObject) :
  reachable self -> operator_inv self.
Proof.
  induction 1 as [args self Hc|self self' arg r _ IH Hwf Hset
                  |self self' args r _ IH Hwf Happly
                  |fuel self self' args r _ IH Heigs|self v _ IH].
  - now apply (operator_inv_construct args).
  - now apply (setpoints_inv self self' arg r IH Hwf Hset).
  - now apply (apply_inv self self' args r IH Hwf Happly).
  - now apply (eigs_inv fuel self self' args r IH Heigs).
  - now apply operator_inv_set_diagonal.
Qed.

(** The getter shows the same on two objects with the same [n], [d] and
    source coordinates. *)
Lemma getpoints_same_nodes (self self' : AdjacencyCoreObject)
    (pl pl' : fastsum_plan) :
  ac_fastsum self = Some pl -> ac_fastsum self' = Some pl' ->
  ac_n self' = ac_n self -> ac_d self' = ac_d self -> fs_x pl' = fs_x pl ->
  AdjacencyCore_getpoints self' =
    (fun p => (self', p.2)) <$> AdjacencyCore_getpoints self.
Proof.
  intros Hpl Hpl' Hn Hd Hx. unfold AdjacencyCore_getpoints, check_fastsum.
  rewrite Hpl, Hpl', Hn, Hd. cbn [negb].
  destruct (ac_n self =? 0); [reflexivity|].
  destruct ((ac_n self <? 0) || (ac_d self <? 0)); [reflexivity|].
  cbn [mbind option_bind]. rewrite Hx.
  destruct (fs_x pl) as [x|]; [|reflexivity].
  cbn [mbind option_bind]. destruct (_ <? _); reflexivity.
Qed.

(** X13. Whenever [normalized_eigs] returns, with a result or an error, the
    operator has the same [n], the same configuration and [diagonal] and
    the same node coordinates as before, and is well formed. *)
Theorem eigs_keeps_operator `{L : FastsumLib} {C : FastsumContract L} `{ArpackLib}
    (fuel : nat) (self self' : AdjacencyCoreObject) (args : PyEigsArgs)
    (r : result PyEigsValue) :
  operator_inv self ->
  AdjacencyCore_normalized_eigs fuel self args = Some (self', r) ->
  operator_inv self' /\ same_config self self' /\ ac_n self' = ac_n self /\
  AdjacencyCore_getpoints self' =
    (fun p => (self', p.2)) <$> AdjacencyCore_getpoints self.
Proof.
  intros Hinv Hrun.
  destruct (eigs_inv fuel self self' args r Hinv Hrun)
    as (Hinv' & Hcfg & Hn & pl & pl' & Hpl & Hpl' & _ & Hx & _).
  split; [exact Hinv'|]. split; [exact Hcfg|]. split; [exact Hn|].
  destruct Hcfg as (_ & Hcd & _).
  now apply (getpoints_same_nodes self self' pl pl').
Qed.

(** X10. [apply] does not disturb the points: whenever it returns, with a
    result or an error, the operator has the same [n], configuration and
    node coordinates, and the getter returns what it returned before. *)
Theorem apply_keeps_operator `{L : FastsumLib} {C : FastsumContract L}
    (self self' : AdjacencyCoreObject) (args : PyApplyArgs) (r : result PyValue) :
  operator_inv self -> apply_args_wf args ->
  AdjacencyCore_apply self args = Some (self', r) ->
  operator_inv self' /\ same_config self self' /\ ac_n self' = ac_n self /\
  AdjacencyCore_getpoints self' =
    (fun p => (self', p.2)) <$> AdjacencyCore_getpoints self.
Proof.
  intros Hinv Hwf Hrun.
  destruct (apply_inv self self' args r Hinv Hwf Hrun)
    as (Hinv' & Hcfg & Hn & pl & pl' & Hpl & Hpl' & _ & Hx & _).
  split; [exact Hinv'|]. split; [exact Hcfg|]. split; [exact Hn|].
  destruct Hcfg as (_ & Hcd & _).
  now apply (getpoints_same_nodes self self' pl pl').
Qed.

(** ** Examples for the further properties *)

Lemma example_bound_inv : operator_inv example_bound.
Proof.
  split; [exact example_bound_constructed|right; exact example_bound_points_bound].
Qed.

Lemma example_operator_inv : operator_inv example_operator.
Proof. apply (operator_inv_construct example_args). reflexivity. Qed.

Lemma value_wf_intro (a : PyArrayObject) : array_wf a -> value_wf (PyArray a).
Proof. intros Hwf a' Ha. simpl in Ha. now inversion Ha; subst. Qed.

Lemma constructor_binds_kernel_witness :
  exists self pl,
    construct (InitTuple 7 1 1 128 4 4 0.125 None) = Some (self, Return 0) /\
    ac_fastsum self = Some pl /\ fs_k pl = gaussian /\
    fs_kernel_param pl = 1%float /\ ac_diagonal self = 0%float.
Proof.
  assert (exists self, construct (InitTuple 7 1 1 128 4 4 0.125 None)
                       = Some (self, Return 0)) as [self Hc]
    by (eexists; vm_compute; reflexivity).
  destruct (constructor_binds_kernel 7 1 1%float 128 4 4 0.125%float None self Hc)
    as (pl & Hpl & Hk & Hs & _ & _ & _ & _ & _ & _ & Hdiag & _).
  exists self, pl. repeat split; assumption.
Defined.

Lemma init_overflow_stores_prefix_witness :
  exists self',
    AdjacencyCore_init example_bound (InitTuple 2 1 2 (2 ^ 31) 4 4 0.125 None) =
      Some (self', Raise OverflowError) /\
    ac_kernel self' = 2 /\ ac_sigma self' = 2%float /\
    ac_N self' = ac_N example_bound /\ ac_n self' = ac_n example_bound /\
    ac_fastsum self' = ac_fastsum example_bound.
Proof.
  assert (forall l, Forall (fun z => -2 ^ 31 <= z <= 2 ^ 31 - 1) l -> int_args l)
    as Hin by (intros l Hl; exact Hl).
  assert (~ CInt.in_range (2 ^ 31)) as Hbig
    by (unfold CInt.in_range, CInt.max_signed; lia).
  destruct (init_overflow_stores_prefix example_bound 2 1 2%float (2 ^ 31) 4 4
              0.125%float None)
    as (self' & Hinit & _ & _ & Hn & Hpl & Hk & _ & Hd & _ & _ & HN & _).
  - cbn [app]. rewrite !int_args_cons. tauto.
  - exists self'. split; [exact Hinit|].
    split; [apply Hk, Hin; repeat (apply List.Forall_cons; [lia|]); apply List.Forall_nil|].
    split; [apply Hd, Hin; repeat (apply List.Forall_cons; [lia|]); apply List.Forall_nil|].
    split; [apply HN; rewrite !int_args_cons; tauto|].
    split; [exact Hn|exact Hpl].
Defined.

Lemma reachable_operator_inv_witness :
  reachable (H := ones_fastsum) (H0 := idle_arpack) example_bound /\
  operator_inv example_bound.
Proof.
  assert (reachable (H := ones_fastsum) (H0 := idle_arpack) example_bound) as Hreach.
  { apply (reach_setpoints (H := ones_fastsum) (H0 := idle_arpack) example_operator
             example_bound (PyArray (table 5 1 example_points)) (Return 0)).
    - apply (reach_construct example_args). reflexivity.
    - apply value_wf_intro. apply array_wf_intro; reflexivity.
    - reflexivity. }
  split; [exact Hreach|].
  apply (reachable_operator_inv (C := ones_fastsum_contract) (H := idle_arpack)
           example_bound Hreach).
Defined.

Lemma setpoints_defined_witness :
  exists self' r,
    AdjacencyCore_setpoints (H := ones_fastsum) example_bound
      (PyArray {| dims := [2; 1]; items := [PyNumber 0; PyNonNumber] |}) =
      Some (self', r).
Proof.
  apply (setpoints_defined (C := ones_fastsum_contract) example_bound).
  - exact example_bound_inv.
  - apply value_wf_intro. apply array_wf_intro; reflexivity.
  - intros a Ha _ _. simpl in Ha. inversion Ha; subst. right.
    unfold table_fits, PyArray_DIM, CInt.max_signed. simpl. lia.
Defined.


Lemma getpoints_copy_witness :
  (ac_n example_bound = 0 /\
   AdjacencyCore_getpoints example_bound = Some (example_bound, Return PyNone)) \/
  (exists pl x,
     ac_fastsum example_bound = Some pl /\ fs_x pl = Some x /\
     AdjacencyCore_getpoints example_bound =
       Some (example_bound,
             Return (PyArray (table (ac_n example_bound) (ac_d example_bound) x))) /\
     array_wf (table (ac_n example_bound) (ac_d example_bound) x) /\
     0 < ac_n example_bound).
Proof. apply (getpoints_copy example_bound). exact example_bound_inv. Defined.

Lemma setpoints_shape_error_witness :
  exists self',
    AdjacencyCore_setpoints (H := ones_fastsum) example_bound
      (PyArray (table 2 3 [1; 2; 3; 4; 5; 6]%float)) = Some (self', Raise TypeError) /\
    ac_n self' = 0 /\ same_config example_bound self' /\
    AdjacencyCore_getpoints self' = Some (self', Return PyNone).
Proof.
  apply (setpoints_shape_error (H := ones_fastsum) example_bound).
  - exact example_bound_constructed.
  - discriminate.
  - discriminate.
  - intros a Ha. simpl in Ha. inversion Ha; subst. right. vm_compute. discriminate.
Defined.

Lemma setpoints_empty_table_witness :
  exists self',
    AdjacencyCore_setpoints (H := ones_fastsum) example_bound
      (PyArray (table 0 1 [])) = Some (self', Return 0) /\
    ac_n self' = 0 /\ same_config example_bound self' /\
    AdjacencyCore_getpoints self' = Some (self', Return PyNone).
Proof.
  apply (setpoints_empty_table (H := ones_fastsum) example_bound).
  - exact example_bound_constructed.
  - reflexivity.
Defined.

Lemma setpoints_replaces_witness :
  exists self1 self2,
    AdjacencyCore_setpoints (H := ones_fastsum) example_operator
      (PyArray (table 5 1 example_points)) = Some (self1, Return 0) /\
    AdjacencyCore_setpoints (H := ones_fastsum) self1
      (PyArray (table 2 1 [3; 4]%float)) = Some (self2, Return 0) /\
    ac_n self2 = 2 /\
    AdjacencyCore_getpoints self2 =
      Some (self2, Return (PyArray (table 2 1 [3; 4]%float))).
Proof.
  apply (setpoints_replaces (C := ones_fastsum_contract) example_operator
           5 2 example_points [3; 4]%float).
  - exact example_operator_constructed.
  - apply array_wf_intro; reflexivity.
  - unfold table_fits, CInt.max_signed. simpl. lia.
  - apply array_wf_intro; reflexivity.
  - unfold table_fits, CInt.max_signed. simpl. lia.
Defined.

Lemma dealloc_releases_witness :
  exists self',
    AdjacencyCore_dealloc example_bound = Some self' /\ ac_fastsum self' = None /\
    ac_n self' = 0.
Proof.
  destruct (dealloc_releases example_bound) as (self' & Hd & Hpl & Hn).
  exists self'. split; [exact Hd|]. split; [exact Hpl|]. apply Hn. discriminate.
Defined.


Lemma apply_keeps_operator_witness :
  exists self' r,
    AdjacencyCore_apply (H := ones_fastsum) example_bound
      (ApplyArgs (PyArray (vector [1; 2; 3; 4; 5]%float)) None) = Some (self', r) /\
    operator_inv self' /\ same_config example_bound self' /\
    ac_n self' = ac_n example_bound /\
    AdjacencyCore_getpoints self' =
      (fun p => (self', p.2)) <$> AdjacencyCore_getpoints example_bound.
Proof.
  assert (exists self' r,
            AdjacencyCore_apply (H := ones_fastsum) example_bound
              (ApplyArgs (PyArray (vector [1; 2; 3; 4; 5]%float)) None)
            = Some (self', r)) as (self' & r & Hrun)
    by (eexists; eexists; vm_compute; reflexivity).
  exists self', r. split; [exact Hrun|].
  apply (apply_keeps_operator (C := ones_fastsum_contract) example_bound self'
           (ApplyArgs (PyArray (vector [1; 2; 3; 4; 5]%float)) None) r).
  - exact example_bound_inv.
  - apply value_wf_intro. apply array_wf_intro; reflexivity.
  - exact Hrun.
Defined.

Lemma eigs_keeps_operator_witness :
  exists self' r,
    AdjacencyCore_normalized_eigs (H := ones_fastsum) (H0 := one_step_arpack) 8
      example_bound (EigsArgs 2 None None None None) = Some (self', r) /\
    operator_inv self' /\ same_config example_bound self' /\
    ac_n self' = ac_n example_bound /\
    AdjacencyCore_getpoints self' =
      (fun p => (self', p.2)) <$> AdjacencyCore_getpoints example_bound.
Proof.
  assert (exists self' r,
            AdjacencyCore_normalized_eigs (H := ones_fastsum) (H0 := one_step_arpack) 8
              example_bound (EigsArgs 2 None None None None)
            = Some (self', r)) as (self' & r & Hrun)
    by (eexists; eexists; vm_compute; reflexivity).
  exists self', r. split; [exact Hrun|].
  apply (eigs_keeps_operator (C := ones_fastsum_contract) (H := one_step_arpack)
           8 example_bound self' (EigsArgs 2 None None None None) r).
  - exact example_bound_inv.
  - exact Hrun.
Defined.

Lemma eigs_result_shape_witness :
  exists self' w v,
    AdjacencyCore_normalized_eigs (H := ones_fastsum) (H0 := one_step_arpack) 8
      example_bound (EigsArgs 2 None None None None) =
      Some (self', Return (Eigenpairs w v)) /\
    dims w = [2] /\ array_wf w /\ dims v = [ac_n example_bound; 2] /\ array_wf v.
Proof.
  assert (exists self' w v,
            AdjacencyCore_normalized_eigs (H := ones_fastsum) (H0 := one_step_arpack) 8
              example_bound (EigsArgs 2 None None None None)
            = Some (self', Return (Eigenpairs w v))) as (self' & w & v & Hrun)
    by (eexists; eexists; eexists; vm_compute; reflexivity).
  exists self', w, v. split; [exact Hrun|].
  destruct (eigs_result_shape (C := ones_fastsum_contract) (H := one_step_arpack)
              8 example_bound self' 2 None None None None _ Hrun)
    as [Hr|[Hr|[[Hv _]|(_ & w' & v' & Hr & Hdw & Hww & Hdv & Hwv)]]];
    try discriminate.
  inversion Hr; subst. auto.
Defined.

Lemma eigs_explicit_parameters_witness :
  AdjacencyCore_normalized_eigs (H := ones_fastsum) (H0 := idle_arpack) 8
    example_bound (EigsArgs 3 None (Some 50) (Some 1) None) =
    eigs_run (H := ones_fastsum) (H0 := idle_arpack) 8 example_bound 3 0%float 50 1 true.
Proof.
  apply (eigs_explicit_parameters (H := ones_fastsum) (H0 := idle_arpack) 8
           example_bound 3 1 None (Some 50) None).
  - reflexivity.
  - discriminate.
  - simpl. rewrite !int_args_cons.
    unfold CInt.in_range, CInt.min_signed, CInt.max_signed.
    repeat split; try lia. apply int_args_nil. exact I.
  - lia.
Defined.

(** ** The values [normalized_eigs] returns *)








